(** * CHEQR: the QR attendance protocol of the lecturer and student dashboards

    A shallow embedding of the token generator, the scan handler and the
    attendance poller of the CHEQR mobile client, together with the parts
    of the JavaScript runtime they rely on ([Date], [JSON]).

    Layout:
    - [JSDate]  : time values, the proleptic Gregorian calendar,
                  [Date.prototype.toISOString] and the parser of its format;
    - [JSON]    : JSON values, [JSON.stringify] of a flat object of strings
                  and [JSON.parse];
    - [JSNumber]: the Number value of a decimal;
    - [Api]     : the [Course] interface and the attendance records served
                  by the REST backend;
    - [Lecturer]: [getPhilippineTime], the dashboard's [generateQRData], and
                  the course card's [checkExistingQRCode], [handleGenerateQR],
                  [handleConfirmGenerateQR] and [handleNewScan];
    - [Sessions]: the store of sessions behind the card's QR button, and
                  the presses and confirmations of its devices;
    - [Student] : [handleBarCodeScanned];
    - [Ledger]  : the count of recent scans as the specification words it;
    - [Samples] : the data of the worked examples;
    - [Display] : [formatPhilippineTime] and [formatSessionTabTime];
    - [JSArray] : [Array.prototype.sort];
    - [CardViews]  : the card's countdown, [handleViewAttendance] and the
                     run of the poller;
    - [Departments]: the department chips of the lecturer dashboard;
    - [Scanner] : [fetchEnrolledCourses], [handleScanPress] and the state
                  of the student's scanner around [handleBarCodeScanned];
    - [ViewSamples]: more data for the worked examples.

    The properties follow the definitions, module by module. *)

From Stdlib Require Import ZArith List String Ascii Bool Lia.
From Stdlib Require Import Permutation Sorted DecimalString.
Import ListNotations.

Local Open Scope Z_scope.
Set Warnings "-register-all".

(** ** Generic helpers *)

(** [range_all P lo k] checks [P] on the [2^k] integers from [lo] on. *)
Fixpoint range_all (P : Z -> bool) (lo : Z) (k : nat) : bool :=
  match k with
  | O => P lo
  | S k' => range_all P lo k' && range_all P (lo + 2 ^ Z.of_nat k') k'
  end.

(** ** JavaScript dates *)

Module JSDate.

(** A [Date] holds a time value: an integral number of milliseconds since
    the epoch, or [NaN] (an "Invalid Date"), which is [None] here. *)
Definition Date := option Z.

Definition msPerDay : Z := 86400000.
Definition maxTime : Z := 8640000000000000.

(** [TimeClip]: what [new Date(t)] keeps of a number. *)
Definition TimeClip (t : Z) : Date :=
  if Z.abs t <=? maxTime then Some t else None.

(** [new Date(n)] for a number that may be [NaN]. *)
Definition of_number (n : option Z) : Date :=
  match n with Some t => TimeClip t | None => None end.

Definition getTime (d : Date) : option Z := d.

(** [a + k] on numbers. *)
Definition num_add (a : option Z) (k : Z) : option Z :=
  match a with Some x => Some (x + k) | None => None end.

(** [a - b] on numbers. *)
Definition num_sub (a b : option Z) : option Z :=
  match a, b with Some x, Some y => Some (x - y) | _, _ => None end.

(** Relational operators: every comparison with [NaN] is false. *)
Definition num_gt (a b : option Z) : bool :=
  match a, b with Some x, Some y => y <? x | _, _ => false end.

Definition num_lt (a b : option Z) : bool := num_gt b a.

Definition num_le (a b : option Z) : bool :=
  match a, b with Some x, Some y => x <=? y | _, _ => false end.

(** [d1 > d2] on [Date] objects compares their time values. *)
Definition date_gt (d1 d2 : Date) : bool := num_gt (getTime d1) (getTime d2).

(** *** Calendar *)

Definition Day (t : Z) : Z := t / msPerDay.
Definition TimeWithinDay (t : Z) : Z := t mod msPerDay.

(** Day of the 400-year era ([0 .. 146096], counted from March 1st) to
    year of era, month and day of month. *)
Definition civil_of_doe (doe : Z) : Z * Z * Z :=
  let yoe := (doe - doe / 1460 + doe / 36524 - doe / 146096) / 365 in
  let doy := doe - (365 * yoe + yoe / 4 - yoe / 100) in
  let mp := (5 * doy + 2) / 153 in
  let d := doy - (153 * mp + 2) / 5 + 1 in
  let m := if mp <? 10 then mp + 3 else mp - 9 in
  (yoe + (if m <=? 2 then 1 else 0), m, d).

(** Day number (days since the epoch) to (year, month, day). *)
Definition civil_from_days (z : Z) : Z * Z * Z :=
  let z' := z + 719468 in
  let era := z' / 146097 in
  let '(y, m, d) := civil_of_doe (z' mod 146097) in
  (y + era * 400, m, d).

(** (year, month, day) to day number. *)
Definition days_from_civil (y m d : Z) : Z :=
  let y' := if m <=? 2 then y - 1 else y in
  let era := y' / 400 in
  let yoe := y' mod 400 in
  let doy := (153 * (if 2 <? m then m - 3 else m + 9) + 2) / 5 + d - 1 in
  let doe := yoe * 365 + yoe / 4 - yoe / 100 + doy in
  era * 146097 + doe - 719468.

Definition isLeap (y : Z) : bool :=
  (y mod 4 =? 0) && (negb (y mod 100 =? 0) || (y mod 400 =? 0)).

Definition DaysInMonth (y m : Z) : Z :=
  if m =? 2 then (if isLeap y then 29 else 28)
  else if (m =? 4) || (m =? 6) || (m =? 9) || (m =? 11) then 30
  else 31.

(** *** Decimal fields *)

Definition digit_char (n : Z) : ascii := ascii_of_N (Z.to_N (48 + n mod 10)).

Definition digit_val (c : ascii) : option Z :=
  let n := Z.of_N (N_of_ascii c) in
  if (48 <=? n) && (n <=? 57) then Some (n - 48) else None.

Definition pad2 (n : Z) (k : string) : string :=
  String (digit_char (n / 10)) (String (digit_char n) k).

Definition pad3 (n : Z) (k : string) : string :=
  String (digit_char (n / 100)) (pad2 n k).

Definition pad4 (n : Z) (k : string) : string :=
  String (digit_char (n / 1000)) (pad3 n k).

Definition pad6 (n : Z) (k : string) : string :=
  String (digit_char (n / 100000)) (String (digit_char (n / 10000)) (pad4 n k)).

(** The year field: four digits for years 0 to 9999, a sign and six digits
    (the "expanded" form) otherwise. *)
Definition fmt_year (y : Z) (k : string) : string :=
  if (0 <=? y) && (y <=? 9999) then pad4 y k
  else String (if y <? 0 then "-"%char else "+"%char) (pad6 (Z.abs y) k).

Definition sep (c : ascii) (k : string) : string := String c k.

(** [Date.prototype.toISOString]: [None] is the [RangeError] thrown on an
    invalid date. *)
Definition toISOString (d : Date) : option string :=
  match d with
  | None => None
  | Some t =>
      let '(y, m, dd) := civil_from_days (Day t) in
      let tod := TimeWithinDay t in
      Some (fmt_year y (sep "-" (pad2 m (sep "-" (pad2 dd (sep "T"
             (pad2 (tod / 3600000) (sep ":"
             (pad2 (tod / 60000 mod 60) (sep ":"
             (pad2 (tod / 1000 mod 60) (sep "."
             (pad3 (tod mod 1000) "Z")))))))))))))
  end.

Definition num2 (a b : ascii) : option Z :=
  match digit_val a, digit_val b with
  | Some x, Some y => Some (10 * x + y)
  | _, _ => None
  end.

Definition num3 (a b c : ascii) : option Z :=
  match digit_val a, num2 b c with
  | Some x, Some y => Some (100 * x + y)
  | _, _ => None
  end.

Definition num4 (a b c d : ascii) : option Z :=
  match digit_val a, num3 b c d with
  | Some x, Some y => Some (1000 * x + y)
  | _, _ => None
  end.

(** The time value of the fields of a date-time, when each is in range. *)
Definition make_time (y mo d h mi s f : Z) : option Z :=
  if (1 <=? mo) && (mo <=? 12) && (1 <=? d) && (d <=? DaysInMonth y mo)
     && (h <=? 23) && (mi <=? 59) && (s <=? 59)
  then Some (days_from_civil y mo d * msPerDay
             + h * 3600000 + mi * 60000 + s * 1000 + f)
  else None.

(** Parser of the 24-character form [YYYY-MM-DDTHH:mm:ss.sssZ], the one
    [toISOString] prints for years 0 to 9999.  Every other string is left
    to [Date.parse]'s other formats (see [Date_parse] below). *)
Definition parse_iso (s : string) : option Z :=
  match list_ascii_of_string s with
  | [y1; y2; y3; y4; c1; mo1; mo2; c2; d1; d2; c3; h1; h2; c4;
     mi1; mi2; c5; s1; s2; c6; f1; f2; f3; c7] =>
      if (c1 =? "-")%char && (c2 =? "-")%char && (c3 =? "T")%char
         && (c4 =? ":")%char && (c5 =? ":")%char && (c6 =? ".")%char
         && (c7 =? "Z")%char
      then
        match num4 y1 y2 y3 y4, num2 mo1 mo2, num2 d1 d2, num2 h1 h2,
              num2 mi1 mi2, num2 s1 s2, num3 f1 f2 f3 with
        | Some y, Some mo, Some d, Some h, Some mi, Some s, Some f =>
            make_time y mo d h mi s f
        | _, _, _, _, _, _, _ => None
        end
      else None
  | _ => None
  end.

(** [Date.parse]: the format above is fixed by the language; what any
    other string yields (the further ISO forms with offsets or without a
    time, and the engine's own legacy formats) is the engine's business
    and comes in as [legacy]. *)
Definition Date_parse (legacy : string -> option Z) (s : string) : Date :=
  match parse_iso s with
  | Some t => Some t
  | None => of_number (legacy s)
  end.

(** What the month and day that [civil_of_doe] computes owe on the day
    [doy] of a year that starts in March (the 366th day is a leap day). *)
Definition doy_ok (doy : Z) : bool :=
  let mp := (5 * doy + 2) / 153 in
  let d := doy - (153 * mp + 2) / 5 + 1 in
  let m := if mp <? 10 then mp + 3 else mp - 9 in
  (1 <=? m) && (m <=? 12) && (1 <=? d)
  && (d <=? (if m =? 2 then (if doy =? 365 then 29 else 28)
             else DaysInMonth 1 m))
  && ((153 * (if 2 <? m then m - 3 else m + 9) + 2) / 5 + d - 1 =? doy)
  && Bool.eqb (m <=? 2) (306 <=? doy).

(** Years 0 to 9999 are the time values of the four-digit form. *)
Definition minISO : Z := -62167219200000.
Definition maxISO : Z := 253402300799999.

End JSDate.

(** ** JSON *)

Module JSON.

(** Strings are sequences of UTF-8 bytes.  A number keeps its literal as
    the exact decimal [m * 10^e]; its rounding to a double is not
    modelled. *)
Inductive value : Type :=
| JNull
| JBool (b : bool)
| JNum (m e : Z)
| JStr (s : string)
| JArr (items : list value)
| JObj (members : list (string * value)).

Definition code (c : ascii) : Z := Z.of_N (N_of_ascii c).
Definition byte (n : Z) : ascii := ascii_of_N (Z.to_N n).

(** The quotation mark. *)
Definition dquote : ascii := "034"%char.

(** *** [JSON.stringify] of an object whose members are strings *)

Definition hex_digit (n : Z) : ascii :=
  if n <? 10 then byte (48 + n) else byte (87 + n).

(** [QuoteJSONString], one character at a time. *)
Definition quote_char (c : ascii) (k : string) : string :=
  let n := code c in
  if n =? 34 then String "\" (String dquote k)
  else if n =? 92 then String "\" (String "\" k)
  else if n =? 8 then String "\" (String "b" k)
  else if n =? 12 then String "\" (String "f" k)
  else if n =? 10 then String "\" (String "n" k)
  else if n =? 13 then String "\" (String "r" k)
  else if n =? 9 then String "\" (String "t" k)
  else if n <? 32 then
    String "\" (String "u" (String "0" (String "0"
      (String (hex_digit (n / 16)) (String (hex_digit (n mod 16)) k)))))
  else String c k.

Fixpoint quote_chars (s : string) (k : string) : string :=
  match s with
  | EmptyString => k
  | String c r => quote_char c (quote_chars r k)
  end.

Definition quote (s : string) (k : string) : string :=
  String dquote (quote_chars s (String dquote k)).

Fixpoint stringify_members (l : list (string * string)) (k : string) : string :=
  match l with
  | [] => k
  | (key, v) :: rest =>
      quote key (String ":" (quote v
        match rest with
        | [] => k
        | _ :: _ => String "," (stringify_members rest k)
        end))
  end.

Definition stringify_object (l : list (string * string)) : string :=
  String "{" (stringify_members l (String "}" EmptyString)).

(** *** [JSON.parse] *)

Definition is_ws (c : ascii) : bool :=
  let n := code c in (n =? 32) || (n =? 9) || (n =? 10) || (n =? 13).

Fixpoint skip_ws (s : string) : string :=
  match s with
  | EmptyString => EmptyString
  | String c r => if is_ws c then skip_ws r else s
  end.

Definition hex_val (c : ascii) : option Z :=
  let n := code c in
  if (48 <=? n) && (n <=? 57) then Some (n - 48)
  else if (65 <=? n) && (n <=? 70) then Some (n - 55)
  else if (97 <=? n) && (n <=? 102) then Some (n - 87)
  else None.

Definition hex4 (a b c d : ascii) : option Z :=
  match hex_val a, hex_val b, hex_val c, hex_val d with
  | Some x, Some y, Some z, Some w => Some (4096 * x + 256 * y + 16 * z + w)
  | _, _, _, _ => None
  end.

(** A code point as UTF-8 bytes (a lone surrogate keeps its three-byte
    form). *)
Definition utf8 (cp : Z) (k : string) : string :=
  if cp <? 128 then String (byte cp) k
  else if cp <? 2048 then
    String (byte (192 + cp / 64)) (String (byte (128 + cp mod 64)) k)
  else if cp <? 65536 then
    String (byte (224 + cp / 4096))
      (String (byte (128 + cp / 64 mod 64)) (String (byte (128 + cp mod 64)) k))
  else
    String (byte (240 + cp / 262144))
      (String (byte (128 + cp / 4096 mod 64))
        (String (byte (128 + cp / 64 mod 64))
          (String (byte (128 + cp mod 64)) k))).

Definition is_high (u : Z) : bool := (55296 <=? u) && (u <=? 56319).
Definition is_low (u : Z) : bool := (56320 <=? u) && (u <=? 57343).

Definition simple_escape (e : ascii) : option ascii :=
  let n := code e in
  if n =? 34 then Some dquote
  else if n =? 92 then Some "\"%char
  else if n =? 47 then Some "/"%char
  else if n =? 98 then Some (byte 8)
  else if n =? 102 then Some (byte 12)
  else if n =? 110 then Some (byte 10)
  else if n =? 114 then Some (byte 13)
  else if n =? 116 then Some (byte 9)
  else None.

Definition prepend (f : string -> string) (r : option (string * string))
  : option (string * string) :=
  match r with
  | Some (s, rest) => Some (f s, rest)
  | None => None
  end.

(** The characters of a string literal after its opening quote: the
    decoded string and what follows the closing quote. *)
Fixpoint parse_chars (s : string) : option (string * string) :=
  match s with
  | EmptyString => None
  | String c r =>
      if code c =? 34 then Some (EmptyString, r)
      else if code c =? 92 then
        match r with
        | EmptyString => None
        | String e r1 =>
            if code e =? 117 then
              match r1 with
              | String h1 (String h2 (String h3 (String h4 r2))) =>
                  match hex4 h1 h2 h3 h4 with
                  | None => None
                  | Some u =>
                      if is_high u then
                        match r2 with
                        | String b (String v (String l1 (String l2
                            (String l3 (String l4 r3))))) =>
                            match hex4 l1 l2 l3 l4 with
                            | Some w =>
                                if (code b =? 92) && (code v =? 117)
                                   && is_low w
                                then prepend
                                       (utf8 (65536 + (u - 55296) * 1024
                                              + (w - 56320)))
                                       (parse_chars r3)
                                else prepend (utf8 u) (parse_chars r2)
                            | None => prepend (utf8 u) (parse_chars r2)
                            end
                        | _ => prepend (utf8 u) (parse_chars r2)
                        end
                      else prepend (utf8 u) (parse_chars r2)
                  end
              | _ => None
              end
            else
              match simple_escape e with
              | Some x => prepend (String x) (parse_chars r1)
              | None => None
              end
        end
      else if code c <? 32 then None
      else prepend (String c) (parse_chars r)
  end.

(** A run of decimal digits: its value, its length, and the rest. *)
Fixpoint digits (s : string) (acc n : Z) : Z * Z * string :=
  match s with
  | EmptyString => (acc, n, s)
  | String c r =>
      match JSDate.digit_val c with
      | Some d => digits r (10 * acc + d) (n + 1)
      | None => (acc, n, s)
      end
  end.

Definition starts_with (c : Z) (s : string) : option string :=
  match s with
  | String x r => if code x =? c then Some r else None
  | EmptyString => None
  end.

(** The integer part: a single [0], or a digit run without leading [0]. *)
Definition parse_int (s : string) : option (Z * string) :=
  match s with
  | EmptyString => None
  | String c r =>
      if code c =? 48 then Some (0, r)
      else
        match digits s 0 0 with
        | (v, n, rest) => if 0 <? n then Some (v, rest) else None
        end
  end.

Definition parse_frac (m : Z) (s : string) : option (Z * Z * string) :=
  match starts_with 46 s with
  | None => Some (m, 0, s)
  | Some r =>
      match digits r m 0 with
      | (v, n, rest) => if 0 <? n then Some (v, - n, rest) else None
      end
  end.

Definition parse_exp (s : string) : option (Z * string) :=
  match s with
  | String c r =>
      if (code c =? 101) || (code c =? 69) then
        let '(sign, r') :=
          match r with
          | String x r1 =>
              if code x =? 45 then (-1, r1)
              else if code x =? 43 then (1, r1) else (1, r)
          | EmptyString => (1, r)
          end in
        match digits r' 0 0 with
        | (v, n, rest) => if 0 <? n then Some (sign * v, rest) else None
        end
      else Some (0, s)
  | EmptyString => Some (0, s)
  end.

Definition parse_number (s : string) : option (value * string) :=
  let '(sign, s1) :=
    match starts_with 45 s with Some r => (-1, r) | None => (1, s) end in
  match parse_int s1 with
  | None => None
  | Some (i, s2) =>
      match parse_frac i s2 with
      | None => None
      | Some (m, e1, s3) =>
          match parse_exp s3 with
          | None => None
          | Some (e2, s4) => Some (JNum (sign * m) (e1 + e2), s4)
          end
      end
  end.

Fixpoint strip (p s : string) : option string :=
  match p with
  | EmptyString => Some s
  | String a p' =>
      match s with
      | String b s' => if (a =? b)%char then strip p' s' else None
      | EmptyString => None
      end
  end.

Definition literal (p : string) (v : value) (s : string)
  : option (value * string) :=
  match strip p s with Some r => Some (v, r) | None => None end.

Fixpoint parse_value (fuel : nat) (s : string) {struct fuel}
  : option (value * string) :=
  match fuel with
  | O => None
  | S f =>
      match skip_ws s with
      | EmptyString => None
      | String c r =>
          if code c =? 123 then
            match starts_with 125 (skip_ws r) with
            | Some r' => Some (JObj [], r')
            | None => parse_members f r []
            end
          else if code c =? 91 then
            match starts_with 93 (skip_ws r) with
            | Some r' => Some (JArr [], r')
            | None => parse_elems f r []
            end
          else if code c =? 34 then
            match parse_chars r with
            | Some (x, r') => Some (JStr x, r')
            | None => None
            end
          else if code c =? 116 then literal "rue" (JBool true) r
          else if code c =? 102 then literal "alse" (JBool false) r
          else if code c =? 110 then literal "ull" JNull r
          else parse_number (String c r)
      end
  end
with parse_elems (fuel : nat) (s : string) (acc : list value) {struct fuel}
  : option (value * string) :=
  match fuel with
  | O => None
  | S f =>
      match parse_value f s with
      | None => None
      | Some (v, r) =>
          match skip_ws r with
          | EmptyString => None
          | String c r' =>
              if code c =? 44 then parse_elems f r' (v :: acc)
              else if code c =? 93 then Some (JArr (rev (v :: acc)), r')
              else None
          end
      end
  end
with parse_members (fuel : nat) (s : string) (acc : list (string * value))
  {struct fuel} : option (value * string) :=
  match fuel with
  | O => None
  | S f =>
      match starts_with 34 (skip_ws s) with
      | None => None
      | Some r0 =>
          match parse_chars r0 with
          | None => None
          | Some (key, r1) =>
              match starts_with 58 (skip_ws r1) with
              | None => None
              | Some r2 =>
                  match parse_value f r2 with
                  | None => None
                  | Some (v, r3) =>
                      match skip_ws r3 with
                      | EmptyString => None
                      | String c r4 =>
                          if code c =? 44
                          then parse_members f r4 ((key, v) :: acc)
                          else if code c =? 125
                          then Some (JObj (rev ((key, v) :: acc)), r4)
                          else None
                      end
                  end
              end
          end
      end
  end.

(** [JSON.parse]: [None] is the [SyntaxError] it throws.  The fuel only
    makes the recursion structural: a text that parses with any fuel
    parses with this one ([ParserFacts.parse_fuel_enough]). *)
Definition parse (s : string) : option value :=
  match parse_value (2 * String.length s + 2) s with
  | Some (v, r) =>
      match skip_ws r with
      | EmptyString => Some v
      | String _ _ => None
      end
  | None => None
  end.

(** Reading a property: a later duplicate of a name overrides an earlier
    one, so the last member of that name is the one found. *)
Fixpoint lookup (k : string) (l : list (string * value)) : option value :=
  match l with
  | [] => None
  | (k', v) :: rest =>
      match lookup k rest with
      | Some v' => Some v'
      | None => if String.eqb k' k then Some v else None
      end
  end.

(** A string member of a stringified object, as it parses back. *)
Definition as_member (kv : string * string) : string * value :=
  (fst kv, JStr (snd kv)).

(** A parse that succeeds with some fuel consumes at least one character
    and succeeds, with the same result, with any fuel that is at least the
    number of characters it consumes. *)
Definition adequate {A : Type} (p : nat -> string -> option (A * string))
    (f : nat) : Prop :=
  forall s v r, p f s = Some (v, r) ->
    (String.length r < String.length s)%nat
    /\ forall f', (String.length s - String.length r <= f')%nat -> p f' s = Some (v, r).

End JSON.

(** ** JavaScript numbers *)

Module JSNumber.

(** A Number other than [NaN]: the double [s * 2^k], or an infinity. *)
Inductive Number : Type :=
| Finite (s k : Z)
| Infinity (negative : bool).

(** [floor (log2 (n / d))] for positive [n] and [d]. *)
Definition log2_ratio (n d : Z) : Z :=
  let b := Z.log2 n - Z.log2 d in
  let reaches := if 0 <=? b then d * 2 ^ b <=? n else d <=? n * 2 ^ (- b) in
  if reaches then b else b - 1.

(** [n / d] counted in units of [2^k] and rounded to the nearest integer,
    a tie to the even one. *)
Definition round_ratio (n d k : Z) : Z :=
  let num := if 0 <=? k then n else n * 2 ^ (- k) in
  let den := if 0 <=? k then d * 2 ^ k else d in
  let q := num / den in
  let r := num mod den in
  if (den <? 2 * r) || ((2 * r =? den) && Z.odd q) then q + 1 else q.

(** The Number value of the decimal [m * 10^e], as [JSON.parse] gives it
    for a number of the text: the nearest double (a significand of 53
    bits, the unit no smaller than [2^-1074]), a tie to the even
    significand, and an infinity from [2^1024] on. *)
Definition of_decimal (m e : Z) : Number :=
  if m =? 0 then Finite 0 0
  else
    let n := if 0 <=? e then Z.abs m * 10 ^ e else Z.abs m in
    let d := if 0 <=? e then 1 else 10 ^ (- e) in
    let k := Z.max (log2_ratio n d - 52) (-1074) in
    let s := round_ratio n d k in
    if (971 <? k) || ((k =? 971) && (2 ^ 53 <=? s))
    then Infinity (m <? 0)
    else Finite (Z.sgn m * s) k.

(** [x === 0], for either zero. *)
Definition is_zero (x : Number) : bool :=
  match x with Finite s _ => s =? 0 | Infinity _ => false end.

(** [ToIntegerOrInfinity] of a finite number: its integral part. *)
Definition truncate (x : Number) : option Z :=
  match x with
  | Finite s k => Some (if 0 <=? k then s * 2 ^ k else Z.quot s (2 ^ (- k)))
  | Infinity _ => None
  end.

End JSNumber.

(** ** The REST interface *)

Module Api.

(** The [Course] interface of [lib/api] (the fields the dashboards read). *)
Record Course : Type := {
  _id : string;
  courseCode : string;
  courseName : string;
  lecturerId : option string;
  students : option (list string)
}.

(** One entry of a session's [scannedBy] array. *)
Record Scan : Type := {
  studentId : string;
  scannedAt : string
}.

(** One session as [GET /attendance/course/:id] returns it. *)
Record AttendanceRecord : Type := {
  qrCodeData : string;
  generatedAt : string;
  expiresAt : string;
  scannedBy : list Scan
}.

(** What an awaited [fetch] comes to: it throws, or answers with
    [response.ok] false, or answers with a body. *)
Inductive Response (A : Type) : Type :=
| NetworkError
| NotOk
| Ok (body : A).

Arguments NetworkError {A}.
Arguments NotOk {A}.
Arguments Ok {A} body.

End Api.

(** ** The lecturer dashboard *)

Module Lecturer.
Import JSDate Api.
Local Open Scope string_scope.
Local Open Scope Z_scope.

(** [getPhilippineTime]: the device clock, moved eight hours ahead. *)
Definition getPhilippineTime (now : Z) : Date :=
  let utcTimeMs := now in
  TimeClip (utcTimeMs + 8 * 60 * 60 * 1000).

Module LecturerDashboard.

(** The object literal that [generateQRData] hands to [JSON.stringify]. *)
Definition qrPayload (courseId courseCode courseName generatedAt expiresAt
                      : string) : list (string * string) :=
  [("courseId", courseId);
   ("courseCode", courseCode);
   ("courseName", courseName);
   ("generatedAt", generatedAt);
   ("expiresAt", expiresAt)].

(** [generateQRData] of the dashboard: the token of a course, as the text
    a QR image carries.  [None] is the [RangeError] of [toISOString]. *)
Definition generateQRData (now : Z) (course : Course) : option string :=
  let phTime := getPhilippineTime now in
  let expiryTime := of_number (num_add (getTime phTime) (60 * 60 * 1000)) in
  match toISOString phTime, toISOString expiryTime with
  | Some generated, Some expires =>
      Some (JSON.stringify_object
              (qrPayload (_id course) (courseCode course) (courseName course)
                         generated expires))
  | _, _ => None
  end.

(** The object a token text parses to. *)
Definition qrObject (courseId courseCode courseName generatedAt expiresAt
                     : string) : JSON.value :=
  JSON.JObj [("courseId", JSON.JStr courseId);
        ("courseCode", JSON.JStr courseCode);
        ("courseName", JSON.JStr courseName);
        ("generatedAt", JSON.JStr generatedAt);
        ("expiresAt", JSON.JStr expiresAt)].

End LecturerDashboard.

Module CourseCard.

(** The state of a [CourseCard] that the generator and the poller touch. *)
Record CardState : Type := {
  qrData : option (string * string);
  showQRModal : bool;
  showConfirmModal : bool;
  newScans : Z;
  lastCheckTime : Z
}.

Definition setQRData (d : option (string * string)) (st : CardState) :=
  {| qrData := d; showQRModal := showQRModal st;
     showConfirmModal := showConfirmModal st;
     newScans := newScans st; lastCheckTime := lastCheckTime st |}.

Definition setShowQRModal (b : bool) (st : CardState) :=
  {| qrData := qrData st; showQRModal := b;
     showConfirmModal := showConfirmModal st;
     newScans := newScans st; lastCheckTime := lastCheckTime st |}.

Definition setShowConfirmModal (b : bool) (st : CardState) :=
  {| qrData := qrData st; showQRModal := showQRModal st;
     showConfirmModal := b;
     newScans := newScans st; lastCheckTime := lastCheckTime st |}.

Definition setNewScans (n : Z) (st : CardState) :=
  {| qrData := qrData st; showQRModal := showQRModal st;
     showConfirmModal := showConfirmModal st;
     newScans := n; lastCheckTime := lastCheckTime st |}.

Definition setLastCheckTime (t : Z) (st : CardState) :=
  {| qrData := qrData st; showQRModal := showQRModal st;
     showConfirmModal := showConfirmModal st;
     newScans := newScans st; lastCheckTime := t |}.

(** What a poller tick did: the state it left and whether it sent its
    request to the backend. *)
Record Tick : Type := {
  after : CardState;
  fetched : bool
}.

Section Engine.

(** [Date.parse] outside the [toISOString] format (see [JSDate.Date_parse]). *)
Variable legacy : string -> option Z.

(** [new Date(record.expiresAt) > phTime] *)
Definition stillValid (phTime : Date) (record : AttendanceRecord) : bool :=
  date_gt (Date_parse legacy (expiresAt record)) phTime.

(** [checkExistingQRCode]: [resp] is the answer to the fetch of the
    course's sessions, [now] the clock when it has arrived. *)
Definition checkExistingQRCode (resp : Response (list AttendanceRecord))
    (now : Z) (st : CardState) : bool * CardState :=
  match resp with
  | Ok records =>
      let phTime := getPhilippineTime now in
      match find (stillValid phTime) records with
      | Some validRecord =>
          (true,
           setShowQRModal true
             (setQRData (Some (qrCodeData validRecord, expiresAt validRecord))
                st))
      | None => (false, st)
      end
  | NotOk | NetworkError => (false, st)
  end.

(** [handleGenerateQR] *)
Definition handleGenerateQR (resp : Response (list AttendanceRecord))
    (now : Z) (st : CardState) : CardState :=
  let '(hasValidQR, st1) := checkExistingQRCode resp now st in
  if negb hasValidQR then setShowConfirmModal true st1 else st1.

(** [generateQRData] of the card: the request for a new session; [reply]
    is the backend's answer, [qrData] and [expiresAt] of the new session. *)
Definition generateQRData (course : Course) (reply : Response (string * string))
  : option (string * string) :=
  match lecturerId course with
  | None => None
  | Some _ =>
      match reply with
      | Ok data => Some data
      | NotOk | NetworkError => None
      end
  end.

(** [handleConfirmGenerateQR] *)
Definition handleConfirmGenerateQR (course : Course)
    (reply : Response (string * string)) (st : CardState) : CardState :=
  let st1 := setShowConfirmModal false st in
  match generateQRData course reply with
  | Some newQRData => setShowQRModal true (setQRData (Some newQRData) st1)
  | None => st1
  end.

(** The [reduce] of [handleNewScan]: the badge count. *)
Definition recentScans (phTime : Date) (records : list AttendanceRecord) : Z :=
  fold_left
    (fun count record =>
       let recordTime := Date_parse legacy (generatedAt record) in
       let timeDiff := num_sub (getTime phTime) (getTime recordTime) in
       if num_le timeDiff (Some (5 * 60 * 1000))
       then count + Z.of_nat (List.length (scannedBy record))
       else count)
    records 0.

(** [handleNewScan], one tick of the poller: [now] is the clock when the
    tick starts, [later] the clock when the answer [resp] has arrived. *)
Definition handleNewScan (now later : Z)
    (resp : Response (list AttendanceRecord)) (st : CardState) : Tick :=
  let timeSinceLastCheck := now - lastCheckTime st in
  if timeSinceLastCheck <? 3000 then {| after := st; fetched := false |}
  else
    match resp with
    | Ok records =>
        let phTime := getPhilippineTime later in
        {| after := setLastCheckTime now
                      (setNewScans (recentScans phTime records) st);
           fetched := true |}
    | NotOk | NetworkError => {| after := st; fetched := true |}
    end.

End Engine.

End CourseCard.

End Lecturer.

(** ** The session store behind the lecturer's card *)

Module Sessions.
Import JSDate Api Lecturer Lecturer.CourseCard.
Local Open Scope Z_scope.

(** Modelled from the spec: the backend that serves
    [GET /attendance/course/:id] and [POST /attendance/generate-qr] is not
    part of the client sources.  After the spec's external interfaces,
    [ListSessionsForCourse] returns the sessions persisted for the course
    and [CreateSession] persists the session it creates and returns it.
    Which session the backend creates is left open: it comes in with the
    confirmation.  The course's card can be on the screen of several
    devices at once: [cards] has the card of each. *)
Record World : Type := {
  sessions : list AttendanceRecord;
  cards : nat -> CardState
}.

Definition setCard (device : nat) (st : CardState) (w : World) : World :=
  {| sessions := sessions w;
     cards := fun d => if Nat.eqb d device then st else cards w d |}.

(** What happens around the QR button, one event at a time.  The check
    and the request for a new session are two handlers behind two
    buttons, and nothing keeps another press or confirmation, on this
    device or another, from coming between them:
    - [Press]: the QR button, [handleGenerateQR] at the time [clock], its
      fetch of the sessions succeeding or not;
    - [Confirm]: [Generate] in the confirmation,
      [handleConfirmGenerateQR], with the session the backend creates if
      the request reaches it and succeeds;
    - [Cancel]: [Cancel] in the confirmation, or closing it. *)
Inductive Event : Type :=
| Press (device : nat) (clock : Z) (fetchOk : bool)
| Confirm (device : nat) (created : option AttendanceRecord)
| Cancel (device : nat).

Section Engine.

Variable legacy : string -> option Z.
Variable course : Course.

(** One event.  The confirmation's buttons are there while it shows. *)
Definition step (w : World) (e : Event) : World :=
  match e with
  | Press device clock fetchOk =>
      let resp := if fetchOk then Ok (sessions w) else NotOk in
      setCard device (handleGenerateQR legacy resp clock (cards w device)) w
  | Confirm device created =>
      if showConfirmModal (cards w device) then
        match lecturerId course, created with
        | Some _, Some r =>
            setCard device
              (handleConfirmGenerateQR course
                 (Ok (qrCodeData r, expiresAt r)) (cards w device))
              {| sessions := sessions w ++ [r]; cards := cards w |}
        | _, _ =>
            setCard device
              (handleConfirmGenerateQR course NotOk (cards w device)) w
        end
      else w
  | Cancel device =>
      if showConfirmModal (cards w device)
      then setCard device (setShowConfirmModal false (cards w device)) w
      else w
  end.

Definition exec (w : World) (events : list Event) : World :=
  fold_left step events w.

(** The sessions that [checkExistingQRCode] would take for valid at the
    device time [t]. *)
Definition live (t : Z) (w : World) : list AttendanceRecord :=
  filter (stillValid legacy (getPhilippineTime t)) (sessions w).

(** No confirmation is open on any device, and at most one session is
    live. *)
Definition settled (t : Z) (w : World) : Prop :=
  (forall d, showConfirmModal (cards w d) = false)
  /\ (List.length (live t w) <= 1)%nat.

End Engine.

(** A request handled alone: a press of the QR button on a device at the
    time [clock] and, when the confirmation opens, the lecturer's answer
    to it ([Generate] or [Cancel]) before anything else happens. *)
Record Request : Type := {
  device : nat;
  clock : Z;
  fetchOk : bool;
  confirmed : bool;
  created : option AttendanceRecord
}.

Definition events_of (rq : Request) : list Event :=
  [Press (device rq) (clock rq) (fetchOk rq);
   if confirmed rq then Confirm (device rq) (created rq)
   else Cancel (device rq)].

(** Requests handled one after the other. *)
Definition serial (rqs : list Request) : list Event :=
  flat_map events_of rqs.

(** The device clock gives a time value in the range of [Date]. *)
Definition device_time (t : Z) : Prop := Z.abs t <= maxTime.

(** Requests in the order of their times, none before [t]. *)
Fixpoint in_order (t : Z) (rqs : list Request) : Prop :=
  match rqs with
  | [] => True
  | rq :: rest => t <= clock rq /\ device_time (clock rq) /\ in_order (clock rq) rest
  end.

Definition last_clock (t : Z) (rqs : list Request) : Z :=
  fold_left (fun _ rq => clock rq) rqs t.

End Sessions.

(** ** The student dashboard *)

Module Student.
Import JSDate Api.
Local Open Scope string_scope.
Local Open Scope Z_scope.

(** The messages of the scan handler's [throw]s, and the other ways a
    scan ends in the error modal. *)
Inductive ScanError : Type :=
| InvalidFormat        (* 'Invalid QR code format' *)
| NoCourse             (* 'Course information not available' *)
| WrongCourse          (* 'This QR code is for ... You are trying to ...' *)
| NotEnrolled          (* 'You are not enrolled in ...' *)
| Expired              (* 'This QR code has expired. ...' *)
| TypeError.           (* a property read on null, a failed conversion *)

(** The body of [POST /attendance/scan]. *)
Record ScanRequest : Type := {
  req_qrData : string;
  req_studentId : string;
  req_intendedCourseId : string;
  req_courseCode : string
}.

(** What the scan handler did: it stopped with an error before sending
    anything, or it sent the scan and showed the backend's verdict. *)
Inductive Outcome : Type :=
| Rejected (why : ScanError)
| Submitted (req : ScanRequest) (reply : Response unit).

(** A JavaScript value read from the parsed payload: [None] is
    [undefined]. *)
Definition jsval := option JSON.value.

(** [obj.key]: [None] is the [TypeError] of a read on [null]. *)
Definition get (obj : JSON.value) (key : string) : option jsval :=
  match obj with
  | JSON.JNull => None
  | JSON.JObj members => Some (JSON.lookup key members)
  | _ => Some None
  end.

(** [v === s] for a string [s]. *)
Definition strict_eq (v : jsval) (s : string) : bool :=
  match v with
  | Some (JSON.JStr x) => String.eqb x s
  | _ => false
  end.

(** [ToBoolean] *)
Definition truthy (v : jsval) : bool :=
  match v with
  | None => false
  | Some JSON.JNull => false
  | Some (JSON.JBool b) => b
  | Some (JSON.JNum m e) => negb (JSNumber.is_zero (JSNumber.of_decimal m e))
  | Some (JSON.JStr s) => negb (String.eqb s EmptyString)
  | Some (JSON.JArr _) | Some (JSON.JObj _) => true
  end.

(** [course.students && course.students.includes(id)] *)
Definition includes (id : string) (l : option (list string)) : bool :=
  match l with
  | Some ids => existsb (String.eqb id) ids
  | None => false
  end.

(** [ToString] of a value of the payload throws a [TypeError]: an object
    whose own member [toString] hides the inherited method (no value of a
    JSON text is callable, and the inherited [valueOf] answers the object
    itself), or an array, which joins the strings of its items, with such
    an item. *)
Fixpoint ToString_throws (v : JSON.value) : bool :=
  match v with
  | JSON.JArr items => existsb ToString_throws items
  | JSON.JObj members =>
      existsb (fun member => String.eqb (fst member) "toString") members
  | _ => false
  end.

(** The template [${qrDataObj.courseCode || '...'}] of the two messages
    that name the token's course throws. *)
Definition label_throws (qr_courseCode : jsval) : bool :=
  match qr_courseCode with
  | Some v => truthy qr_courseCode && ToString_throws v
  | None => false
  end.

(** [uid] is on the roster of the course [cid], as the dashboard's list
    of courses has it. *)
Definition enrolledIn (courses : list Course) (cid uid : string) : Prop :=
  exists course ids,
    In course courses /\ _id course = cid
    /\ students course = Some ids /\ In uid ids.

(** The scan that goes to the backend. *)
Definition scanOf (data uid : string) (scanning : Course) : ScanRequest :=
  {| req_qrData := data;
     req_studentId := uid;
     req_intendedCourseId := _id scanning;
     req_courseCode := courseCode scanning |}.

Section Engine.

(** [Date.parse] outside the [toISOString] format, and [new Date(v)] for
    an array or an object [v], whose conversion to a primitive may throw
    ([None]). *)
Variable legacy : string -> option Z.
Variable object_date : JSON.value -> option Date.

(** [new Date(v)] for a value read from the payload. *)
Definition new_Date (v : JSON.value) : option Date :=
  match v with
  | JSON.JStr s => Some (Date_parse legacy s)
  | JSON.JNum m e =>
      Some (match JSNumber.truncate (JSNumber.of_decimal m e) with
            | Some t => TimeClip t
            | None => None
            end)
  | JSON.JBool b => Some (Some (if b then 1 else 0))
  | JSON.JNull => Some (Some 0)
  | JSON.JArr _ | JSON.JObj _ => object_date v
  end.

(** The state of the dashboard the handler reads. *)
Variable courses : list Course.
Variable currentScanningCourse : option Course.
Variable currentUserId : string.

(** [courses.some(course => course._id === qrDataObj.courseId &&
    course.students && course.students.includes(currentUserId))] *)
Definition isEnrolled (qr_courseId : jsval) : bool :=
  existsb
    (fun course =>
       strict_eq qr_courseId (_id course)
       && includes currentUserId (students course))
    courses.

(** [handleBarCodeScanned]: [data] is the scanned text, [now] the device
    clock at the expiry check, [reply] the backend's answer to the scan
    if one is sent.  [message] is the [throw] of an error whose text
    names the token's course: building the text can throw in its turn. *)
Definition handleBarCodeScanned (data : string) (now : Z)
    (reply : Response unit) : Outcome :=
  match JSON.parse data with
  | None => Rejected InvalidFormat
  | Some qrDataObj =>
      match currentScanningCourse with
      | None => Rejected NoCourse
      | Some scanning =>
          match get qrDataObj "courseId" with
          | None => Rejected TypeError
          | Some qr_courseId =>
              let message (why : ScanError) : Outcome :=
                match get qrDataObj "courseCode" with
                | None => Rejected TypeError
                | Some qr_courseCode =>
                    if label_throws qr_courseCode then Rejected TypeError
                    else Rejected why
                end in
              if negb (strict_eq qr_courseId (_id scanning))
              then message WrongCourse
              else
                if negb (isEnrolled qr_courseId) then message NotEnrolled
                else
                  let send :=
                    Submitted
                      {| req_qrData := data;
                         req_studentId := currentUserId;
                         req_intendedCourseId := _id scanning;
                         req_courseCode := courseCode scanning |}
                      reply in
                  match get qrDataObj "expiresAt" with
                  | None => Rejected TypeError
                  | Some qr_expiresAt =>
                      if truthy qr_expiresAt then
                        match qr_expiresAt with
                        | Some v =>
                            match new_Date v with
                            | Some expiryTime =>
                                let currentTime : Date := Some now in
                                if date_gt currentTime expiryTime
                                then Rejected Expired
                                else send
                            | None => Rejected TypeError
                            end
                        | None => send
                        end
                      else send
                  end
          end
      end
  end.

End Engine.

End Student.

(** ** The ledger's count, as specified *)

Module Ledger.
Import JSDate Api.
Local Open Scope Z_scope.

Section Engine.

Variable legacy : string -> option Z.

(** [scannedAt] lies in [[now - window, now]]. *)
Definition inWindow (now window : Z) (scan : Scan) : bool :=
  match Date_parse legacy (scannedAt scan) with
  | Some t => (now - window <=? t) && (t <=? now)
  | None => false
  end.

(** [countRecentScans] in the words of the specification: the scans,
    summed over the sessions of the course, whose [scannedAt] falls within
    [[now - window, now]]. *)
Definition countRecentScans (now window : Z)
    (records : list AttendanceRecord) : Z :=
  fold_left
    (fun count record =>
       count + Z.of_nat (List.length (filter (inWindow now window)
                                             (scannedBy record))))
    records 0.

End Engine.

End Ledger.

(** ** Sample data *)

Module Samples.
Import JSDate Api Lecturer Lecturer.CourseCard Sessions.
Local Open Scope string_scope.
Local Open Scope Z_scope.

(** Two courses; the student [s1] is on both rosters, [s3] only on the
    second. *)
Definition cs101 : Course :=
  {| _id := "66f0c1"; courseCode := "CS101";
     courseName := "Logic /\ Proofs"; lecturerId := Some "lec1";
     students := Some ["s1"; "s2"] |}.

(** An engine that reads no date but the [toISOString] form. *)
Definition no_legacy : string -> option Z := fun _ => None.

(** A string literal of a JSON text, for a string that needs no escape. *)
Definition str (s : string) : string :=
  String JSON.dquote (s ++ String JSON.dquote EmptyString).

(** The token of CS101 minted at 2025-05-18T06:21:17.727Z on the device;
    the backslash of the course name is escaped on the wire. *)
Definition token : string :=
  "{" ++ str "courseId" ++ ":" ++ str "66f0c1" ++ ","
      ++ str "courseCode" ++ ":" ++ str "CS101" ++ ","
      ++ str "courseName" ++ ":" ++ str "Logic /\\ Proofs" ++ ","
      ++ str "generatedAt" ++ ":" ++ str "2025-05-18T14:21:17.727Z" ++ ","
      ++ str "expiresAt" ++ ":" ++ str "2025-05-18T15:21:17.727Z" ++ "}".

(** A JSON text with the single member [courseId]. *)
Definition bare_token : string :=
  "{" ++ str "courseId" ++ ":" ++ str "66f0c1" ++ "}".

(** A JSON text for another course whose [courseCode] is an object with
    a member [toString], and the same for CS101. *)
Definition unprintable_token : string :=
  "{" ++ str "courseId" ++ ":" ++ str "zzz" ++ ","
      ++ str "courseCode" ++ ":{" ++ str "toString" ++ ":null}}".

Definition unprintable_cs101 : string :=
  "{" ++ str "courseId" ++ ":" ++ str "66f0c1" ++ ","
      ++ str "courseCode" ++ ":[{" ++ str "toString" ++ ":1}]}".

(** Tokens of CS101 whose [expiresAt] is a number: one that is zero as a
    double, and 2025-05-18T15:21:17.727Z with a fraction that rounds up
    to the next millisecond. *)
Definition tiny_expiry_token : string :=
  "{" ++ str "courseId" ++ ":" ++ str "66f0c1" ++ ","
      ++ str "expiresAt" ++ ":1e-400}".

Definition fraction_expiry_token : string :=
  "{" ++ str "courseId" ++ ":" ++ str "66f0c1" ++ ","
      ++ str "expiresAt" ++ ":1747581677727.9999999}".

(** An engine whose [new Date] throws on arrays and objects. *)
Definition no_object_date : JSON.value -> option Date := fun _ => None.

Definition math201 : Course :=
  {| _id := "66f0c2"; courseCode := "MATH201"; courseName := "Calculus";
     lecturerId := Some "lec2"; students := Some ["s1"; "s3"] |}.

(** A card just mounted at the epoch. *)
Definition card0 : CardState :=
  {| qrData := None; showQRModal := false; showConfirmModal := false;
     newScans := 0; lastCheckTime := 0 |}.

(** Two presses of the QR button of CS101 twenty minutes apart (device
    times 2025-05-18T06:21:17.727Z and 06:41:17.727Z), and the sessions the
    backend creates for them. *)
Definition session1 : AttendanceRecord :=
  {| qrCodeData := "qr-1";
     generatedAt := "2025-05-18T14:21:17.727Z";
     expiresAt := "2025-05-18T15:21:17.727Z";
     scannedBy := [] |}.

Definition session2 : AttendanceRecord :=
  {| qrCodeData := "qr-2";
     generatedAt := "2025-05-18T14:41:17.727Z";
     expiresAt := "2025-05-18T15:41:17.727Z";
     scannedBy := [] |}.

Definition press1 : Request :=
  {| device := 0; clock := 1747549277727; fetchOk := true;
     confirmed := true; created := Some session1 |}.

Definition press2 : Request :=
  {| device := 0; clock := 1747550477727; fetchOk := true;
     confirmed := true; created := Some session2 |}.

(** An empty store, and the card as mounted on every device. *)
Definition world0 : World := {| sessions := []; cards := fun _ => card0 |}.

(** The store with the first session. *)
Definition world1 : World :=
  {| sessions := [session1]; cards := fun _ => card0 |}.

(** The second press, with the fetch of the sessions failing. *)
Definition press_offline : Request :=
  {| device := 0; clock := 1747550477727; fetchOk := false;
     confirmed := true; created := Some session2 |}.

(** The QR button pressed on two devices one second apart, before the
    lecturer confirms on either. *)
Definition overlap : list Event :=
  [Press 0 1747549277727 true; Press 1 1747549278727 true;
   Confirm 0 (Some session1); Confirm 1 (Some session2)].

(** A card that last checked at 2025-05-18T06:21:17.727Z and shows 2. *)
Definition card_badge2 : CardState :=
  {| qrData := None; showQRModal := false; showConfirmModal := false;
     newScans := 2; lastCheckTime := 1747549277727 |}.

(** A session generated at 14:11:17.727 with one scan at 14:20:17.727. *)
Definition session_10min : AttendanceRecord :=
  {| qrCodeData := "qr-0";
     generatedAt := "2025-05-18T14:11:17.727Z";
     expiresAt := "2025-05-18T15:11:17.727Z";
     scannedBy := [ {| studentId := "s1";
                       scannedAt := "2025-05-18T14:20:17.727Z" |} ] |}.

End Samples.

(** ** What the lecturer's screen prints of a timestamp *)

Module Display.
Import JSDate.
Local Open Scope string_scope.
Local Open Scope Z_scope.

(** A number in a template literal or under [String]: [None] is [NaN];
    the integers that occur are far below the [1e21] from which the
    language prints an exponent. *)
Definition Number_toString (n : option Z) : string :=
  match n with
  | None => "NaN"
  | Some z => NilZero.string_of_int (Z.to_int z)
  end.

(** [s.padStart(2, '0')] *)
Definition padStart2 (s : string) : string :=
  match s with
  | EmptyString => "00"
  | String c EmptyString => String "0" s
  | _ => s
  end.

Definition is_digit (c : ascii) : bool :=
  match digit_val c with Some _ => true | None => false end.

(** [parseInt(s, 10)] on a capture of digits: the value of the leading
    digits, [NaN] when there is none. *)
Fixpoint digits_value (s : string) (acc : Z) : Z :=
  match s with
  | EmptyString => acc
  | String c r =>
      match digit_val c with
      | Some d => digits_value r (10 * acc + d)
      | None => acc
      end
  end.

Definition parseInt (s : string) : option Z :=
  match s with
  | EmptyString => None
  | String c _ => if is_digit c then Some (digits_value s 0) else None
  end.

(** [/T(\d{2}):(\d{2})/] tried at the start of [s]: the two captures. *)
Definition time_at (s : string) : option (string * string) :=
  match s with
  | String t (String h1 (String h2 (String c (String m1 (String m2 _))))) =>
      if (t =? "T")%char && is_digit h1 && is_digit h2 && (c =? ":")%char
         && is_digit m1 && is_digit m2
      then Some (String h1 (String h2 EmptyString),
                 String m1 (String m2 EmptyString))
      else None
  | _ => None
  end.

(** [timestamp.match(/T(\d{2}):(\d{2})/)]: the leftmost match. *)
Fixpoint match_time (s : string) : option (string * string) :=
  match time_at s with
  | Some r => Some r
  | None =>
      match s with
      | EmptyString => None
      | String _ r => match_time r
      end
  end.

(** [timestamp.match(/^(\d{4})-(\d{2})-(\d{2})/)]: the three captures. *)
Definition match_date (s : string) : option (string * string * string) :=
  match s with
  | String y1 (String y2 (String y3 (String y4 (String c1 (String m1
      (String m2 (String c2 (String d1 (String d2 _))))))))) =>
      if is_digit y1 && is_digit y2 && is_digit y3 && is_digit y4
         && (c1 =? "-")%char && is_digit m1 && is_digit m2
         && (c2 =? "-")%char && is_digit d1 && is_digit d2
      then Some (String y1 (String y2 (String y3 (String y4 EmptyString))),
                 String m1 (String m2 EmptyString),
                 String d1 (String d2 EmptyString))
      else None
  | _ => None
  end.

(** [a >= b] on numbers. *)
Definition num_ge (a : option Z) (b : Z) : bool :=
  match a with Some x => b <=? x | None => false end.

(** [hours % 12 || 12] *)
Definition hours12 (hours : option Z) : option Z :=
  match hours with
  | Some h => if Z.rem h 12 =? 0 then Some 12 else Some (Z.rem h 12)
  | None => Some 12
  end.

(** The template [`${hours12}:${minutes} ${ampm}`] and the two lines
    before it, which both branches of the formatters share. *)
Definition clock12 (hours : option Z) (minutes : string) : string :=
  let ampm := if num_ge hours 12 then "PM" else "AM" in
  Number_toString (hours12 hours) ++ ":" ++ minutes ++ " " ++ ampm.

Definition getUTCHours (d : Date) : option Z :=
  match d with Some t => Some (TimeWithinDay t / 3600000) | None => None end.

Definition getUTCMinutes (d : Date) : option Z :=
  match d with Some t => Some (TimeWithinDay t / 60000 mod 60) | None => None end.

Definition getUTCMonth (d : Date) : option Z :=
  match d with
  | Some t => let '(_, m, _) := civil_from_days (Day t) in Some (m - 1)
  | None => None
  end.

Definition getUTCDate (d : Date) : option Z :=
  match d with
  | Some t => let '(_, _, dd) := civil_from_days (Day t) in Some dd
  | None => None
  end.

(** The fallback branch of [formatPhilippineTime]: the clock of a date. *)
Definition clockOfDate (date : Date) : string :=
  let hours := getUTCHours date in
  let minutes := padStart2 (Number_toString (getUTCMinutes date)) in
  clock12 hours minutes.

Definition months : list string :=
  ["Jan"; "Feb"; "Mar"; "Apr"; "May"; "Jun";
   "Jul"; "Aug"; "Sep"; "Oct"; "Nov"; "Dec"].

(** [months[month]] in a template: [undefined] prints as such. *)
Definition monthName (month : option Z) : string :=
  match month with
  | Some m =>
      if m <? 0 then "undefined"
      else match nth_error months (Z.to_nat m) with
           | Some name => name
           | None => "undefined"
           end
  | None => "undefined"
  end.

(** The template of [formatSessionTabTime]. *)
Definition tabLabel (month day hours : option Z) (minutes : string) : string :=
  monthName month ++ " " ++ Number_toString day ++ ", "
    ++ clock12 hours minutes.

(** The fallback branch of [formatSessionTabTime]. *)
Definition tabLabelOfDate (date : Date) : string :=
  tabLabel (getUTCMonth date) (getUTCDate date) (getUTCHours date)
           (padStart2 (Number_toString (getUTCMinutes date))).

Section Engine.

Variable legacy : string -> option Z.

(** [formatPhilippineTime] *)
Definition formatPhilippineTime (timestamp : string) : string :=
  let date := Date_parse legacy timestamp in
  match match_time timestamp with
  | Some (h, minutes) =>
      let hours24 := parseInt h in
      clock12 hours24 minutes
  | None => clockOfDate date
  end.

(** [formatSessionTabTime] *)
Definition formatSessionTabTime (timestamp : string) : string :=
  match match_date timestamp, match_time timestamp with
  | Some (_, mo, d), Some (h, minutes) =>
      let month := num_add (parseInt mo) (-1) in
      let day := parseInt d in
      let hours24 := parseInt h in
      tabLabel month day hours24 minutes
  | _, _ => tabLabelOfDate (Date_parse legacy timestamp)
  end.

End Engine.

End Display.

(** ** Arrays *)

Module JSArray.
Import JSDate.

(** [Array.prototype.sort] with a comparator ([cmp a b > 0] puts [a] after
    [b]; a [NaN] counts as zero): the stable insertion of each element
    into the sorted rest.  For a comparator that orders its arguments
    consistently the language fixes this result; for any other the order
    is the engine's, and the model keeps this one. *)
Fixpoint insert {A : Type} (cmp : A -> A -> option Z) (x : A) (l : list A)
  : list A :=
  match l with
  | [] => [x]
  | y :: r => if num_gt (cmp x y) (Some 0) then y :: insert cmp x r
              else x :: y :: r
  end.

Definition sort {A : Type} (cmp : A -> A -> option Z) (l : list A) : list A :=
  fold_right (insert cmp) [] l.

(** The comparator of [sort()] without an argument, on strings. *)
Definition defaultCompare (a b : string) : option Z :=
  Some (match String.compare a b with Lt => -1 | Eq => 0 | Gt => 1 end).

End JSArray.

(** ** The course card: countdown, attendance list, poller *)

Module CardViews.
Import JSDate Api Lecturer Lecturer.CourseCard Display.
Local Open Scope string_scope.
Local Open Scope Z_scope.

(** [Math.floor(a / k)] for a positive [k]; the quotient of two integers
    below [2^53] in size, as all differences of nearby dates are, is
    floored exactly. *)
Definition num_floor_div (a : option Z) (k : Z) : option Z :=
  match a with Some x => Some (x / k) | None => None end.

(** The card with the text of its countdown. *)
Record Countdown : Type := {
  shown : CardState;
  remainingTime : string
}.

(** The card as [useState] and [useRef] set it up at the time [t]. *)
Definition mounted (t : Z) : CardState :=
  {| qrData := None; showQRModal := false; showConfirmModal := false;
     newScans := 0; lastCheckTime := t |}.

(** The card with its attendance list. *)
Record AttendanceView : Type := {
  viewed : CardState;
  attendanceRecords : list AttendanceRecord;
  showAttendanceModal : bool
}.

(** The total under the attendance list:
    [attendanceRecords.reduce((total, record) =>
       total + record.scannedBy.length, 0)] *)
Definition totalScans (records : list AttendanceRecord) : Z :=
  fold_left (fun total record => total + Z.of_nat (List.length (scannedBy record)))
            records 0.

(** One tick of the poller as it comes in: the clock when it starts, the
    clock when the answer has arrived, the answer. *)
Record TickInput : Type := {
  started : Z;
  answered : Z;
  answer : Response (list AttendanceRecord)
}.

(** The ticks start at least three seconds apart, the first of them at
    least three seconds after [last]. *)
Fixpoint spaced (last : Z) (ticks : list TickInput) : Prop :=
  match ticks with
  | [] => True
  | i :: rest => 3000 <= started i - last /\ spaced (started i) rest
  end.

Section Engine.

Variable legacy : string -> option Z.

(** The callback of the countdown's [setInterval], which runs while
    [qrData] is set: [now] is the device clock. *)
Definition countdownTick (now : Z) (v : Countdown) : Countdown :=
  match qrData (shown v) with
  | None => v
  | Some (_, expiresAt) =>
      let phTime := getPhilippineTime now in
      let expiryTime := Date_parse legacy expiresAt in
      let diffInMinutes :=
        num_floor_div (num_sub (getTime expiryTime) (getTime phTime))
                      (1000 * 60) in
      if num_le diffInMinutes (Some 0) then
        {| shown := setQRData None (setShowQRModal false (shown v));
           remainingTime := "expired" |}
      else
        {| shown := shown v;
           remainingTime := Number_toString diffInMinutes ++ " minutes" |}
  end.

(** The comparator of [handleViewAttendance]:
    [new Date(b.generatedAt).getTime() - new Date(a.generatedAt).getTime()] *)
Definition byGeneratedAt (a b : AttendanceRecord) : option Z :=
  num_sub (getTime (Date_parse legacy (generatedAt b)))
          (getTime (Date_parse legacy (generatedAt a))).

(** [handleViewAttendance]: [resp] is the answer to the fetch of the
    course's sessions. *)
Definition handleViewAttendance (resp : Response (list AttendanceRecord))
    (v : AttendanceView) : AttendanceView :=
  let st := setNewScans 0 (viewed v) in
  match resp with
  | Ok records =>
      let sortedRecords := JSArray.sort byGeneratedAt records in
      {| viewed := st;
         attendanceRecords := sortedRecords;
         showAttendanceModal := true |}
  | NotOk | NetworkError =>
      {| viewed := st;
         attendanceRecords := attendanceRecords v;
         showAttendanceModal := showAttendanceModal v |}
  end.

(** The ticks of the poller, one after the other: which of them sent
    their request, and the card they leave. *)
Fixpoint pollerRun (ticks : list TickInput) (st : CardState)
  : list bool * CardState :=
  match ticks with
  | [] => ([], st)
  | i :: rest =>
      let t := handleNewScan legacy (started i) (answered i) (answer i) st in
      let '(sent, final) := pollerRun rest (after t) in
      (fetched t :: sent, final)
  end.

End Engine.

End CardViews.

(** ** The department chips of the lecturer dashboard *)

Module Departments.
Import Api.
Local Open Scope string_scope.
Local Open Scope Z_scope.

Definition is_upper (c : ascii) : bool :=
  (65 <=? JSON.code c) && (JSON.code c <=? 90).

(** The match of [/^[A-Z]+/]: the longest run of capitals at the start. *)
Fixpoint capitals (s : string) : string :=
  match s with
  | EmptyString => EmptyString
  | String c r => if is_upper c then String c (capitals r) else EmptyString
  end.

(** [course.courseCode.match(/^[A-Z]+/)]: [None] when no capital leads. *)
Definition matchPrefix (code : string) : option string :=
  match capitals code with
  | EmptyString => None
  | p => Some p
  end.

(** [prefixSet.add(p)]: a set keeps the order of first insertion. *)
Definition add (p : string) (set : list string) : list string :=
  if existsb (String.eqb p) set then set else set ++ [p].

(** The effect that fills [semesters]: it runs on every change of
    [courses] and leaves the chips as they were when the list is empty. *)
Definition extractSemesters (courses : list Course) (semesters : list string)
  : list string :=
  if (0 <? Z.of_nat (List.length courses)) then
    let prefixSet :=
      fold_left
        (fun set course =>
           match matchPrefix (courseCode course) with
           | Some p => add p set
           | None => set
           end)
        courses [] in
    JSArray.sort JSArray.defaultCompare prefixSet
  else semesters.

(** [code.startsWith(p)] *)
Definition startsWith (code p : string) : bool := String.prefix p code.

(** The department filter of the course list:
    [result.filter(course => course.courseCode.startsWith(activeFilter))] *)
Definition byDepartment (activeFilter : string) (courses : list Course)
  : list Course :=
  filter (fun course => startsWith (courseCode course) activeFilter) courses.

End Departments.

(** ** The scanner of the student dashboard *)

Module Scanner.
Import JSDate Api Student.
Local Open Scope string_scope.
Local Open Scope Z_scope.

(** The state of the dashboard around the scanner; [lastOutcome] stands
    for what the success or error modal shows. *)
Record State : Type := {
  courses : list Course;
  error : bool;
  hasPermission : option bool;
  isScannerVisible : bool;
  scanned : bool;
  currentScanningCourse : option Course;
  showSuccessModal : bool;
  showErrorModal : bool;
  lastOutcome : option Outcome
}.

Definition initial : State :=
  {| courses := []; error := false; hasPermission := None;
     isScannerVisible := false; scanned := false;
     currentScanningCourse := None;
     showSuccessModal := false; showErrorModal := false;
     lastOutcome := None |}.

(** What happens to the dashboard. *)
Inductive Event : Type :=
| CoursesFetched (resp : Response (list Course))   (* fetchEnrolledCourses *)
| PermissionAnswered (granted : option bool)       (* checkPermissions *)
| ScanPress (course : Course)                      (* handleScanPress *)
| CloseScanner                    (* the back arrow and [onRequestClose] *)
| ScanAgain                                        (* the footer button *)
| BarCode (data : string) (now : Z) (reply : Response unit)
| SuccessTimeout                  (* the [setTimeout] of a recorded scan *)
| DismissSuccess
| DismissError.

Section Engine.

Variable legacy : string -> option Z.
Variable object_date : JSON.value -> option Date.
Variable currentUserId : string.

(** The filter of [fetchEnrolledCourses]. *)
Definition enrolledCourses (allCourses : list Course) : list Course :=
  filter (fun course => includes currentUserId (students course)) allCourses.

(** [fetchEnrolledCourses] *)
Definition fetchEnrolledCourses (resp : Response (list Course)) (s : State)
  : State :=
  match resp with
  | Ok allCourses =>
      {| courses := enrolledCourses allCourses; error := false;
         hasPermission := hasPermission s;
         isScannerVisible := isScannerVisible s; scanned := scanned s;
         currentScanningCourse := currentScanningCourse s;
         showSuccessModal := showSuccessModal s;
         showErrorModal := showErrorModal s; lastOutcome := lastOutcome s |}
  | NotOk | NetworkError =>
      {| courses := courses s; error := true;
         hasPermission := hasPermission s;
         isScannerVisible := isScannerVisible s; scanned := scanned s;
         currentScanningCourse := currentScanningCourse s;
         showSuccessModal := showSuccessModal s;
         showErrorModal := showErrorModal s; lastOutcome := lastOutcome s |}
  end.

(** [checkPermissions]: [None] is a request that throws. *)
Definition checkPermissions (granted : option bool) (s : State) : State :=
  match granted with
  | Some b =>
      {| courses := courses s; error := error s;
         hasPermission := Some b;
         isScannerVisible := isScannerVisible s; scanned := scanned s;
         currentScanningCourse := currentScanningCourse s;
         showSuccessModal := showSuccessModal s;
         showErrorModal := showErrorModal s; lastOutcome := lastOutcome s |}
  | None => s
  end.

(** [handleScanPress] *)
Definition handleScanPress (course : Course) (s : State) : State :=
  match hasPermission s with
  | None => s
  | Some false => s
  | Some true =>
      {| courses := courses s; error := error s;
         hasPermission := hasPermission s;
         isScannerVisible := true; scanned := scanned s;
         currentScanningCourse := Some course;
         showSuccessModal := showSuccessModal s;
         showErrorModal := showErrorModal s; lastOutcome := lastOutcome s |}
  end.

(** The scanner's two ways out: [setScannerVisible(false);
    setScanned(false)]. *)
Definition closeScanner (s : State) : State :=
  {| courses := courses s; error := error s;
     hasPermission := hasPermission s;
     isScannerVisible := false; scanned := false;
     currentScanningCourse := currentScanningCourse s;
     showSuccessModal := showSuccessModal s;
     showErrorModal := showErrorModal s; lastOutcome := lastOutcome s |}.

Definition setScanned (b : bool) (s : State) : State :=
  {| courses := courses s; error := error s;
     hasPermission := hasPermission s;
     isScannerVisible := isScannerVisible s; scanned := b;
     currentScanningCourse := currentScanningCourse s;
     showSuccessModal := showSuccessModal s;
     showErrorModal := showErrorModal s; lastOutcome := lastOutcome s |}.

(** The outcome of the scan that the camera delivers in the state [s]. *)
Definition scan (data : string) (now : Z) (reply : Response unit) (s : State)
  : Outcome :=
  handleBarCodeScanned legacy object_date (courses s)
    (currentScanningCourse s) currentUserId data now reply.

(** The state that [handleBarCodeScanned] leaves: the success modal after
    a scan the backend recorded, the error modal and a scanner ready for
    the next scan after anything else. *)
Definition afterScan (out : Outcome) (s : State) : State :=
  match out with
  | Submitted _ (Ok _) =>
      {| courses := courses s; error := error s;
         hasPermission := hasPermission s;
         isScannerVisible := isScannerVisible s; scanned := true;
         currentScanningCourse := currentScanningCourse s;
         showSuccessModal := true;
         showErrorModal := showErrorModal s; lastOutcome := Some out |}
  | _ =>
      {| courses := courses s; error := error s;
         hasPermission := hasPermission s;
         isScannerVisible := isScannerVisible s; scanned := false;
         currentScanningCourse := currentScanningCourse s;
         showSuccessModal := showSuccessModal s;
         showErrorModal := true; lastOutcome := Some out |}
  end.

(** The callback of the [setTimeout] that follows a recorded scan. *)
Definition successTimeout (s : State) : State :=
  {| courses := courses s; error := error s;
     hasPermission := hasPermission s;
     isScannerVisible := false; scanned := false;
     currentScanningCourse := None;
     showSuccessModal := false;
     showErrorModal := showErrorModal s; lastOutcome := lastOutcome s |}.

Definition dismissSuccess (s : State) : State :=
  {| courses := courses s; error := error s;
     hasPermission := hasPermission s;
     isScannerVisible := isScannerVisible s; scanned := scanned s;
     currentScanningCourse := currentScanningCourse s;
     showSuccessModal := false;
     showErrorModal := showErrorModal s; lastOutcome := lastOutcome s |}.

Definition dismissError (s : State) : State :=
  {| courses := courses s; error := error s;
     hasPermission := hasPermission s;
     isScannerVisible := isScannerVisible s; scanned := scanned s;
     currentScanningCourse := currentScanningCourse s;
     showSuccessModal := showSuccessModal s;
     showErrorModal := false; lastOutcome := lastOutcome s |}.

(** One event.  The camera is mounted in the scanner's modal and its
    callback is [undefined] while [scanned] holds: a bar code reaches the
    handler only when the scanner is visible and not [scanned]. *)
Definition step (s : State) (e : Event) : State :=
  match e with
  | CoursesFetched resp => fetchEnrolledCourses resp s
  | PermissionAnswered granted => checkPermissions granted s
  | ScanPress course => handleScanPress course s
  | CloseScanner => closeScanner s
  | ScanAgain => setScanned false s
  | BarCode data now reply =>
      if isScannerVisible s && negb (scanned s)
      then afterScan (scan data now reply s) s
      else s
  | SuccessTimeout => successTimeout s
  | DismissSuccess => dismissSuccess s
  | DismissError => dismissError s
  end.

Definition replay (events : list Event) : State :=
  fold_left step events initial.

End Engine.

End Scanner.

(** ** More data for the worked examples *)

Module ViewSamples.
Import JSDate Api Lecturer Lecturer.CourseCard CardViews Samples.
Local Open Scope string_scope.
Local Open Scope Z_scope.

(** The card showing the QR code of the first sample session. *)
Definition countdown_qr1 : Countdown :=
  {| shown := setShowQRModal true
                (setQRData (Some ("qr-1", "2025-05-18T15:21:17.727Z")) card0);
     remainingTime := EmptyString |}.

(** The card showing a QR code whose expiry is no date. *)
Definition countdown_soon : Countdown :=
  {| shown := setShowQRModal true (setQRData (Some ("qr-x", "soon")) card0);
     remainingTime := EmptyString |}.

(** The card showing the sample token. *)
Definition countdown_token : Countdown :=
  {| shown := setShowQRModal true
                (setQRData (Some (token, "2025-05-18T15:21:17.727Z")) card0);
     remainingTime := EmptyString |}.

(** A card with its attendance list closed and empty. *)
Definition view0 : AttendanceView :=
  {| viewed := card_badge2; attendanceRecords := [];
     showAttendanceModal := false |}.

(** The poller's check at mount and its first two interval ticks. *)
Definition tick_mount : TickInput :=
  {| started := 5; answered := 80; answer := Ok [session_10min] |}.

Definition tick_10s : TickInput :=
  {| started := 10005; answered := 10090; answer := Ok [session_10min] |}.

Definition tick_20s : TickInput :=
  {| started := 20005; answered := 20005; answer := NetworkError |}.

End ViewSamples.

(** * Properties *)

Lemma range_all_spec (P : Z -> bool) (k : nat) :
  forall lo, range_all P lo k = true ->
  forall z, lo <= z < lo + 2 ^ Z.of_nat k -> P z = true.
Proof.
  induction k as [|k IH]; intros lo H z Hz.
  - simpl in *. assert (z = lo) by lia. now subst.
  - cbn [range_all] in H. apply andb_true_iff in H as [Hl Hr].
    assert (E : 2 ^ Z.of_nat (S k) = 2 * 2 ^ Z.of_nat k).
    { rewrite Nat2Z.inj_succ, Z.pow_succ_r by lia. reflexivity. }
    rewrite E in Hz.
    destruct (Z_lt_ge_dec z (lo + 2 ^ Z.of_nat k)).
    + apply (IH lo Hl). lia.
    + apply (IH _ Hr). lia.
Qed.

(** ** The calendar and the ISO format *)

Module JSDateFacts.
Import JSDate.

Example toISOString_epoch :
  toISOString (Some 0) = Some "1970-01-01T00:00:00.000Z"%string.
Proof. reflexivity. Qed.

Example toISOString_2025 :
  toISOString (Some 1747578077727) = Some "2025-05-18T14:21:17.727Z"%string.
Proof. reflexivity. Qed.

Example toISOString_before_epoch :
  toISOString (Some (-1)) = Some "1969-12-31T23:59:59.999Z"%string.
Proof. reflexivity. Qed.

Example toISOString_expanded_year :
  toISOString (Some 253402300800000) = Some "+010000-01-01T00:00:00.000Z"%string.
Proof. reflexivity. Qed.

Example parse_iso_2025 :
  parse_iso "2025-05-18T14:21:17.727Z" = Some 1747578077727.
Proof. reflexivity. Qed.

Example parse_iso_leap_day :
  parse_iso "2024-02-29T00:00:00.000Z" = Some 1709164800000
  /\ parse_iso "2023-02-29T00:00:00.000Z" = None.
Proof. split; reflexivity. Qed.

Lemma doy_ok_all : forall doy, 0 <= doy <= 365 -> doy_ok doy = true.
Proof.
  assert (H : range_all (fun z => (366 <=? z) || doy_ok z) 0 9 = true)
    by (vm_compute; reflexivity).
  intros doy Hd.
  pose proof (range_all_spec _ _ _ H doy) as Hz.
  change (2 ^ Z.of_nat 9) with 512 in Hz.
  assert (Hr : 0 <= doy < 0 + 512) by lia.
  specialize (Hz Hr). apply orb_true_iff in Hz as [Hz | Hz]; [lia | exact Hz].
Qed.

(** The year of the era that the day [doe] falls in, and its day of that
    year; the 366th day only in a year that ends with a leap day. *)
Lemma yoe_bounds (doe : Z) :
  0 <= doe < 146097 ->
  let q := (doe - doe / 1460 + doe / 36524 - doe / 146096) / 365 in
  0 <= q <= 399
  /\ 365 * q + q / 4 - q / 100 <= doe <= 365 * q + q / 4 - q / 100 + 365
  /\ (doe = 365 * q + q / 4 - q / 100 + 365 ->
      (q + 1) mod 4 = 0 /\ ((q + 1) mod 100 <> 0 \/ q = 399))
  /\ (146037 <= doe -> q = 399)
  /\ (q = 399 -> 145731 <= doe).
Proof.
  intros H q. subst q.
  Z.div_mod_to_equations. lia.
Qed.

Lemma civil_of_doe_spec (doe : Z) :
  0 <= doe < 146097 ->
  let '(y, m, d) := civil_of_doe doe in
  let yoe := if m <=? 2 then y - 1 else y in
  0 <= yoe <= 399
  /\ 1 <= m <= 12 /\ 1 <= d <= DaysInMonth y m
  /\ yoe * 365 + yoe / 4 - yoe / 100
     + ((153 * (if 2 <? m then m - 3 else m + 9) + 2) / 5 + d - 1) = doe
  /\ (146037 <= doe \/ y <= 399)
  /\ (doe < 146037 \/ y = 400).
Proof.
  intros Hd. pose proof (yoe_bounds doe Hd) as Hq. cbv zeta in Hq.
  unfold civil_of_doe.
  set (q := (doe - doe / 1460 + doe / 36524 - doe / 146096) / 365) in *.
  set (doy := doe - (365 * q + q / 4 - q / 100)).
  destruct Hq as (Hq & Hs & Hleap & Hhi & Hlo).
  assert (Hdoy : 0 <= doy <= 365) by (subst doy; lia).
  pose proof (doy_ok_all doy Hdoy) as Hok. unfold doy_ok in Hok.
  set (mp := (5 * doy + 2) / 153) in *.
  set (d := doy - (153 * mp + 2) / 5 + 1) in *.
  set (m := if mp <? 10 then mp + 3 else mp - 9) in *.
  repeat (apply andb_true_iff in Hok as [Hok ?]).
  match goal with H : Bool.eqb _ _ = true |- _ => apply Bool.eqb_prop in H; rename H into Hm end.
  assert (Ey : (if m <=? 2 then q + (if m <=? 2 then 1 else 0) - 1
                else q + (if m <=? 2 then 1 else 0)) = q)
    by (destruct (m <=? 2); lia).
  rewrite Ey.
  assert (Hdim : d <= DaysInMonth (q + (if m <=? 2 then 1 else 0)) m).
  { unfold DaysInMonth in *. destruct (m =? 2) eqn:E2.
    - apply Z.eqb_eq in E2. rewrite E2 in *. cbn [Z.leb Z.compare] in *.
      change (2 <=? 2) with true in *.
      destruct (doy =? 365) eqn:E365; [|destruct (isLeap (q + 1)); lia].
      apply Z.eqb_eq in E365.
      assert (Hl : isLeap (q + 1) = true).
      { destruct Hleap as [H4 H100]; [subst doy; lia|].
        unfold isLeap. rewrite H4. cbn [Z.eqb andb].
        destruct H100 as [H100 | ->]; [|reflexivity].
        apply Z.eqb_neq in H100. now rewrite H100. }
      rewrite Hl. lia.
    - lia. }
  repeat split; try lia.
  - destruct (Z.le_gt_cases 146037 doe) as [Hge | Hlt]; [now left | right].
    destruct (m <=? 2) eqn:Em; [|lia].
    symmetry in Hm. apply Z.leb_le in Hm.
    assert (q <> 399); [|lia].
    intros E. specialize (Hlo E). clearbody q. subst q doy.
    cbn in Hm. lia.
  - destruct (Z.le_gt_cases 146037 doe) as [Hge | Hlt]; [right | now left].
    specialize (Hhi Hge).
    assert (306 <= doy) by (clearbody q; subst q doy; cbn; lia).
    assert (Em : (m <=? 2) = true) by (rewrite Hm; now apply Z.leb_le).
    rewrite Em. lia.
Qed.

Lemma isLeap_era (y era : Z) : isLeap (y + era * 400) = isLeap y.
Proof.
  unfold isLeap.
  replace ((y + era * 400) mod 4) with (y mod 4)
    by (replace (era * 400) with (era * 100 * 4) by ring;
        now rewrite Z_mod_plus_full).
  replace ((y + era * 400) mod 100) with (y mod 100)
    by (replace (era * 400) with (era * 4 * 100) by ring;
        now rewrite Z_mod_plus_full).
  now rewrite Z_mod_plus_full.
Qed.

Lemma DaysInMonth_era (y era m : Z) :
  DaysInMonth (y + era * 400) m = DaysInMonth y m.
Proof. unfold DaysInMonth. now rewrite isLeap_era. Qed.

(** The fields [civil_from_days] gives are a date of the calendar, and
    [days_from_civil] takes them back to the day. *)
Lemma civil_from_days_spec (z : Z) :
  let '(y, m, d) := civil_from_days z in
  1 <= m <= 12 /\ 1 <= d <= DaysInMonth y m /\ days_from_civil y m d = z.
Proof.
  unfold civil_from_days.
  set (z' := z + 719468).
  assert (Hd : 0 <= z' mod 146097 < 146097) by (apply Z.mod_pos_bound; lia).
  pose proof (civil_of_doe_spec _ Hd) as Hok.
  destruct (civil_of_doe (z' mod 146097)) as [[y m] d].
  cbv zeta in Hok. destruct Hok as (Hyoe & Hm & Hday & Hdoe & _ & _).
  rewrite DaysInMonth_era.
  repeat split; try lia.
  unfold days_from_civil.
  set (yoe := if m <=? 2 then y - 1 else y) in *.
  assert (Ey : (if m <=? 2 then y + z' / 146097 * 400 - 1
                else y + z' / 146097 * 400) = yoe + z' / 146097 * 400).
  { subst yoe. destruct (m <=? 2); ring. }
  rewrite Ey.
  assert (Em : (yoe + z' / 146097 * 400) mod 400 = yoe).
  { rewrite Z_mod_plus_full. apply Z.mod_small. lia. }
  assert (Ed : (yoe + z' / 146097 * 400) / 400 = z' / 146097).
  { rewrite Z_div_plus_full by lia. rewrite Z.div_small by lia. ring. }
  rewrite Em, Ed.
  pose proof (Z.div_mod z' 146097 ltac:(lia)).
  subst z'. lia.
Qed.

Lemma civil_from_days_year (z : Z) :
  -719528 <= z <= 2932896 ->
  let '(y, _, _) := civil_from_days z in 0 <= y <= 9999.
Proof.
  intros Hz. unfold civil_from_days.
  set (z' := z + 719468).
  assert (Hd : 0 <= z' mod 146097 < 146097) by (apply Z.mod_pos_bound; lia).
  pose proof (civil_of_doe_spec _ Hd) as Hok.
  destruct (civil_of_doe (z' mod 146097)) as [[y m] d].
  cbv zeta in Hok. destruct Hok as (Hyoe & _ & _ & _ & Hhi & Hlo).
  pose proof (Z.div_mod z' 146097 ltac:(lia)) as Hdm.
  assert (He : -1 <= z' / 146097 <= 24) by (subst z'; lia).
  assert (Hy : 0 <= y <= 400) by (destruct (m <=? 2); lia).
  assert (Hc : z' / 146097 = -1 \/ z' / 146097 = 24
               \/ 0 <= z' / 146097 <= 23) by lia.
  destruct Hc as [Hc | [Hc | Hc]].
  - assert (146037 <= z' mod 146097) by (subst z'; lia).
    assert (y = 400) by lia. lia.
  - assert (z' mod 146097 <= 146036) by (subst z'; lia).
    assert (y <= 399) by lia. lia.
  - lia.
Qed.

Lemma digit_val_char (k : Z) : digit_val (digit_char k) = Some (k mod 10).
Proof.
  unfold digit_char.
  assert (H : 0 <= k mod 10 < 10) by (apply Z.mod_pos_bound; lia).
  assert (C : k mod 10 = 0 \/ k mod 10 = 1 \/ k mod 10 = 2 \/ k mod 10 = 3
              \/ k mod 10 = 4 \/ k mod 10 = 5 \/ k mod 10 = 6
              \/ k mod 10 = 7 \/ k mod 10 = 8 \/ k mod 10 = 9) by lia.
  repeat (destruct C as [C | C]; [rewrite C; reflexivity | ]).
  rewrite C; reflexivity.
Qed.

Lemma num2_pad (n : Z) : 0 <= n <= 99 ->
  num2 (digit_char (n / 10)) (digit_char n) = Some n.
Proof.
  intros H. unfold num2. rewrite !digit_val_char. f_equal.
  Z.div_mod_to_equations. lia.
Qed.

Lemma num3_pad (n : Z) : 0 <= n <= 999 ->
  num3 (digit_char (n / 100)) (digit_char (n / 10)) (digit_char n) = Some n.
Proof.
  intros H. unfold num3, num2. rewrite !digit_val_char. f_equal.
  Z.div_mod_to_equations. lia.
Qed.

Lemma num4_pad (n : Z) : 0 <= n <= 9999 ->
  num4 (digit_char (n / 1000)) (digit_char (n / 100)) (digit_char (n / 10))
       (digit_char n) = Some n.
Proof.
  intros H. unfold num4, num3, num2. rewrite !digit_val_char. f_equal.
  Z.div_mod_to_equations. lia.
Qed.

(** [toISOString] then the parser of its format is the identity on the
    time values of years 0 to 9999. *)
Lemma parse_iso_toISOString (t : Z) :
  minISO <= t <= maxISO ->
  exists s, toISOString (Some t) = Some s /\ parse_iso s = Some t.
Proof.
  unfold minISO, maxISO. intros Ht. unfold toISOString.
  pose proof (civil_from_days_spec (Day t)) as Hs.
  pose proof (civil_from_days_year (Day t)) as Hy.
  assert (HD : -719528 <= Day t <= 2932896).
  { unfold Day, msPerDay. Z.div_mod_to_equations. lia. }
  specialize (Hy HD).
  destruct (civil_from_days (Day t)) as [[y m] d].
  destruct Hs as (Hm & Hd & Hdays).
  eexists. split; [reflexivity|].
  unfold fmt_year.
  replace ((0 <=? y) && (y <=? 9999)) with true
    by (symmetry; apply andb_true_iff; split; apply Z.leb_le; lia).
  assert (Hdim : DaysInMonth y m <= 31).
  { unfold DaysInMonth.
    destruct (m =? 2); [destruct (isLeap y); lia|].
    destruct ((m =? 4) || (m =? 6) || (m =? 9) || (m =? 11)); lia. }
  set (tod := TimeWithinDay t).
  assert (Htod : 0 <= tod < 86400000)
    by (subst tod; unfold TimeWithinDay, msPerDay; apply Z.mod_pos_bound; lia).
  unfold parse_iso, pad4, pad3, pad2, sep.
  cbn [list_ascii_of_string].
  cbn [Ascii.eqb Bool.eqb andb].
  rewrite num4_pad by lia.
  rewrite !num2_pad by (Z.div_mod_to_equations; lia).
  rewrite num3_pad by (Z.div_mod_to_equations; lia).
  unfold make_time.
  replace ((1 <=? m) && (m <=? 12) && (1 <=? d) && (d <=? DaysInMonth y m)
           && (tod / 3600000 <=? 23) && (tod / 60000 mod 60 <=? 59)
           && (tod / 1000 mod 60 <=? 59)) with true.
  2:{ symmetry. repeat (apply andb_true_iff; split); apply Z.leb_le;
      try lia; Z.div_mod_to_equations; lia. }
  f_equal. rewrite Hdays.
  subst tod. unfold Day, TimeWithinDay, msPerDay.
  Z.div_mod_to_equations. lia.
Qed.

End JSDateFacts.

(** ** The wire format *)

Module JSONFacts.
Import JSON Samples.
Local Open Scope string_scope.
Local Open Scope Z_scope.

Example parse_nested :
  parse ("{" ++ str "courseId" ++ ":" ++ str "c1" ++ ", " ++ str "n"
         ++ ": [1, -2.50e3, true, null, " ++ str "a\nA" ++ "]}")
  = Some (JObj [("courseId", JStr "c1");
                ("n", JArr [JNum 1 0; JNum (-250) 1; JBool true; JNull;
                            JStr (String "a" (String (byte 10) "A"))])]).
Proof. reflexivity. Qed.

Example parse_rejects :
  parse ("{" ++ str "a" ++ ":01}") = None
  /\ parse "nul" = None /\ parse "1 2" = None /\ parse EmptyString = None
  /\ parse ("{" ++ str "a" ++ ":1,}") = None /\ parse "hello" = None.
Proof. repeat split; reflexivity. Qed.

Example parse_surrogate_pair :
  parse (str "\uD83D\uDE00")
  = Some (JStr (String (byte 240) (String (byte 159) (String (byte 152)
                 (String (byte 128) EmptyString))))).
Proof. reflexivity. Qed.

Example stringify_escapes :
  stringify_object [("a", "x\z"); ("b", String (byte 7) (String dquote "y"))]
  = "{" ++ str "a" ++ ":" ++ str "x\\z" ++ "," ++ str "b" ++ ":"
        ++ String dquote ("\u0007\" ++ String dquote "y" ++ String dquote "}").
Proof. reflexivity. Qed.

(** Reading back one quoted character gives the character. *)
Lemma parse_chars_quote_char (c : ascii) (k : string) :
  parse_chars (quote_char c k) = prepend (String c) (parse_chars k).
Proof.
  destruct c as [[] [] [] [] [] [] [] []]; reflexivity.
Qed.

Lemma parse_chars_quote_chars (s k : string) :
  parse_chars (quote_chars s (String dquote k)) = Some (s, k).
Proof.
  induction s as [|c s IH]; [reflexivity|].
  cbn [quote_chars]. rewrite parse_chars_quote_char, IH. reflexivity.
Qed.

Lemma parse_value_quote (f : nat) (s k : string) :
  parse_value (S f) (quote s k) = Some (JStr s, k).
Proof.
  unfold quote. cbn [parse_value skip_ws].
  change (is_ws dquote) with false. cbv iota.
  change (code dquote =? 123) with false.
  change (code dquote =? 91) with false.
  change (code dquote =? 34) with true. cbv iota.
  now rewrite parse_chars_quote_chars.
Qed.

Lemma parse_members_stringify (l : list (string * string)) :
  forall (f : nat) (acc : list (string * value)) (k : string),
  l <> [] -> (List.length l < f)%nat ->
  parse_members f (stringify_members l (String "}" k)) acc
  = Some (JObj (rev acc ++ map as_member l), k).
Proof.
  induction l as [|[key v] rest IH]; intros f acc k Hne Hf; [congruence|].
  destruct f as [|f]; [simpl in Hf; lia|].
  cbn [stringify_members parse_members].
  unfold quote at 1. cbn [skip_ws].
  change (is_ws dquote) with false. cbv iota.
  cbn [starts_with]. change (code dquote =? 34) with true. cbv iota.
  rewrite parse_chars_quote_chars.
  cbn [skip_ws]. change (is_ws ":") with false. cbv iota.
  cbn [starts_with]. change (code ":" =? 58) with true. cbv iota.
  destruct f as [|f]; [simpl in Hf; lia|].
  rewrite parse_value_quote.
  destruct rest as [|kv rest'].
  - cbn [skip_ws]. change (is_ws "}") with false. cbv iota.
    change (code "}" =? 44) with false. change (code "}" =? 125) with true.
    cbv iota. reflexivity.
  - cbn [skip_ws]. change (is_ws ",") with false. cbv iota.
    change (code "," =? 44) with true. cbv iota.
    rewrite IH; [|congruence|simpl in *; lia].
    f_equal. f_equal. cbn [rev map as_member fst snd].
    now rewrite <- app_assoc.
Qed.

Lemma length_quote_chars (s k : string) :
  (String.length k <= String.length (quote_chars s k))%nat.
Proof.
  induction s as [|c s IH]; [simpl; lia|].
  cbn [quote_chars]. unfold quote_char.
  repeat match goal with
         | |- context [if ?b then _ else _] => destruct b
         end; simpl; lia.
Qed.

Lemma length_stringify_members (l : list (string * string)) (k : string) :
  (List.length l + String.length k
   <= String.length (stringify_members l k))%nat.
Proof.
  induction l as [|[key v] rest IH]; [simpl; lia|].
  cbn [stringify_members]. unfold quote.
  cbn [String.length List.length].
  pose proof (length_quote_chars key
    (String dquote (String ":" (String dquote (quote_chars v (String dquote
       match rest with
       | [] => k
       | _ :: _ => String "," (stringify_members rest k)
       end)))))) as H1.
  pose proof (length_quote_chars v (String dquote
       match rest with
       | [] => k
       | _ :: _ => String "," (stringify_members rest k)
       end)) as H2.
  cbn [String.length] in H1, H2.
  destruct rest; cbn [String.length List.length] in *; lia.
Qed.

(** [JSON.parse] undoes [JSON.stringify] on an object of strings. *)
Lemma parse_stringify_object (l : list (string * string)) :
  parse (stringify_object l) = Some (JObj (map as_member l)).
Proof.
  unfold parse.
  pose proof (length_stringify_members l (String "}" EmptyString)) as Hlen.
  unfold stringify_object.
  set (body := stringify_members l (String "}" EmptyString)) in *.
  cbn [String.length] in *.
  set (n := String.length body) in *.
  replace (2 * S n + 2)%nat with (S (2 * n + 3))%nat by lia.
  cbn [parse_value skip_ws].
  change (is_ws "{") with false. cbv iota.
  change (code "{" =? 123) with true. cbv iota.
  destruct l as [|[key v] rest].
  - reflexivity.
  - assert (E : starts_with 125 (skip_ws body) = None).
    { subst body. cbn [stringify_members]. unfold quote. reflexivity. }
    rewrite E. subst body.
    rewrite parse_members_stringify; [reflexivity|congruence|].
    subst n. lia.
Qed.

End JSONFacts.

(** ** The parser's fuel is enough *)

Module ParserFacts.
Import JSON.
Local Open Scope string_scope.
Local Open Scope nat_scope.

Abbreviation len := String.length.

Lemma skip_ws_le (s : string) : len (skip_ws s) <= len s.
Proof.
  induction s as [|c s IH]; [simpl; lia|].
  cbn [skip_ws]. destruct (is_ws c); simpl; lia.
Qed.

Lemma prepend_some (f : string -> string) (o : option (string * string))
    (x r : string) :
  prepend f o = Some (x, r) -> exists x', o = Some (x', r).
Proof.
  destruct o as [[x' r']|]; [|discriminate].
  cbn. intros H. injection H as _ <-. now exists x'.
Qed.

Lemma starts_with_some (c : Z) (s r : string) :
  starts_with c s = Some r -> len s = S (len r).
Proof.
  destruct s as [|x s]; [discriminate|]. cbn.
  destruct (code x =? c)%Z; [|discriminate].
  intros H. now injection H as <-.
Qed.

Ltac split_matches :=
  repeat match goal with
         | H : context [match ?x with _ => _ end] |- _ =>
             destruct x eqn:?; try discriminate
         end.

Lemma parse_chars_shorter (n : nat) :
  forall s x r, len s <= n -> parse_chars s = Some (x, r) -> len r < len s.
Proof.
  induction n as [|n IH]; intros s x r Hn H.
  - destruct s; [discriminate | simpl in Hn; lia].
  - destruct s as [|c s]; [discriminate|].
    cbn [parse_chars] in H. split_matches;
      try (injection H as <- <-; simpl; lia);
      apply prepend_some in H as [x' H];
      apply IH in H; cbn [String.length] in *; lia.
Qed.

Lemma digits_length (s : string) :
  forall acc n v n' r,
  digits s acc n = (v, n', r) ->
  (Z.of_nat (len s) = Z.of_nat (len r) + (n' - n))%Z /\ (n <= n')%Z.
Proof.
  induction s as [|c s IH]; intros acc n v n' r H.
  - cbn in H. injection H as <- <- <-. simpl. lia.
  - cbn [digits] in H. destruct (JSDate.digit_val c).
    + apply IH in H. cbn [String.length]. lia.
    + injection H as <- <- <-. lia.
Qed.

Lemma parse_int_shorter (s : string) (i : Z) (r : string) :
  parse_int s = Some (i, r) -> len r < len s.
Proof.
  unfold parse_int. destruct s as [|c s]; [discriminate|].
  destruct (code c =? 48)%Z.
  - intros H. injection H as _ <-. simpl. lia.
  - destruct (digits (String c s) 0 0) as [[v n] rest] eqn:E.
    destruct (0 <? n)%Z eqn:En; [|discriminate].
    apply Z.ltb_lt in En.
    intros H. injection H as _ <-.
    apply digits_length in E. lia.
Qed.

Lemma parse_frac_le (m : Z) (s : string) (m' e : Z) (r : string) :
  parse_frac m s = Some (m', e, r) -> len r <= len s.
Proof.
  unfold parse_frac. destruct (starts_with 46 s) as [r0|] eqn:E.
  - apply starts_with_some in E.
    destruct (digits r0 m 0) as [[v n] rest] eqn:D.
    destruct (0 <? n)%Z; [|discriminate].
    intros H. injection H as _ _ <-.
    apply digits_length in D. lia.
  - intros H. injection H as _ _ <-. lia.
Qed.

Lemma parse_exp_le (s : string) (e : Z) (r : string) :
  parse_exp s = Some (e, r) -> len r <= len s.
Proof.
  unfold parse_exp. destruct s as [|c s].
  - intros H. injection H as _ <-. lia.
  - destruct ((code c =? 101)%Z || (code c =? 69)%Z).
    + destruct s as [|x s1].
      * cbn. discriminate.
      * destruct (code x =? 45)%Z; [|destruct (code x =? 43)%Z];
          match goal with
          | |- context [digits ?a ?b ?c] =>
              destruct (digits a b c) as [[v n] rest] eqn:D
          end;
          (destruct (0 <? n)%Z; [|discriminate]);
          intros H; injection H as _ <-;
          apply digits_length in D; cbn [String.length] in *; lia.
    + intros H. injection H as _ <-. lia.
Qed.

Lemma parse_number_shorter (s : string) (v : value) (r : string) :
  parse_number s = Some (v, r) -> len r < len s.
Proof.
  unfold parse_number.
  destruct (starts_with 45 s) as [s1|] eqn:E;
    [apply starts_with_some in E|];
    match goal with
    | |- context [parse_int ?a] =>
        destruct (parse_int a) as [[i s2]|] eqn:Ei; [|discriminate]
    end;
    (destruct (parse_frac i s2) as [[[m e1] s3]|] eqn:Ef; [|discriminate]);
    (destruct (parse_exp s3) as [[e2 s4]|] eqn:Ee; [|discriminate]);
    intros H; injection H as _ <-;
    apply parse_int_shorter in Ei; apply parse_frac_le in Ef;
    apply parse_exp_le in Ee; lia.
Qed.

Lemma strip_le (p s r : string) : strip p s = Some r -> len r <= len s.
Proof.
  revert s. induction p as [|a p IH]; intros s H.
  - cbn in H. injection H as <-. lia.
  - destruct s as [|b s]; [discriminate|]. cbn [strip] in H.
    destruct (a =? b)%char; [|discriminate].
    apply IH in H. simpl. lia.
Qed.

Lemma literal_le (p : string) (v v' : value) (s r : string) :
  literal p v s = Some (v', r) -> len r <= len s.
Proof.
  unfold literal. destruct (strip p s) as [r0|] eqn:E; [|discriminate].
  intros H. injection H as _ <-. now apply strip_le in E.
Qed.

Lemma parsers_adequate (f : nat) :
  adequate parse_value f
  /\ (forall acc, adequate (fun f s => parse_elems f s acc) f)
  /\ (forall acc, adequate (fun f s => parse_members f s acc) f).
Proof.
  induction f as [|f (IHv & IHe & IHm)].
  - repeat split; intros; discriminate.
  - split; [|split].
    + (* parse_value *)
      intros s v r H. cbn [parse_value] in H.
      pose proof (skip_ws_le s) as Hws.
      destruct (skip_ws s) as [|c r0] eqn:Es; [discriminate|].
      cbn [String.length] in Hws.
      destruct (code c =? 123)%Z eqn:K1.
      { destruct (starts_with 125 (skip_ws r0)) as [r'|] eqn:E1.
        - injection H as <- <-.
          pose proof (starts_with_some _ _ _ E1).
          pose proof (skip_ws_le r0).
          split; [lia|]. intros f' Hf'.
          destruct f' as [|f']; [lia|].
          cbn [parse_value]. now rewrite Es, K1, E1.
        - apply IHm in H as [Hl Ha].
          split; [lia|]. intros f' Hf'.
          destruct f' as [|f']; [lia|].
          cbn [parse_value]. rewrite Es, K1, E1. apply Ha. lia. }
      destruct (code c =? 91)%Z eqn:K2.
      { destruct (starts_with 93 (skip_ws r0)) as [r'|] eqn:E1.
        - injection H as <- <-.
          pose proof (starts_with_some _ _ _ E1).
          pose proof (skip_ws_le r0).
          split; [lia|]. intros f' Hf'.
          destruct f' as [|f']; [lia|].
          cbn [parse_value]. now rewrite Es, K1, K2, E1.
        - apply IHe in H as [Hl Ha].
          split; [lia|]. intros f' Hf'.
          destruct f' as [|f']; [lia|].
          cbn [parse_value]. rewrite Es, K1, K2, E1. apply Ha. lia. }
      assert (Hrest : forall f', parse_value (S f') s = parse_value (S f) s).
      { intros f'. cbn [parse_value]. now rewrite Es, K1, K2. }
      assert (Hlen : len r < len s).
      { destruct (code c =? 34)%Z.
        - destruct (parse_chars r0) as [[x r']|] eqn:E; [|discriminate].
          injection H as _ <-.
          apply (parse_chars_shorter (len r0)) in E; lia.
        - destruct (code c =? 116)%Z; [apply literal_le in H; lia|].
          destruct (code c =? 102)%Z; [apply literal_le in H; lia|].
          destruct (code c =? 110)%Z; [apply literal_le in H; lia|].
          apply parse_number_shorter in H. cbn [String.length] in H. lia. }
      split; [exact Hlen|]. intros f' Hf'.
      destruct f' as [|f']; [lia|].
      rewrite Hrest. cbn [parse_value]. now rewrite Es, K1, K2.
    + (* parse_elems *)
      intros acc s v r H. cbn [parse_elems] in H.
      destruct (parse_value f s) as [[v1 r1]|] eqn:Ev; [|discriminate].
      apply IHv in Ev as [Hl1 Ha1].
      pose proof (skip_ws_le r1) as Hws.
      destruct (skip_ws r1) as [|c r'] eqn:Es; [discriminate|].
      cbn [String.length] in Hws.
      destruct (code c =? 44)%Z eqn:K1.
      { apply IHe in H as [Hl Ha].
        split; [lia|]. intros f' Hf'.
        destruct f' as [|f']; [lia|].
        cbn [parse_elems]. rewrite Ha1 by lia. rewrite Es, K1.
        apply Ha. lia. }
      destruct (code c =? 93)%Z eqn:K2; [|discriminate].
      injection H as <- <-.
      split; [lia|]. intros f' Hf'.
      destruct f' as [|f']; [lia|].
      cbn [parse_elems]. rewrite Ha1 by lia. now rewrite Es, K1, K2.
    + (* parse_members *)
      intros acc s v r H. cbn [parse_members] in H.
      pose proof (skip_ws_le s) as Hws0.
      destruct (starts_with 34 (skip_ws s)) as [r0|] eqn:E0; [|discriminate].
      apply starts_with_some in E0 as L0.
      destruct (parse_chars r0) as [[key r1]|] eqn:Ek; [|discriminate].
      apply (parse_chars_shorter (len r0)) in Ek as L1; [|lia].
      pose proof (skip_ws_le r1) as Hws1.
      destruct (starts_with 58 (skip_ws r1)) as [r2|] eqn:E2; [|discriminate].
      apply starts_with_some in E2 as L2.
      destruct (parse_value f r2) as [[v1 r3]|] eqn:Ev; [|discriminate].
      apply IHv in Ev as [Hl3 Ha3].
      pose proof (skip_ws_le r3) as Hws3.
      destruct (skip_ws r3) as [|c r4] eqn:Es; [discriminate|].
      cbn [String.length] in Hws3.
      destruct (code c =? 44)%Z eqn:K1.
      { apply IHm in H as [Hl Ha].
        split; [lia|]. intros f' Hf'.
        destruct f' as [|f']; [lia|].
        cbn [parse_members]. rewrite E0, Ek, E2. rewrite Ha3 by lia.
        rewrite Es, K1. apply Ha. lia. }
      destruct (code c =? 125)%Z eqn:K2; [|discriminate].
      injection H as <- <-.
      split; [lia|]. intros f' Hf'.
      destruct f' as [|f']; [lia|].
      cbn [parse_members]. rewrite E0, Ek, E2. rewrite Ha3 by lia.
      now rewrite Es, K1, K2.
Qed.

(** What any amount of fuel parses, [JSON.parse] parses. *)
Lemma parse_fuel_enough (f : nat) (s : string) (v : value) (r : string) :
  parse_value f s = Some (v, r) -> skip_ws r = EmptyString ->
  parse s = Some v.
Proof.
  intros H Hr. destruct (parsers_adequate f) as [Hv _].
  apply Hv in H as [Hl Ha].
  unfold parse. rewrite Ha by lia. now rewrite Hr.
Qed.

End ParserFacts.

(** ** The token a lecturer's dashboard mints *)

Module TokenFacts.
Import JSDate JSDateFacts JSON JSONFacts Api Lecturer Lecturer.LecturerDashboard.
Import Samples.
Local Open Scope string_scope.
Local Open Scope Z_scope.

Lemma parse_qrPayload (a b c g e : string) :
  parse (stringify_object (qrPayload a b c g e)) = Some (qrObject a b c g e).
Proof. apply parse_stringify_object. Qed.

Lemma Date_parse_iso (legacy : string -> option Z) (s : string) (t : Z) :
  parse_iso s = Some t -> Date_parse legacy s = Some t.
Proof. intros H. unfold Date_parse. now rewrite H. Qed.

Lemma getPhilippineTime_eq (now : Z) :
  getPhilippineTime now = TimeClip (now + 28800000).
Proof. reflexivity. Qed.

Lemma TimeClip_some (t u : Z) : TimeClip t = Some u -> u = t /\ Z.abs t <= maxTime.
Proof.
  unfold TimeClip. destruct (Z.abs t <=? maxTime) eqn:E; [|discriminate].
  intros H. injection H as <-. apply Z.leb_le in E. now split.
Qed.

Lemma TimeClip_valid (t : Z) : Z.abs t <= maxTime -> TimeClip t = Some t.
Proof.
  intros H. unfold TimeClip. apply Z.leb_le in H. now rewrite H.
Qed.

Lemma toISOString_total (t : Z) : exists s, toISOString (Some t) = Some s.
Proof.
  unfold toISOString. destruct (civil_from_days (Day t)) as [[y m] d].
  eexists. reflexivity.
Qed.

(** What a successful mint is made of. *)
Lemma generateQRData_inv (now : Z) (course : Course) (data : string) :
  generateQRData now course = Some data ->
  exists gs es,
    getPhilippineTime now = Some (now + 28800000)
    /\ Z.abs (now + 28800000 + 3600000) <= maxTime
    /\ toISOString (Some (now + 28800000)) = Some gs
    /\ toISOString (Some (now + 28800000 + 3600000)) = Some es
    /\ data = stringify_object
                (qrPayload (_id course) (courseCode course) (courseName course)
                           gs es).
Proof.
  unfold generateQRData. rewrite getPhilippineTime_eq.
  destruct (TimeClip (now + 28800000)) as [p|] eqn:Ep; [|discriminate].
  apply TimeClip_some in Ep as [-> Hp].
  cbn [getTime num_add of_number].
  change (60 * 60 * 1000) with 3600000.
  destruct (TimeClip (now + 28800000 + 3600000)) as [q|] eqn:Eq.
  - apply TimeClip_some in Eq as [-> Hq].
    destruct (toISOString (Some (now + 28800000))) as [gs|] eqn:Eg;
      [|discriminate].
    destruct (toISOString (Some (now + 28800000 + 3600000))) as [es|] eqn:Ee;
      [|discriminate].
    intros H. injection H as <-. exists gs, es. now repeat split.
  - destruct (toISOString (Some (now + 28800000))); cbn; discriminate.
Qed.

(** A device clock whose shifted time and expiry are time values mints. *)
Lemma generateQRData_total (now : Z) (course : Course) :
  Z.abs (now + 28800000) <= maxTime ->
  Z.abs (now + 28800000 + 3600000) <= maxTime ->
  exists data, generateQRData now course = Some data.
Proof.
  intros H1 H2. unfold generateQRData. rewrite getPhilippineTime_eq.
  rewrite (TimeClip_valid _ H1). cbn [getTime num_add of_number].
  change (60 * 60 * 1000) with 3600000.
  rewrite (TimeClip_valid _ H2).
  destruct (toISOString_total (now + 28800000)) as [gs ->].
  destruct (toISOString_total (now + 28800000 + 3600000)) as [es ->].
  eexists. reflexivity.
Qed.

(** A time value of the years 0 to 9999, printed by [toISOString], reads
    back as itself. *)
Lemma toISOString_reads_back (legacy : string -> option Z) (t : Z) (s : string) :
  minISO <= t <= maxISO ->
  toISOString (Some t) = Some s ->
  Date_parse legacy s = Some t /\ s <> EmptyString.
Proof.
  intros Ht Hs.
  destruct (parse_iso_toISOString t Ht) as (s' & Hs' & Hp).
  rewrite Hs in Hs'. injection Hs' as <-. split.
  - now apply Date_parse_iso.
  - intros ->. discriminate.
Qed.

(** C6: every token [generateQRData] mints is issued at the device clock
    moved to the institutional timezone ([getPhilippineTime]) and expires
    exactly 3,600,000 ms later, so it expires after it is issued; the two
    timestamps on the wire are these two times in ISO form, and read back
    as them. *)
Theorem mint_window (legacy : string -> option Z) (now : Z) (course : Course)
    (data : string) :
  generateQRData now course = Some data ->
  exists (issuedAt expiresAt : Z) (gs es : string),
    getPhilippineTime now = Some issuedAt
    /\ issuedAt = now + 8 * 60 * 60 * 1000
    /\ expiresAt = issuedAt + 3600000
    /\ issuedAt < expiresAt
    /\ toISOString (Some issuedAt) = Some gs
    /\ toISOString (Some expiresAt) = Some es
    /\ parse data
       = Some (qrObject (_id course) (courseCode course) (courseName course)
                        gs es)
    /\ (minISO <= issuedAt -> expiresAt <= maxISO ->
        Date_parse legacy gs = Some issuedAt
        /\ Date_parse legacy es = Some expiresAt).
Proof.
  intros H. apply generateQRData_inv in H as (gs & es & Hp & Hq & Hg & He & ->).
  exists (now + 28800000), (now + 28800000 + 3600000), gs, es.
  repeat split; try assumption; try lia.
  - apply parse_qrPayload.
  - apply (toISOString_reads_back legacy (now + 28800000) gs); [lia | exact Hg].
  - apply (toISOString_reads_back legacy (now + 28800000 + 3600000) es);
      [lia | exact He].
Qed.

(** A mint at 2025-05-18T06:21:17.727Z on the device. *)
Lemma mint_window_witness :
  generateQRData 1747549277727 cs101
  = Some token
  /\ exists (issuedAt expiresAt : Z) (gs es : string),
    getPhilippineTime 1747549277727 = Some issuedAt
    /\ issuedAt = 1747549277727 + 8 * 60 * 60 * 1000
    /\ expiresAt = issuedAt + 3600000
    /\ issuedAt < expiresAt
    /\ toISOString (Some issuedAt) = Some gs
    /\ toISOString (Some expiresAt) = Some es
    /\ parse token
       = Some (qrObject (_id cs101) (courseCode cs101) (courseName cs101)
                        gs es)
    /\ (minISO <= issuedAt -> expiresAt <= maxISO ->
        Date_parse no_legacy gs = Some issuedAt
        /\ Date_parse no_legacy es = Some expiresAt).
Proof.
  split; [reflexivity|].
  apply (mint_window no_legacy 1747549277727 cs101). reflexivity.
Defined.

(** C7: the text of a token payload parses back to exactly its five
    members, each string unchanged, whatever characters they hold; and a
    time value of the years 0 to 9999 printed by [toISOString] reads back
    as the same time value, to the millisecond. *)
Theorem payload_round_trip
    (courseId courseCode courseName generatedAt expiresAt : string) :
  parse (stringify_object
           (qrPayload courseId courseCode courseName generatedAt expiresAt))
  = Some (JObj [("courseId", JStr courseId);
                ("courseCode", JStr courseCode);
                ("courseName", JStr courseName);
                ("generatedAt", JStr generatedAt);
                ("expiresAt", JStr expiresAt)])
  /\ forall (legacy : string -> option Z) (t : Z),
       minISO <= t <= maxISO ->
       exists s, toISOString (Some t) = Some s /\ Date_parse legacy s = Some t.
Proof.
  split; [apply parse_qrPayload|].
  intros legacy t Ht.
  destruct (parse_iso_toISOString t Ht) as (s & Hs & Hp).
  exists s. split; [assumption | now apply Date_parse_iso].
Qed.

Lemma payload_round_trip_witness :
  parse (stringify_object
           (qrPayload "66f0c1" "CS101" "Logic /\ Proofs"
                      "2025-05-18T14:21:17.727Z" "2025-05-18T15:21:17.727Z"))
  = Some (JObj [("courseId", JStr "66f0c1");
                ("courseCode", JStr "CS101");
                ("courseName", JStr "Logic /\ Proofs");
                ("generatedAt", JStr "2025-05-18T14:21:17.727Z");
                ("expiresAt", JStr "2025-05-18T15:21:17.727Z")])
  /\ exists s, toISOString (Some 1747578077727) = Some s
               /\ Date_parse no_legacy s = Some 1747578077727.
Proof.
  destruct (payload_round_trip "66f0c1" "CS101" "Logic /\ Proofs"
              "2025-05-18T14:21:17.727Z" "2025-05-18T15:21:17.727Z")
    as [H1 H2].
  split; [exact H1|].
  apply (H2 no_legacy 1747578077727). unfold minISO, maxISO. lia.
Defined.

End TokenFacts.

(** ** The scan handler of the student dashboard *)

Module ScanFacts.
Import JSDate JSDateFacts JSON JSONFacts Api Student TokenFacts.
Import Lecturer Lecturer.LecturerDashboard.
Import Samples.
Local Open Scope string_scope.
Local Open Scope Z_scope.

Lemma strict_eq_true (v : jsval) (s : string) :
  strict_eq v s = true <-> v = Some (JStr s).
Proof.
  unfold strict_eq. split.
  - destruct v as [[| | | x | |]|]; try discriminate.
    intros H. apply String.eqb_eq in H. now subst.
  - intros ->. apply String.eqb_refl.
Qed.

Lemma includes_true (uid : string) (l : option (list string)) :
  includes uid l = true <-> exists ids, l = Some ids /\ In uid ids.
Proof.
  unfold includes. split.
  - destruct l as [ids|]; [|discriminate].
    intros H. apply existsb_exists in H as (x & Hx & E).
    apply String.eqb_eq in E. subst x. now exists ids.
  - intros (ids & -> & Hin). apply existsb_exists.
    exists uid. split; [assumption | apply String.eqb_refl].
Qed.

Lemma isEnrolled_true (courses : list Course) (uid cid : string) :
  isEnrolled courses uid (Some (JStr cid)) = true <-> enrolledIn courses cid uid.
Proof.
  unfold isEnrolled, enrolledIn. rewrite existsb_exists. split.
  - intros (course & Hin & H). apply andb_true_iff in H as [H1 H2].
    apply strict_eq_true in H1. injection H1 as H1.
    apply includes_true in H2 as (ids & Hs & Hu).
    exists course, ids. now repeat split.
  - intros (course & ids & Hin & Hid & Hs & Hu).
    exists course. split; [assumption|].
    apply andb_true_iff. split.
    + apply strict_eq_true. now rewrite Hid.
    + apply includes_true. now exists ids.
Qed.

Lemma get_defined (obj : value) (k k' : string) (v : jsval) :
  get obj k = Some v -> exists v', get obj k' = Some v'.
Proof.
  destruct obj; cbn; try discriminate; intros _; eexists; reflexivity.
Qed.

Section Handler.

Variable legacy : string -> option Z.
Variable object_date : value -> option Date.
Variable courses : list Course.
Variable currentUserId : string.

Local Abbreviation handle :=
  (handleBarCodeScanned legacy object_date courses).

(** The gates after a successful parse with a course selected. *)
Lemma handle_parsed (scanning : Course) (data : string) (now : Z)
    (reply : Response unit) (obj : value) (cid code ex : jsval) :
  parse data = Some obj ->
  get obj "courseId" = Some cid ->
  get obj "courseCode" = Some code ->
  get obj "expiresAt" = Some ex ->
  handle (Some scanning) currentUserId data now reply
  = if negb (strict_eq cid (_id scanning))
    then (if label_throws code then Rejected TypeError
          else Rejected WrongCourse)
    else if negb (isEnrolled courses currentUserId cid)
         then (if label_throws code then Rejected TypeError
               else Rejected NotEnrolled)
         else if truthy ex then
                match ex with
                | Some v =>
                    match new_Date legacy object_date v with
                    | Some expiryTime =>
                        if date_gt (Some now) expiryTime
                        then Rejected Expired
                        else Submitted (scanOf data currentUserId scanning)
                                       reply
                    | None => Rejected TypeError
                    end
                | None => Submitted (scanOf data currentUserId scanning) reply
                end
              else Submitted (scanOf data currentUserId scanning) reply.
Proof.
  intros Hp Hc Hk He. unfold handleBarCodeScanned.
  now rewrite Hp, Hc, Hk, He.
Qed.

(** A payload that passes the course and enrolment gates: what is left is
    the expiry gate. *)
Lemma handle_passed (scanning : Course) (data : string) (now : Z)
    (reply : Response unit) (obj : value) (ex : jsval) :
  parse data = Some obj ->
  get obj "courseId" = Some (Some (JStr (_id scanning))) ->
  enrolledIn courses (_id scanning) currentUserId ->
  get obj "expiresAt" = Some ex ->
  handle (Some scanning) currentUserId data now reply
  = if truthy ex then
      match ex with
      | Some v =>
          match new_Date legacy object_date v with
          | Some expiryTime =>
              if date_gt (Some now) expiryTime
              then Rejected Expired
              else Submitted (scanOf data currentUserId scanning) reply
          | None => Rejected TypeError
          end
      | None => Submitted (scanOf data currentUserId scanning) reply
      end
    else Submitted (scanOf data currentUserId scanning) reply.
Proof.
  intros Hp Hc Hen He.
  destruct (get_defined obj "courseId" "courseCode" _ Hc) as [code Hk].
  rewrite (handle_parsed scanning data now reply obj _ code ex Hp Hc Hk He).
  replace (strict_eq (Some (JStr (_id scanning))) (_id scanning)) with true
    by (symmetry; now apply strict_eq_true).
  apply isEnrolled_true in Hen. now rewrite Hen.
Qed.

(** Every outcome before the expiry gate is a rejection, and the expiry
    gate is the only one that answers [Expired]. *)
Lemma handle_stopped_early (scanning : Course) (data : string) (now : Z)
    (reply : Response unit) (obj : value) (cid : jsval) :
  parse data = Some obj ->
  get obj "courseId" = Some cid ->
  negb (strict_eq cid (_id scanning))
  || negb (isEnrolled courses currentUserId cid) = true ->
  exists why,
    handle (Some scanning) currentUserId data now reply = Rejected why
    /\ why <> Expired /\ why <> InvalidFormat /\ why <> NoCourse.
Proof.
  intros Hp Hc Hg.
  destruct (get_defined obj "courseId" "courseCode" _ Hc) as [code Hk].
  destruct (get_defined obj "courseId" "expiresAt" _ Hc) as [ex He].
  rewrite (handle_parsed scanning data now reply obj cid code ex Hp Hc Hk He).
  destruct (negb (strict_eq cid (_id scanning))).
  - destruct (label_throws code); eexists; (split; [reflexivity|]);
      repeat split; discriminate.
  - cbn [orb] in Hg. rewrite Hg.
    destruct (label_throws code); eexists; (split; [reflexivity|]);
      repeat split; discriminate.
Qed.

(** Whatever the handler rejects, it has sent nothing; these are the
    only two shapes of its outcome. *)
Lemma handle_not_parsed (cur : option Course) (data : string) (now : Z)
    (reply : Response unit) :
  parse data = None ->
  handle cur currentUserId data now reply = Rejected InvalidFormat.
Proof. intros Hp. unfold handleBarCodeScanned. now rewrite Hp. Qed.

(** With the selected course on the list under an id of its own, being
    off the roster is being absent from that course's [students]. *)
Lemma selected_off_roster (scanning : Course) :
  In scanning courses ->
  (forall course, In course courses -> _id course = _id scanning ->
                  course = scanning) ->
  includes currentUserId (students scanning) = false ->
  ~ enrolledIn courses (_id scanning) currentUserId.
Proof.
  intros Hin Huniq Hno (course & ids & Hc & Hid & Hs & Hu).
  rewrite (Huniq course Hc Hid) in Hs.
  assert (Ht : includes currentUserId (students scanning) = true)
    by (apply includes_true; now exists ids).
  congruence.
Qed.

Lemma label_throws_string (c : string) : label_throws (Some (JStr c)) = false.
Proof. apply andb_false_r. Qed.

Lemma label_throws_absent : label_throws None = false.
Proof. reflexivity. Qed.

(** A token for another course is never sent: the handler stops with
    the wrong-course error, or with the [TypeError] of building its
    text. *)
Lemma wrong_course_stops (scanning : Course) (data : string) (now : Z)
    (reply : Response unit) (obj : value) (cid : jsval) :
  parse data = Some obj ->
  get obj "courseId" = Some cid ->
  cid <> Some (JStr (_id scanning)) ->
  handle (Some scanning) currentUserId data now reply = Rejected WrongCourse
  \/ handle (Some scanning) currentUserId data now reply = Rejected TypeError.
Proof.
  intros Hp Hc Hne.
  destruct (get_defined obj "courseId" "courseCode" cid Hc) as [code Hk].
  destruct (get_defined obj "courseId" "expiresAt" cid Hc) as [ex He].
  rewrite (handle_parsed scanning data now reply obj cid code ex Hp Hc Hk He).
  destruct (strict_eq cid (_id scanning)) eqn:E.
  - apply strict_eq_true in E. contradiction.
  - cbn [negb]. destruct (label_throws code); [now right | now left].
Qed.

(** C3: a token that parses, whose [courseCode] can be printed in the
    error's text (it is absent or falsy, or converts to a string, as the
    string of every well-formed token does) and whose [courseId] is not
    the id of the course the student selected is rejected with
    [WrongCourse], whatever its expiry, the clock, the roster and the
    student. *)
Theorem wrong_course (scanning : Course) (data : string) (now : Z)
    (reply : Response unit) (obj : value) (cid code : jsval) :
  parse data = Some obj ->
  get obj "courseId" = Some cid ->
  cid <> Some (JStr (_id scanning)) ->
  get obj "courseCode" = Some code ->
  label_throws code = false ->
  handle (Some scanning) currentUserId data now reply = Rejected WrongCourse.
Proof.
  intros Hp Hc Hne Hk Hl.
  destruct (get_defined obj "courseId" "expiresAt" cid Hc) as [ex He].
  rewrite (handle_parsed scanning data now reply obj cid code ex Hp Hc Hk He).
  rewrite Hl.
  destruct (strict_eq cid (_id scanning)) eqn:E; [|reflexivity].
  apply strict_eq_true in E. contradiction.
Qed.

(** C4: a token that parses, is for the selected course and whose
    [courseCode] can be printed in the error's text (it is absent or
    falsy, or converts to a string, as the string of every well-formed
    token does) is rejected with [NotEnrolled], and so nothing is sent to
    the backend, when the student is not on the roster of that course;
    this holds whether or not the token has expired. *)
Theorem not_enrolled (scanning : Course) (data : string) (now : Z)
    (reply : Response unit) (obj : value) (code : jsval) :
  parse data = Some obj ->
  get obj "courseId" = Some (Some (JStr (_id scanning))) ->
  get obj "courseCode" = Some code ->
  label_throws code = false ->
  ~ enrolledIn courses (_id scanning) currentUserId ->
  handle (Some scanning) currentUserId data now reply = Rejected NotEnrolled.
Proof.
  intros Hp Hc Hk Hl Hne.
  destruct (get_defined obj "courseId" "expiresAt" _ Hc) as [ex He].
  rewrite (handle_parsed scanning data now reply obj _ code ex Hp Hc Hk He).
  rewrite Hl.
  replace (strict_eq (Some (JStr (_id scanning))) (_id scanning)) with true
    by (symmetry; now apply strict_eq_true).
  cbn [negb].
  destruct (isEnrolled courses currentUserId (Some (JStr (_id scanning))))
    eqn:E; [|reflexivity].
  apply isEnrolled_true in E. contradiction.
Qed.

(** The expiry gate, once the gates before it are passed. *)
Lemma handle_at_expiry (scanning : Course) (data : string) (now : Z)
    (reply : Response unit) (obj : value) (e : string) (expiresAt : Z) :
  parse data = Some obj ->
  get obj "courseId" = Some (Some (JStr (_id scanning))) ->
  enrolledIn courses (_id scanning) currentUserId ->
  get obj "expiresAt" = Some (Some (JStr e)) -> e <> EmptyString ->
  Date_parse legacy e = Some expiresAt ->
  handle (Some scanning) currentUserId data now reply
  = if expiresAt <? now then Rejected Expired
    else Submitted (scanOf data currentUserId scanning) reply.
Proof.
  intros Hp Hc Hen He Hne Hd.
  rewrite (handle_passed scanning data now reply obj _ Hp Hc Hen He).
  cbn [truthy].
  replace (String.eqb e EmptyString) with false
    by (symmetry; now apply String.eqb_neq).
  cbn [negb new_Date]. rewrite Hd. reflexivity.
Qed.

(** Every outcome before the expiry gate is a rejection. *)
Lemma handle_expired_rejects (cur : option Course) (data : string) (now : Z)
    (reply : Response unit) (obj : value) (e : string) (expiresAt : Z) :
  parse data = Some obj ->
  get obj "expiresAt" = Some (Some (JStr e)) -> e <> EmptyString ->
  Date_parse legacy e = Some expiresAt ->
  expiresAt < now ->
  exists why, handle cur currentUserId data now reply = Rejected why.
Proof.
  intros Hp He Hne Hd Hlt.
  destruct cur as [scanning|].
  2:{ unfold handleBarCodeScanned. rewrite Hp. now exists NoCourse. }
  destruct (get_defined obj "expiresAt" "courseId" _ He) as [cid Hc].
  destruct (negb (strict_eq cid (_id scanning))
            || negb (isEnrolled courses currentUserId cid)) eqn:Eg.
  - destruct (handle_stopped_early scanning data now reply obj cid Hp Hc Eg)
      as (why & Hw & _).
    now exists why.
  - apply orb_false_iff in Eg as [E1 E2].
    apply negb_false_iff in E1, E2.
    apply strict_eq_true in E1. subst cid. apply isEnrolled_true in E2.
    rewrite (handle_at_expiry scanning data now reply obj e expiresAt
               Hp Hc E2 He Hne Hd).
    apply Z.ltb_lt in Hlt. rewrite Hlt. now eexists.
Qed.

Lemma handle_unexpired_not_Expired (cur : option Course) (data : string)
    (now : Z) (reply : Response unit) (obj : value) (e : string)
    (expiresAt : Z) :
  parse data = Some obj ->
  get obj "expiresAt" = Some (Some (JStr e)) ->
  Date_parse legacy e = Some expiresAt ->
  now <= expiresAt ->
  handle cur currentUserId data now reply <> Rejected Expired.
Proof.
  intros Hp He Hd Hle.
  destruct cur as [scanning|].
  2:{ unfold handleBarCodeScanned. rewrite Hp. discriminate. }
  destruct (get_defined obj "expiresAt" "courseId" _ He) as [cid Hc].
  destruct (negb (strict_eq cid (_id scanning))
            || negb (isEnrolled courses currentUserId cid)) eqn:Eg.
  { destruct (handle_stopped_early scanning data now reply obj cid Hp Hc Eg)
      as (why & Hw & Hx & _).
    rewrite Hw. intros H. injection H as H. contradiction. }
  apply orb_false_iff in Eg as [E1 E2].
  apply negb_false_iff in E1, E2.
  apply strict_eq_true in E1. subst cid. apply isEnrolled_true in E2.
  rewrite (handle_passed scanning data now reply obj _ Hp Hc E2 He).
  destruct (truthy (Some (JStr e))); [|discriminate].
  cbn [new_Date]. rewrite Hd. cbn [date_gt getTime num_gt].
  replace (expiresAt <? now) with false
    by (symmetry; apply Z.ltb_ge; lia).
  discriminate.
Qed.

(** C2: for a token whose [expiresAt] the engine reads as the time
    [expiresAt]: when [now > expiresAt] the handler rejects, and with
    [Expired] once the course and enrollment gates are passed; when
    [now <= expiresAt], the instant [now = expiresAt] included, it does
    not reject with [Expired], and sends the scan once those gates are
    passed. *)
Theorem expiry_gate (cur : option Course) (data : string) (now : Z)
    (reply : Response unit) (obj : value) (e : string) (expiresAt : Z) :
  parse data = Some obj ->
  get obj "expiresAt" = Some (Some (JStr e)) -> e <> EmptyString ->
  Date_parse legacy e = Some expiresAt ->
  let result := handle cur currentUserId data now reply in
  (expiresAt < now ->
     (exists why, result = Rejected why)
     /\ (forall scanning,
           cur = Some scanning ->
           get obj "courseId" = Some (Some (JStr (_id scanning))) ->
           enrolledIn courses (_id scanning) currentUserId ->
           result = Rejected Expired))
  /\ (now <= expiresAt ->
      result <> Rejected Expired
      /\ (forall scanning,
            cur = Some scanning ->
            get obj "courseId" = Some (Some (JStr (_id scanning))) ->
            enrolledIn courses (_id scanning) currentUserId ->
            result = Submitted (scanOf data currentUserId scanning) reply)).
Proof.
  intros Hp He Hne Hd result. subst result. split.
  - intros Hlt. split.
    + now apply (handle_expired_rejects cur data now reply obj e expiresAt).
    + intros scanning -> Hc Hen.
      rewrite (handle_at_expiry scanning data now reply obj e expiresAt)
        by assumption.
      apply Z.ltb_lt in Hlt. now rewrite Hlt.
  - intros Hle. split.
    + now apply (handle_unexpired_not_Expired cur data now reply obj e
                   expiresAt).
    + intros scanning -> Hc Hen.
      rewrite (handle_at_expiry scanning data now reply obj e expiresAt)
        by assumption.
      replace (expiresAt <? now) with false
        by (symmetry; apply Z.ltb_ge; lia).
      reflexivity.
Qed.

(** C5, amended: the decode gate rejects with [InvalidFormat], before
    anything else is looked at, exactly the texts that [JSON.parse]
    refuses; it does not ask which members the payload has. *)
Theorem invalid_format_iff (cur : option Course) (data : string) (now : Z)
    (reply : Response unit) :
  handle cur currentUserId data now reply = Rejected InvalidFormat
  <-> parse data = None.
Proof.
  split.
  - unfold handleBarCodeScanned.
    destruct (parse data) as [obj|]; [|reflexivity].
    destruct cur as [scanning|]; [|discriminate].
    destruct (get obj "courseId") as [cid|]; [|discriminate].
    cbv zeta.
    destruct (negb (strict_eq cid (_id scanning))).
    { destruct (get obj "courseCode") as [code|]; [|discriminate].
      destruct (label_throws code); discriminate. }
    destruct (negb (isEnrolled courses currentUserId cid)).
    { destruct (get obj "courseCode") as [code|]; [|discriminate].
      destruct (label_throws code); discriminate. }
    destruct (get obj "expiresAt") as [ex|]; [|discriminate].
    destruct (truthy ex); [|discriminate].
    destruct ex as [v|]; [|discriminate].
    destruct (new_Date legacy object_date v) as [d|]; [|discriminate].
    destruct (date_gt (Some now) d); discriminate.
  - apply handle_not_parsed.
Qed.

(** C10: a token the lecturer's dashboard mints at the device time [now]
    carries [now + 8 h] as its issue time and [now + 9 h] as its expiry,
    both marked as UTC; the student's handler compares the expiry with its
    own unshifted clock [t], so for an enrolled student scanning for that
    course the token passes the expiry gate at every [t <= now + 9 h], and
    is [Expired] after. *)
Theorem minted_token_passes_nine_hours (now : Z) (course : Course)
    (data : string) :
  generateQRData now course = Some data ->
  minISO <= now + 28800000 -> now + 32400000 <= maxISO ->
  enrolledIn courses (_id course) currentUserId ->
  (exists obj g e,
     parse data = Some obj
     /\ get obj "generatedAt" = Some (Some (JStr g))
     /\ get obj "expiresAt" = Some (Some (JStr e))
     /\ Date_parse legacy g = Some (now + 8 * 60 * 60 * 1000)
     /\ Date_parse legacy e = Some (now + 9 * 60 * 60 * 1000))
  /\ forall (t : Z) (reply : Response unit),
       handle (Some course) currentUserId data t reply
       = if t <=? now + 9 * 60 * 60 * 1000
         then Submitted (scanOf data currentUserId course) reply
         else Rejected Expired.
Proof.
  intros Hg Hlo Hhi Hen.
  apply generateQRData_inv in Hg as (gs & es & _ & _ & Hgs & Hes & ->).
  change (8 * 60 * 60 * 1000) with 28800000.
  change (9 * 60 * 60 * 1000) with 32400000.
  replace (now + 28800000 + 3600000) with (now + 32400000) in Hes by lia.
  destruct (toISOString_reads_back legacy (now + 28800000) gs) as [Hdg _];
    [lia | exact Hgs |].
  destruct (toISOString_reads_back legacy (now + 32400000) es) as [Hde Hne];
    [lia | exact Hes |].
  pose proof (parse_qrPayload (_id course) (courseCode course)
                (courseName course) gs es) as Hp.
  split.
  - exists (qrObject (_id course) (courseCode course) (courseName course)
                     gs es), gs, es.
    now repeat split.
  - intros t reply.
    rewrite (handle_at_expiry course _ t reply _ es (now + 32400000)
               Hp eq_refl Hen eq_refl Hne Hde).
    destruct (Z.ltb_spec (now + 32400000) t), (Z.leb_spec t (now + 32400000));
      try reflexivity; lia.
Qed.

End Handler.

Lemma cs101_roster_s1 : enrolledIn [cs101; math201] "66f0c1" "s1".
Proof.
  exists cs101, ["s1"; "s2"]. repeat split; simpl; auto.
Defined.

Lemma cs101_roster_not_s3 : ~ enrolledIn [cs101; math201] "66f0c1" "s3".
Proof.
  intros (course & ids & Hin & Hid & Hs & Hu).
  destruct Hin as [<- | [<- | []]].
  - injection Hs as <-. simpl in Hu.
    destruct Hu as [H | [H | []]]; discriminate.
  - discriminate.
Defined.

Lemma wrong_course_witness :
  handleBarCodeScanned no_legacy no_object_date [cs101; math201]
    (Some math201) "s1" token 1747549277727 (Ok tt)
  = Rejected WrongCourse.
Proof.
  apply (wrong_course no_legacy no_object_date [cs101; math201] "s1"
           math201 token 1747549277727 (Ok tt)
           (qrObject "66f0c1" "CS101" "Logic /\ Proofs"
                     "2025-05-18T14:21:17.727Z" "2025-05-18T15:21:17.727Z")
           (Some (JStr "66f0c1")) (Some (JStr "CS101"))).
  - reflexivity.
  - reflexivity.
  - discriminate.
  - reflexivity.
  - reflexivity.
Defined.

Lemma not_enrolled_witness :
  handleBarCodeScanned no_legacy no_object_date [cs101; math201]
    (Some cs101) "s3" token 1747549277727 (Ok tt)
  = Rejected NotEnrolled.
Proof.
  apply (not_enrolled no_legacy no_object_date [cs101; math201] "s3"
           cs101 token 1747549277727 (Ok tt)
           (qrObject "66f0c1" "CS101" "Logic /\ Proofs"
                     "2025-05-18T14:21:17.727Z" "2025-05-18T15:21:17.727Z")
           (Some (JStr "CS101"))).
  - reflexivity.
  - reflexivity.
  - reflexivity.
  - reflexivity.
  - exact cs101_roster_not_s3.
Defined.

(** The texts of the wrong-course and not-enrolled errors print the
    token's [courseCode]: when that is an object with a member
    [toString], or an array with such an item, building the text throws
    and the scan ends with the [TypeError] instead. *)
Example message_text_can_throw :
  handleBarCodeScanned no_legacy no_object_date [cs101; math201]
    (Some cs101) "s1" unprintable_token 1747549277727 (Ok tt)
  = Rejected TypeError
  /\ handleBarCodeScanned no_legacy no_object_date [cs101; math201]
       (Some cs101) "s3" unprintable_cs101 1747549277727 (Ok tt)
     = Rejected TypeError.
Proof. split; reflexivity. Qed.

(** An [expiresAt] that is a number is read as a double: [1e-400] is zero
    and states no deadline; 1747581677727.9999999 is the double
    1747581677728, so the token is sent at that millisecond and expired
    at the next. *)
Example numeric_expiry :
  handleBarCodeScanned no_legacy no_object_date [cs101; math201]
    (Some cs101) "s1" tiny_expiry_token 1779117677727 (Ok tt)
  = Submitted (scanOf tiny_expiry_token "s1" cs101) (Ok tt)
  /\ handleBarCodeScanned no_legacy no_object_date [cs101; math201]
       (Some cs101) "s1" fraction_expiry_token 1747581677728 (Ok tt)
     = Submitted (scanOf fraction_expiry_token "s1" cs101) (Ok tt)
  /\ handleBarCodeScanned no_legacy no_object_date [cs101; math201]
       (Some cs101) "s1" fraction_expiry_token 1747581677729 (Ok tt)
     = Rejected Expired.
Proof. repeat split; reflexivity. Qed.

(** The sample token expires at 2025-05-18T15:21:17.727Z: scanned by an
    enrolled student for its course, it is sent at that very millisecond
    of the student's clock and refused one millisecond later. *)
Example expiry_boundary :
  handleBarCodeScanned no_legacy no_object_date [cs101; math201]
    (Some cs101) "s1" token 1747581677727 (Ok tt)
  = Submitted (scanOf token "s1" cs101) (Ok tt)
  /\ handleBarCodeScanned no_legacy no_object_date [cs101; math201]
       (Some cs101) "s1" token 1747581677728 (Ok tt)
     = Rejected Expired.
Proof. split; reflexivity. Qed.

(** The token above read at the very millisecond it expires
    (2025-05-18T15:21:17.727Z on the student's clock). *)
Lemma expiry_gate_witness :
  let result :=
    handleBarCodeScanned no_legacy no_object_date [cs101; math201]
      (Some cs101) "s1" token 1747581677727 (Ok tt) in
  (1747581677727 < 1747581677727 ->
     (exists why, result = Rejected why)
     /\ (forall scanning,
           Some cs101 = Some scanning ->
           get (qrObject "66f0c1" "CS101" "Logic /\ Proofs"
                  "2025-05-18T14:21:17.727Z" "2025-05-18T15:21:17.727Z")
               "courseId" = Some (Some (JStr (_id scanning))) ->
           enrolledIn [cs101; math201] (_id scanning) "s1" ->
           result = Rejected Expired))
  /\ (1747581677727 <= 1747581677727 ->
      result <> Rejected Expired
      /\ (forall scanning,
            Some cs101 = Some scanning ->
            get (qrObject "66f0c1" "CS101" "Logic /\ Proofs"
                   "2025-05-18T14:21:17.727Z" "2025-05-18T15:21:17.727Z")
                "courseId" = Some (Some (JStr (_id scanning))) ->
            enrolledIn [cs101; math201] (_id scanning) "s1" ->
            result = Submitted (scanOf token "s1" scanning) (Ok tt))).
Proof.
  apply (expiry_gate no_legacy no_object_date [cs101; math201] "s1"
           (Some cs101) token 1747581677727 (Ok tt)
           (qrObject "66f0c1" "CS101" "Logic /\ Proofs"
                     "2025-05-18T14:21:17.727Z" "2025-05-18T15:21:17.727Z")
           "2025-05-18T15:21:17.727Z" 1747581677727).
  - reflexivity.
  - reflexivity.
  - discriminate.
  - reflexivity.
Defined.

Lemma minted_token_passes_nine_hours_witness :
  generateQRData 1747549277727 cs101 = Some token
  /\ (exists obj g e,
        parse token = Some obj
        /\ get obj "generatedAt" = Some (Some (JStr g))
        /\ get obj "expiresAt" = Some (Some (JStr e))
        /\ Date_parse no_legacy g = Some (1747549277727 + 8 * 60 * 60 * 1000)
        /\ Date_parse no_legacy e = Some (1747549277727 + 9 * 60 * 60 * 1000))
  /\ forall (t : Z) (reply : Response unit),
       handleBarCodeScanned no_legacy no_object_date [cs101; math201]
         (Some cs101) "s1" token t reply
       = if t <=? 1747549277727 + 9 * 60 * 60 * 1000
         then Submitted (scanOf token "s1" cs101) reply
         else Rejected Expired.
Proof.
  split; [reflexivity|].
  apply (minted_token_passes_nine_hours no_legacy no_object_date
           [cs101; math201] "s1" 1747549277727 cs101 token).
  - reflexivity.
  - unfold minISO. lia.
  - unfold maxISO. lia.
  - exact cs101_roster_s1.
Defined.

(** C5, as stated, fails: a text with the single member [courseId] is
    valid JSON, passes the decode gate without any of the four other
    members, and is sent to the backend. *)
Lemma decode_gate_ignores_members :
  parse bare_token = Some (JObj [("courseId", JStr "66f0c1")])
  /\ handleBarCodeScanned no_legacy no_object_date [cs101; math201]
       (Some cs101) "s1" bare_token 1747549277727 (Ok tt)
     = Submitted (scanOf bare_token "s1" cs101) (Ok tt).
Proof. split; reflexivity. Qed.

(** A text that is not JSON, scanned with no course selected. *)
Lemma invalid_format_iff_witness :
  parse "CS101 attendance" = None
  /\ handleBarCodeScanned no_legacy no_object_date [cs101; math201]
       None "s1" "CS101 attendance" 1747549277727 (Ok tt)
     = Rejected InvalidFormat.
Proof.
  split; [reflexivity|].
  apply (proj2 (invalid_format_iff no_legacy no_object_date [cs101; math201]
                  "s1" None "CS101 attendance" 1747549277727 (Ok tt))).
  reflexivity.
Defined.

End ScanFacts.

(** ** The card of a course: the generator and the poller *)

Module CardFacts.
Import JSDate JSDateFacts Api Lecturer Lecturer.CourseCard Sessions TokenFacts.
Import Samples.
Local Open Scope string_scope.
Local Open Scope Z_scope.

Lemma filter_length_imp {A : Type} (p q : A -> bool) (l : list A) :
  (forall x, In x l -> p x = true -> q x = true) ->
  (List.length (filter p l) <= List.length (filter q l))%nat.
Proof.
  induction l as [|a l IH]; intros H; [simpl; lia|].
  assert (IH' := IH (fun x Hx => H x (or_intror Hx))).
  cbn [filter]. destruct (p a) eqn:Ep.
  - rewrite (H a (or_introl eq_refl) Ep). simpl. lia.
  - destruct (q a); simpl; lia.
Qed.

Lemma find_none_filter {A : Type} (p : A -> bool) (l : list A) :
  find p l = None -> filter p l = [].
Proof.
  induction l as [|a l IH]; [reflexivity|].
  cbn [find filter]. destruct (p a); [discriminate | exact IH].
Qed.

Lemma find_some_filter {A : Type} (p : A -> bool) (l : list A) (r : A) :
  find p l = Some r -> exists rest, filter p l = r :: rest.
Proof.
  induction l as [|a l IH]; [discriminate|].
  cbn [find filter]. destruct (p a).
  - intros H. injection H as <-. eexists. reflexivity.
  - exact IH.
Qed.

Section Generator.

Variable legacy : string -> option Z.
Variable course : Course.

(** A session still valid at a later device time was valid before. *)
Lemma stillValid_earlier (t t' : Z) (r : AttendanceRecord) :
  device_time t -> t <= t' ->
  stillValid legacy (getPhilippineTime t') r = true ->
  stillValid legacy (getPhilippineTime t) r = true.
Proof.
  unfold device_time, stillValid, date_gt, num_gt, getTime.
  rewrite !getPhilippineTime_eq. intros Ht Hle.
  destruct (Date_parse legacy (expiresAt r)) as [e|]; [|discriminate].
  destruct (TimeClip (t' + 28800000)) as [p'|] eqn:E'; [|discriminate].
  apply TimeClip_some in E' as [-> Hv]. intros H. apply Z.ltb_lt in H.
  rewrite TimeClip_valid by lia. apply Z.ltb_lt. lia.
Qed.

Lemma live_earlier (t t' : Z) (w : World) :
  device_time t -> t <= t' ->
  (List.length (live legacy t' w) <= List.length (live legacy t w))%nat.
Proof.
  intros Ht Hle. unfold live. apply filter_length_imp.
  intros r _. now apply stillValid_earlier.
Qed.

Lemma handleGenerateQR_found (records : list AttendanceRecord) (now : Z)
    (st : CardState) (r : AttendanceRecord) :
  find (stillValid legacy (getPhilippineTime now)) records = Some r ->
  handleGenerateQR legacy (Ok records) now st
  = setShowQRModal true (setQRData (Some (qrCodeData r, expiresAt r)) st).
Proof.
  intros H. unfold handleGenerateQR, checkExistingQRCode. now rewrite H.
Qed.

Lemma handleGenerateQR_none (records : list AttendanceRecord) (now : Z)
    (st : CardState) :
  find (stillValid legacy (getPhilippineTime now)) records = None ->
  handleGenerateQR legacy (Ok records) now st = setShowConfirmModal true st.
Proof.
  intros H. unfold handleGenerateQR, checkExistingQRCode. now rewrite H.
Qed.

(** A fetch that fails, whichever way: the check answers that no session
    is valid, and the press opens the confirmation. *)
Lemma handleGenerateQR_failed (resp : Response (list AttendanceRecord))
    (now : Z) (st : CardState) :
  (forall records, resp <> Ok records) ->
  checkExistingQRCode legacy resp now st = (false, st)
  /\ handleGenerateQR legacy resp now st = setShowConfirmModal true st.
Proof.
  intros H. unfold handleGenerateQR.
  destruct resp as [| |records]; try (now split).
  now destruct (H records).
Qed.

Lemma showConfirmModal_handleConfirm (reply : Response (string * string))
    (st : CardState) :
  showConfirmModal (handleConfirmGenerateQR course reply st) = false.
Proof.
  unfold handleConfirmGenerateQR.
  destruct (generateQRData course reply); reflexivity.
Qed.

Lemma cards_setCard (d d' : nat) (st : CardState) (w : World) :
  cards (setCard d st w) d' = if Nat.eqb d' d then st else cards w d'.
Proof. reflexivity. Qed.

Lemma cards_setCard_same (d : nat) (st : CardState) (w : World) :
  cards (setCard d st w) d = st.
Proof. rewrite cards_setCard. now rewrite Nat.eqb_refl. Qed.

(** The lecturer's answer leaves no confirmation open, on a world where
    none but this device's may be. *)
Lemma answer_closes (w : World) (d : nat) (e : Event) :
  (forall d', d' <> d -> showConfirmModal (cards w d') = false) ->
  (exists created, e = Confirm d created) \/ e = Cancel d ->
  forall d', showConfirmModal (cards (step legacy course w e) d') = false.
Proof.
  intros Hq He d'.
  assert (K : forall st w',
             cards w' = cards w ->
             showConfirmModal st = false ->
             showConfirmModal (cards (setCard d st w') d') = false).
  { intros st w' Hw Hst. rewrite cards_setCard.
    destruct (Nat.eqb_spec d' d) as [->|Hne]; [exact Hst|].
    rewrite Hw. now apply Hq. }
  assert (Hw : showConfirmModal (cards w d) = false ->
               showConfirmModal (cards w d') = false).
  { intros H. destruct (Nat.eq_dec d' d) as [->|Hne]; [exact H|].
    now apply Hq. }
  destruct He as [[created ->] | ->]; cbn [step].
  - destruct (showConfirmModal (cards w d)) eqn:E; [|now apply Hw].
    destruct (lecturerId course) as [lec|]; [destruct created as [r|]|];
      apply K; try reflexivity; apply showConfirmModal_handleConfirm.
  - destruct (showConfirmModal (cards w d)) eqn:E; [|now apply Hw].
    now apply K.
Qed.

(** What the lecturer's answer adds to the store: at most the session
    that comes with a confirmation, and nothing unless the confirmation
    is open. *)
Lemma answer_sessions (w : World) (d : nat) (e : Event) :
  (exists created, e = Confirm d created) \/ e = Cancel d ->
  (showConfirmModal (cards w d) = false -> step legacy course w e = w)
  /\ (sessions (step legacy course w e) = sessions w
      \/ exists r, sessions (step legacy course w e) = (sessions w ++ [r])%list).
Proof.
  intros [[created ->] | ->]; cbn [step].
  - split; [now intros ->|].
    destruct (showConfirmModal (cards w d)); [|now left].
    destruct (lecturerId course) as [lec|]; [destruct created as [r|]|];
      try (now left).
    right. now exists r.
  - split; [now intros ->|].
    destruct (showConfirmModal (cards w d)); now left.
Qed.

Lemma answer_of_request (rq : Request) :
  (exists session,
     (if confirmed rq then Confirm (device rq) (created rq)
      else Cancel (device rq)) = Confirm (device rq) session)
  \/ (if confirmed rq then Confirm (device rq) (created rq)
      else Cancel (device rq)) = Cancel (device rq).
Proof. destruct (confirmed rq); [left; now eexists | now right]. Qed.

(** A request handled alone keeps the store settled. *)
Lemma request_settled (t : Z) (w : World) (rq : Request) :
  settled legacy t w -> device_time t -> t <= clock rq ->
  fetchOk rq = true ->
  settled legacy (clock rq) (exec legacy course w (events_of rq)).
Proof.
  intros [Hc Hl] Ht Hle Hf.
  pose proof (live_earlier t (clock rq) w Ht Hle) as Hm.
  unfold exec, events_of. cbn [fold_left].
  set (w1 := step legacy course w
               (Press (device rq) (clock rq) (fetchOk rq))).
  assert (Hs1 : sessions w1 = sessions w) by reflexivity.
  assert (Hq1 : forall d', d' <> device rq ->
                           showConfirmModal (cards w1 d') = false).
  { intros d' Hne. subst w1. cbn [step]. rewrite cards_setCard.
    destruct (Nat.eqb_spec d' (device rq)); [contradiction | apply Hc]. }
  pose proof (answer_of_request rq) as Ha.
  set (e := if confirmed rq then Confirm (device rq) (created rq)
            else Cancel (device rq)) in *.
  split; [now apply (answer_closes w1 (device rq) e)|].
  destruct (answer_sessions w1 (device rq) e Ha) as [Hsame Hadd].
  unfold live in *.
  destruct (find (stillValid legacy (getPhilippineTime (clock rq)))
              (sessions w)) as [r|] eqn:Hfind.
  - rewrite Hsame; [rewrite Hs1; lia|].
    subst w1. cbn [step]. rewrite Hf, cards_setCard_same.
    rewrite (handleGenerateQR_found _ _ _ _ Hfind).
    apply Hc.
  - apply find_none_filter in Hfind.
    destruct Hadd as [-> | [r ->]]; rewrite Hs1.
    + rewrite Hfind. simpl. lia.
    + rewrite filter_app, Hfind. cbn [app filter].
      destruct (stillValid legacy (getPhilippineTime (clock rq)) r);
        simpl; lia.
Qed.

Lemma serial_settled (rqs : list Request) :
  forall (w : World) (t0 : Z),
  settled legacy t0 w -> device_time t0 -> in_order t0 rqs ->
  Forall (fun rq => fetchOk rq = true) rqs ->
  settled legacy (last_clock t0 rqs) (exec legacy course w (serial rqs))
  /\ device_time (last_clock t0 rqs).
Proof.
  induction rqs as [|rq rest IH]; intros w t0 Hs Ht Ho Hf.
  - now split.
  - destruct Ho as (Hle & Hd & Ho). inversion Hf as [|? ? Hf1 Hf2]; subst.
    unfold serial, exec, last_clock. cbn [flat_map fold_left].
    rewrite fold_left_app.
    apply IH; try assumption.
    now apply (request_settled t0).
Qed.

Lemma in_order_prefix (p q : list Request) :
  forall t0, in_order t0 (p ++ q)%list -> in_order t0 p.
Proof.
  induction p as [|rq p IH]; intros t0 H; [exact I|].
  destruct H as (H1 & H2 & H3). repeat split; try assumption.
  now apply IH.
Qed.

(** C1, amended: take any requests for a QR code, on any devices, in the
    order of their times and handled one after the other (the press of
    the button and the lecturer's answer to the confirmation it may open,
    with nothing in between), each of which gets the course's sessions
    from the backend, on a store that starts with at most one live session
    and no confirmation open.  After any number of them, at most one
    session is live at every instant from the last of them on; a further
    press that finds a live session shows that session, creates none and
    opens no confirmation, so that none can be created from it; and a
    press whose fetch fails finds no valid session and opens the
    confirmation. *)
Theorem single_live_token (rqs : list Request) (w : World) (t0 : Z) :
  (forall d, showConfirmModal (cards w d) = false) ->
  (List.length (live legacy t0 w) <= 1)%nat ->
  device_time t0 ->
  in_order t0 rqs ->
  Forall (fun rq => fetchOk rq = true) rqs ->
  forall done rest, rqs = (done ++ rest)%list ->
  (forall t,
     last_clock t0 done <= t ->
     (List.length (live legacy t (exec legacy course w (serial done))) <= 1)%nat)
  /\ (forall d t r,
        last_clock t0 done <= t ->
        In r (live legacy t (exec legacy course w (serial done))) ->
        let pressed :=
          step legacy course (exec legacy course w (serial done))
               (Press d t true) in
        sessions pressed = sessions (exec legacy course w (serial done))
        /\ qrData (cards pressed d) = Some (qrCodeData r, expiresAt r)
        /\ showQRModal (cards pressed d) = true
        /\ showConfirmModal (cards pressed d) = false
        /\ forall created,
             step legacy course pressed (Confirm d created) = pressed)
  /\ (forall (resp : Response (list AttendanceRecord)) t st,
        (forall records, resp <> Ok records) ->
        checkExistingQRCode legacy resp t st = (false, st)
        /\ handleGenerateQR legacy resp t st = setShowConfirmModal true st).
Proof.
  intros Hc Hl Ht Ho Hf done rest ->.
  apply in_order_prefix in Ho. apply Forall_app in Hf as [Hf _].
  destruct (serial_settled done w t0 (conj Hc Hl) Ht Ho Hf)
    as [[Hc' Hl'] Ht'].
  set (w' := exec legacy course w (serial done)) in *.
  split; [|split].
  - intros t Hle.
    pose proof (live_earlier (last_clock t0 done) t w' Ht' Hle). lia.
  - intros d t r Hle Hin pressed.
    pose proof (live_earlier (last_clock t0 done) t w' Ht' Hle) as Hm.
    unfold live in Hin, Hm, Hl'.
    destruct (find (stillValid legacy (getPhilippineTime t)) (sessions w'))
      as [r'|] eqn:Hfind.
    + destruct (find_some_filter _ _ _ Hfind) as [rest' Hrest].
      rewrite Hrest in Hin, Hm.
      destruct rest' as [|x rest']; [|simpl in Hm; lia].
      destruct Hin as [<- | []].
      assert (Hp : cards pressed d
                   = setShowQRModal true
                       (setQRData (Some (qrCodeData r', expiresAt r'))
                          (cards w' d))).
      { subst pressed. cbn [step]. rewrite cards_setCard_same.
        now apply handleGenerateQR_found. }
      assert (Hm' : showConfirmModal (cards pressed d) = false)
        by (rewrite Hp; apply Hc').
      split; [reflexivity|]. rewrite Hp.
      repeat split; try reflexivity; [apply Hc'|].
      intros created. cbn [step]. now rewrite Hm'.
    + apply find_none_filter in Hfind. rewrite Hfind in Hin. destruct Hin.
  - intros resp t st. apply handleGenerateQR_failed.
Qed.

End Generator.

Example second_press_shows_first_session :
  let w := exec no_legacy cs101 world0 (serial [press1; press2]) in
  sessions w = [session1]
  /\ cards w 0%nat
     = {| qrData := Some ("qr-1", "2025-05-18T15:21:17.727Z");
          showQRModal := true; showConfirmModal := false;
          newScans := 0; lastCheckTime := 0 |}.
Proof. split; reflexivity. Qed.

(** The first request mints [session1]; from then on it is the one live
    session, and a further press on any device shows it. *)
Lemma single_live_token_witness :
  (forall t,
     last_clock 0 [press1] <= t ->
     (List.length
        (live no_legacy t (exec no_legacy cs101 world0 (serial [press1])))
      <= 1)%nat)
  /\ (forall d t r,
        last_clock 0 [press1] <= t ->
        In r (live no_legacy t
                (exec no_legacy cs101 world0 (serial [press1]))) ->
        let pressed :=
          step no_legacy cs101
               (exec no_legacy cs101 world0 (serial [press1]))
               (Press d t true) in
        sessions pressed
        = sessions (exec no_legacy cs101 world0 (serial [press1]))
        /\ qrData (cards pressed d) = Some (qrCodeData r, expiresAt r)
        /\ showQRModal (cards pressed d) = true
        /\ showConfirmModal (cards pressed d) = false
        /\ forall created,
             step no_legacy cs101 pressed (Confirm d created) = pressed)
  /\ (forall (resp : Response (list AttendanceRecord)) t st,
        (forall records, resp <> Ok records) ->
        checkExistingQRCode no_legacy resp t st = (false, st)
        /\ handleGenerateQR no_legacy resp t st
           = setShowConfirmModal true st).
Proof.
  apply (fun h1 h2 h3 h4 h5 =>
           single_live_token no_legacy cs101 [press1; press2] world0 0
             h1 h2 h3 h4 h5 [press1] [press2] eq_refl).
  - reflexivity.
  - simpl. lia.
  - unfold device_time, maxTime. simpl. lia.
  - simpl. unfold device_time, maxTime. simpl. lia.
  - repeat constructor.
Defined.

(** C1, as stated, fails in two ways.  When the fetch of the sessions
    fails, with one live session in the store, the check answers false,
    the press opens the confirmation instead of showing the live session,
    and once the lecturer confirms and the backend creates a session two
    sessions are live at once.  And when the button is pressed on two
    devices before the lecturer confirms on either, every fetch
    succeeding, both presses find no live session, both open the
    confirmation, and both confirmations create a session. *)
Lemma two_live_tokens :
  (live no_legacy 1747550477727 world1 = [session1]
   /\ showConfirmModal
        (cards (step no_legacy cs101 world1
                     (Press 0 1747550477727 false)) 0%nat) = true
   /\ live no_legacy 1747550477727
        (exec no_legacy cs101 world1 (events_of press_offline))
      = [session1; session2])
  /\ (live no_legacy 1747549277727 world0 = []
      /\ showConfirmModal
           (cards (exec no_legacy cs101 world0
                        [Press 0 1747549277727 true;
                         Press 1 1747549278727 true]) 0%nat) = true
      /\ showConfirmModal
           (cards (exec no_legacy cs101 world0
                        [Press 0 1747549277727 true;
                         Press 1 1747549278727 true]) 1%nat) = true
      /\ live no_legacy 1747550477727 (exec no_legacy cs101 world0 overlap)
         = [session1; session2]).
Proof. repeat split; reflexivity. Qed.

Section Poller.

Variable legacy : string -> option Z.

(** C9, amended: a tick less than 3000 ms after the last recorded check
    sends no request and leaves the card as it was; any other tick sends
    the request, and when the backend answers with the sessions it sets the
    badge to their count and [lastCheckTime] to the time of the tick, and
    when the request fails it leaves the badge and [lastCheckTime] as they
    were. *)
Theorem poller_tick (now later : Z) (resp : Response (list AttendanceRecord))
    (st : CardState) :
  (now - lastCheckTime st < 3000 ->
     fetched (handleNewScan legacy now later resp st) = false
     /\ after (handleNewScan legacy now later resp st) = st)
  /\ (3000 <= now - lastCheckTime st ->
      fetched (handleNewScan legacy now later resp st) = true
      /\ match resp with
         | Ok records =>
             after (handleNewScan legacy now later resp st)
             = setLastCheckTime now
                 (setNewScans
                    (recentScans legacy (getPhilippineTime later) records) st)
         | NotOk | NetworkError =>
             after (handleNewScan legacy now later resp st) = st
         end).
Proof.
  unfold handleNewScan. split; intros H.
  - apply Z.ltb_lt in H. rewrite H. now split.
  - replace (now - lastCheckTime st <? 3000) with false
      by (symmetry; apply Z.ltb_ge; lia).
    destruct resp; now split.
Qed.

End Poller.

(** C9, as stated, fails on a tick whose request fails: ten seconds after
    the last check the request is sent, the backend answers with an error,
    and the badge and [lastCheckTime] stay as they were. *)
Lemma failed_tick_updates_nothing :
  fetched (handleNewScan no_legacy 1747549287727 1747549287900 NotOk
             card_badge2) = true
  /\ newScans (after (handleNewScan no_legacy 1747549287727 1747549287900
                        NotOk card_badge2)) = 2
  /\ lastCheckTime (after (handleNewScan no_legacy 1747549287727 1747549287900
                             NotOk card_badge2)) = 1747549277727.
Proof. repeat split; reflexivity. Qed.

(** A tick ten seconds after the last check, answered with one session
    generated ten minutes before. *)
Lemma poller_tick_witness :
  fetched (handleNewScan no_legacy 1747549287727 1747549287900
             (Ok [session_10min]) card_badge2) = true
  /\ after (handleNewScan no_legacy 1747549287727 1747549287900
              (Ok [session_10min]) card_badge2)
     = setLastCheckTime 1747549287727
         (setNewScans
            (recentScans no_legacy (getPhilippineTime 1747549287900)
               [session_10min]) card_badge2).
Proof.
  apply (proj2 (poller_tick no_legacy 1747549287727 1747549287900
                  (Ok [session_10min]) card_badge2)).
  simpl. lia.
Defined.

(** C8: the badge count is not the count of the scans of the last five
    minutes.  At 2025-05-18T14:21:17.727 institutional time, a session
    generated ten minutes before holds one scan made one minute before:
    the specified count is 1, [handleNewScan] counts 0, for it compares
    the session's [generatedAt], not the scan's [scannedAt]. *)
Lemma recentScans_by_session_time :
  getPhilippineTime 1747549277727 = Some 1747578077727
  /\ Ledger.countRecentScans no_legacy 1747578077727 (5 * 60 * 1000)
       [session_10min] = 1
  /\ recentScans no_legacy (getPhilippineTime 1747549277727) [session_10min]
     = 0
  /\ newScans (after (handleNewScan no_legacy 1747549277727 1747549277727
                        (Ok [session_10min]) card0)) = 0.
Proof. repeat split; reflexivity. Qed.

End CardFacts.

(** ** What the attendance list prints of a timestamp *)

Module DisplayFacts.
Import JSDate JSDateFacts Display.
Local Open Scope string_scope.
Local Open Scope Z_scope.

Example formatPhilippineTime_offset :
  formatPhilippineTime Samples.no_legacy "2025-05-18T14:21:17.727+00:00"
  = "2:21 PM".
Proof. reflexivity. Qed.

Example formatSessionTabTime_midnight :
  formatSessionTabTime Samples.no_legacy "2025-05-18T00:05:17.727Z"
  = "May 18, 12:05 AM".
Proof. reflexivity. Qed.

Lemma is_digit_char (k : Z) : is_digit (digit_char k) = true.
Proof. unfold is_digit. now rewrite digit_val_char. Qed.

Lemma digit_char_not_T (k : Z) : (digit_char k =? "T")%char = false.
Proof.
  destruct (Ascii.eqb_spec (digit_char k) "T") as [E|]; [|reflexivity].
  pose proof (digit_val_char k) as H. rewrite E in H. discriminate.
Qed.

Lemma time_at_head (c : ascii) (r : string) :
  (c =? "T")%char = false -> time_at (String c r) = None.
Proof.
  intros H. unfold time_at.
  destruct r as [|h1 [|h2 [|c' [|m1 [|m2 r]]]]]; try reflexivity.
  now rewrite H.
Qed.

Lemma match_time_skip (c : ascii) (r : string) :
  (c =? "T")%char = false -> match_time (String c r) = match_time r.
Proof.
  intros H. cbn [match_time]. now rewrite (time_at_head c r H).
Qed.

Lemma match_time_pad2 (n : Z) (k : string) :
  match_time (pad2 n k) = match_time k.
Proof.
  unfold pad2. now rewrite !match_time_skip by apply digit_char_not_T.
Qed.

Lemma match_time_fmt_year (y : Z) (k : string) :
  match_time (fmt_year y k) = match_time k.
Proof.
  unfold fmt_year, pad6, pad4, pad3.
  destruct ((0 <=? y) && (y <=? 9999)).
  - rewrite !match_time_skip by apply digit_char_not_T.
    apply match_time_pad2.
  - rewrite match_time_skip by (now destruct (y <? 0)).
    rewrite !match_time_skip by apply digit_char_not_T.
    apply match_time_pad2.
Qed.

(** The time of day that the pattern finds in a printed date. *)
Lemma match_time_toISOString (t : Z) (s : string) :
  toISOString (Some t) = Some s ->
  match_time s
  = Some (pad2 (TimeWithinDay t / 3600000) EmptyString,
          pad2 (TimeWithinDay t / 60000 mod 60) EmptyString).
Proof.
  unfold toISOString.
  destruct (civil_from_days (Day t)) as [[y m] dd].
  intros H. injection H as <-.
  rewrite match_time_fmt_year. unfold sep at 1.
  rewrite match_time_skip by reflexivity. rewrite match_time_pad2.
  unfold sep at 1.
  rewrite match_time_skip by reflexivity. rewrite match_time_pad2.
  unfold sep, pad2. cbn [match_time time_at].
  rewrite !is_digit_char. reflexivity.
Qed.

Lemma parseInt_pad2 (n : Z) :
  0 <= n <= 99 -> parseInt (pad2 n EmptyString) = Some n.
Proof.
  intros H. unfold parseInt, pad2. rewrite is_digit_char.
  cbn [digits_value]. rewrite !digit_val_char. f_equal.
  Z.div_mod_to_equations. lia.
Qed.

Lemma padStart2_minutes (n : Z) :
  0 <= n <= 59 -> padStart2 (Number_toString (Some n)) = pad2 n EmptyString.
Proof.
  assert (H : range_all
                (fun z => String.eqb (padStart2 (Number_toString (Some z)))
                                     (pad2 z EmptyString)) 0 6 = true)
    by (vm_compute; reflexivity).
  intros Hn.
  pose proof (range_all_spec _ _ _ H n) as Hz.
  change (2 ^ Z.of_nat 6) with 64 in Hz.
  apply String.eqb_eq, Hz. lia.
Qed.

Lemma tod_bounds (t : Z) :
  0 <= TimeWithinDay t / 3600000 <= 23
  /\ 0 <= TimeWithinDay t / 60000 mod 60 <= 59.
Proof.
  unfold TimeWithinDay, msPerDay. split; Z.div_mod_to_equations; lia.
Qed.

(** X1: on a timestamp in the form [toISOString] prints, whatever the
    year, the pattern branch of [formatPhilippineTime] gives the label
    that its fallback branch computes from the date's UTC hours and
    minutes: the 12-hour clock of the instant, whatever the engine does
    with other formats. *)
Theorem formatPhilippineTime_iso (legacy : string -> option Z) (t : Z)
    (s : string) :
  toISOString (Some t) = Some s ->
  formatPhilippineTime legacy s = clockOfDate (Some t).
Proof.
  intros Hs. unfold formatPhilippineTime, clockOfDate.
  rewrite (match_time_toISOString t s Hs).
  destruct (tod_bounds t) as [Hh Hm].
  rewrite parseInt_pad2 by lia.
  cbn [getUTCHours getUTCMinutes].
  now rewrite padStart2_minutes by lia.
Qed.

Lemma formatPhilippineTime_iso_witness :
  toISOString (Some 1747578077727) = Some "2025-05-18T14:21:17.727Z"
  /\ formatPhilippineTime Samples.no_legacy "2025-05-18T14:21:17.727Z"
     = clockOfDate (Some 1747578077727).
Proof.
  split; [reflexivity|].
  apply (formatPhilippineTime_iso Samples.no_legacy 1747578077727).
  reflexivity.
Defined.

Lemma match_date_toISOString (t : Z) (s : string) :
  minISO <= t <= maxISO ->
  toISOString (Some t) = Some s ->
  exists y m dd,
    civil_from_days (Day t) = (y, m, dd)
    /\ 1 <= m <= 12 /\ 1 <= dd <= 31
    /\ match_date s
       = Some (pad4 y EmptyString, pad2 m EmptyString, pad2 dd EmptyString).
Proof.
  unfold minISO, maxISO. intros Ht. unfold toISOString.
  pose proof (civil_from_days_spec (Day t)) as Hs.
  pose proof (civil_from_days_year (Day t)) as Hy.
  assert (HD : -719528 <= Day t <= 2932896).
  { unfold Day, msPerDay. Z.div_mod_to_equations. lia. }
  specialize (Hy HD).
  destruct (civil_from_days (Day t)) as [[y m] d].
  destruct Hs as (Hm & Hd & Hdays).
  intros H. injection H as <-.
  assert (Hdim : DaysInMonth y m <= 31).
  { unfold DaysInMonth.
    destruct (m =? 2); [destruct (isLeap y); lia|].
    destruct ((m =? 4) || (m =? 6) || (m =? 9) || (m =? 11)); lia. }
  exists y, m, d. repeat split; try lia.
  unfold fmt_year.
  replace ((0 <=? y) && (y <=? 9999)) with true
    by (symmetry; apply andb_true_iff; split; apply Z.leb_le; lia).
  unfold pad4, pad3, pad2, sep, match_date.
  rewrite !is_digit_char. reflexivity.
Qed.

(** X2: on a timestamp that [toISOString] prints for a date of the years
    0 to 9999, the pattern branch of [formatSessionTabTime] gives the
    label that its fallback branch computes from the date's UTC month,
    day, hours and minutes. *)
Theorem formatSessionTabTime_iso (legacy : string -> option Z) (t : Z)
    (s : string) :
  minISO <= t <= maxISO ->
  toISOString (Some t) = Some s ->
  formatSessionTabTime legacy s = tabLabelOfDate (Some t).
Proof.
  intros Ht Hs. unfold formatSessionTabTime, tabLabelOfDate.
  destruct (match_date_toISOString t s Ht Hs)
    as (y & m & dd & Hc & Hm & Hd & ->).
  rewrite (match_time_toISOString t s Hs).
  destruct (tod_bounds t) as [Hh Hmi].
  rewrite !parseInt_pad2 by lia.
  cbn [getUTCHours getUTCMinutes getUTCMonth getUTCDate num_add].
  rewrite Hc.
  rewrite padStart2_minutes by lia.
  reflexivity.
Qed.

Lemma formatSessionTabTime_iso_witness :
  formatSessionTabTime Samples.no_legacy "2025-05-18T14:21:17.727Z"
  = tabLabelOfDate (Some 1747578077727).
Proof.
  apply (formatSessionTabTime_iso Samples.no_legacy 1747578077727).
  - unfold minISO, maxISO. lia.
  - reflexivity.
Defined.

Lemma time_at_no_T (s : string) :
  (forall c, In c (list_ascii_of_string s) -> c <> "T"%char) ->
  match_time s = None.
Proof.
  induction s as [|c r IH]; intros H; [reflexivity|].
  rewrite match_time_skip.
  - apply IH. intros c' Hc'. apply H. now right.
  - apply Ascii.eqb_neq, H. now left.
Qed.

(** X3: a timestamp without the letter T that the engine does not read
    as a date is not handed back as it is: both formatters print the
    fields of an invalid date. *)
Theorem unreadable_timestamp_labels (legacy : string -> option Z)
    (s : string) :
  (forall c, In c (list_ascii_of_string s) -> c <> "T"%char) ->
  Date_parse legacy s = None ->
  formatPhilippineTime legacy s = "12:NaN AM"
  /\ formatSessionTabTime legacy s = "undefined NaN, 12:NaN AM".
Proof.
  intros HT Hd. apply time_at_no_T in HT.
  unfold formatPhilippineTime, formatSessionTabTime.
  rewrite HT, Hd. split; [reflexivity|].
  now destruct (match_date s) as [[[? ?] ?]|].
Qed.

Lemma unreadable_timestamp_labels_witness :
  formatPhilippineTime Samples.no_legacy "yesterday" = "12:NaN AM"
  /\ formatSessionTabTime Samples.no_legacy "yesterday"
     = "undefined NaN, 12:NaN AM".
Proof.
  apply (unreadable_timestamp_labels Samples.no_legacy "yesterday").
  - intros c H. cbn in H.
    repeat (destruct H as [<- | H]; [discriminate|]). destruct H.
  - reflexivity.
Defined.

End DisplayFacts.

(** ** The scan handler behind the student's scanner *)

Module ScannerFacts.
Import JSDate JSON Api Student Scanner ScanFacts.
Import Lecturer Lecturer.LecturerDashboard.
Import Samples.
Local Open Scope string_scope.
Local Open Scope Z_scope.

Section Dashboard.

Variable legacy : string -> option Z.
Variable object_date : value -> option Date.
Variable currentUserId : string.

Lemma enrolledCourses_In (allCourses : list Course) (course : Course) :
  In course (enrolledCourses currentUserId allCourses)
  <-> In course allCourses /\ includes currentUserId (students course) = true.
Proof. unfold enrolledCourses. apply filter_In. Qed.

(** With the selected course on the list and the student on its roster,
    the enrolment check of the handler passes. *)
Lemma on_roster_never_NotEnrolled (courses : list Course)
    (scanning : Course) (data : string) (now : Z) (reply : Response unit) :
  In scanning courses ->
  includes currentUserId (students scanning) = true ->
  handleBarCodeScanned legacy object_date courses (Some scanning)
    currentUserId data now reply
  <> Rejected NotEnrolled.
Proof.
  intros Hin Hs. unfold handleBarCodeScanned.
  destruct (parse data) as [obj|]; [|discriminate].
  destruct (get obj "courseId") as [cid|]; [|discriminate].
  cbv zeta.
  destruct (strict_eq cid (_id scanning)) eqn:Eid; cbn [negb].
  2:{ destruct (get obj "courseCode") as [code|]; [|discriminate].
      destruct (label_throws code); discriminate. }
  replace (isEnrolled courses currentUserId cid) with true.
  - cbn [negb].
    destruct (get obj "expiresAt") as [ex|]; [|discriminate].
    destruct (truthy ex); [|discriminate].
    destruct ex as [v|]; [|discriminate].
    destruct (new_Date legacy object_date v) as [d|]; [|discriminate].
    destruct (date_gt (Some now) d); discriminate.
  - symmetry. unfold isEnrolled. apply existsb_exists.
    exists scanning. split; [exact Hin|].
    now rewrite Eid, Hs.
Qed.

(** X4: a scan reaches the backend only after every check of the handler
    has passed: a course is selected, the text is JSON whose [courseId] is
    that course's id, the student is on that course's roster in the
    dashboard's list, and an [expiresAt] that reads as a time is not in
    the past; the request then carries the scanned text as it is, the
    student and the id and code of the selected course, and the outcome
    carries the backend's reply. *)
Theorem submitted_passed_every_gate (courses : list Course)
    (cur : option Course) (data : string) (now : Z) (reply : Response unit)
    (req : ScanRequest) (r : Response unit) :
  handleBarCodeScanned legacy object_date courses cur currentUserId data now
    reply = Submitted req r ->
  r = reply
  /\ exists scanning obj,
       cur = Some scanning
       /\ parse data = Some obj
       /\ get obj "courseId" = Some (Some (JStr (_id scanning)))
       /\ enrolledIn courses (_id scanning) currentUserId
       /\ req = scanOf data currentUserId scanning
       /\ forall e expiresAt,
            get obj "expiresAt" = Some (Some (JStr e)) ->
            e <> EmptyString ->
            Date_parse legacy e = Some expiresAt ->
            now <= expiresAt.
Proof.
  unfold handleBarCodeScanned.
  destruct (parse data) as [obj|]; [|discriminate].
  destruct cur as [scanning|]; [|discriminate].
  destruct (get obj "courseId") as [cid|] eqn:Ec; [|discriminate].
  cbv zeta.
  destruct (strict_eq cid (_id scanning)) eqn:Eid; cbn [negb].
  2:{ destruct (get obj "courseCode") as [code|]; [|discriminate].
      destruct (label_throws code); discriminate. }
  apply strict_eq_true in Eid. subst cid.
  destruct (isEnrolled courses currentUserId (Some (JStr (_id scanning))))
    eqn:Een; cbn [negb].
  2:{ destruct (get obj "courseCode") as [code|]; [|discriminate].
      destruct (label_throws code); discriminate. }
  apply isEnrolled_true in Een.
  fold (scanOf data currentUserId scanning).
  destruct (get obj "expiresAt") as [ex|] eqn:Eex; [|discriminate].
  assert (K : (forall e expiresAt,
                 ex = Some (JStr e) -> e <> EmptyString ->
                 Date_parse legacy e = Some expiresAt -> now <= expiresAt) ->
              Submitted (scanOf data currentUserId scanning) reply
              = Submitted req r ->
              r = reply
              /\ exists scanning0 obj0,
                   Some scanning = Some scanning0
                   /\ Some obj = Some obj0
                   /\ get obj0 "courseId" = Some (Some (JStr (_id scanning0)))
                   /\ enrolledIn courses (_id scanning0) currentUserId
                   /\ req = scanOf data currentUserId scanning0
                   /\ forall e expiresAt,
                        get obj0 "expiresAt" = Some (Some (JStr e)) ->
                        e <> EmptyString ->
                        Date_parse legacy e = Some expiresAt ->
                        now <= expiresAt).
  { intros HP H. injection H as <- <-. split; [reflexivity|].
    exists scanning, obj. repeat split; try assumption.
    intros e expiresAt He. rewrite Eex in He. injection He as ->.
    now apply HP. }
  destruct (truthy ex) eqn:Et.
  - destruct ex as [v|]; [|discriminate].
    destruct (new_Date legacy object_date v) as [d|] eqn:Ed; [|discriminate].
    destruct (date_gt (Some now) d) eqn:Eg; [discriminate|].
    apply K. intros e expiresAt He _ Hd. injection He as ->.
    cbn [new_Date] in Ed. injection Ed as <-. rewrite Hd in Eg.
    cbn [date_gt getTime num_gt] in Eg. now apply Z.ltb_ge in Eg.
  - apply K. intros e expiresAt -> Hne _.
    cbn [truthy] in Et. apply negb_false_iff, String.eqb_eq in Et.
    contradiction.
Qed.

(** X5: the deadline is only enforced on a token that states one the
    engine can read: with [expiresAt] absent, [null], empty, zero or
    [false], or a string that is no date, the scan of an enrolled student
    for the token's course is sent at any time. *)
Theorem token_without_deadline_is_sent (courses : list Course)
    (scanning : Course) (data : string) (now : Z) (reply : Response unit)
    (obj : value) (ex : jsval) :
  parse data = Some obj ->
  get obj "courseId" = Some (Some (JStr (_id scanning))) ->
  enrolledIn courses (_id scanning) currentUserId ->
  get obj "expiresAt" = Some ex ->
  truthy ex = false
  \/ (exists e, ex = Some (JStr e) /\ Date_parse legacy e = None) ->
  handleBarCodeScanned legacy object_date courses (Some scanning)
    currentUserId data now reply
  = Submitted (scanOf data currentUserId scanning) reply.
Proof.
  intros Hp Hc Hen He Hex.
  rewrite (handle_passed legacy object_date courses currentUserId scanning
             data now reply obj ex Hp Hc Hen He).
  destruct Hex as [Hf | (e & -> & Hd)].
  - now rewrite Hf.
  - cbn [new_Date]. rewrite Hd. cbn [date_gt getTime num_gt].
    now destruct (truthy (Some (JStr e))).
Qed.

Lemma scan_with_course (courses : list Course) (scanning : Course)
    (data : string) (now : Z) (reply : Response unit) :
  handleBarCodeScanned legacy object_date courses (Some scanning)
    currentUserId data now reply
  <> Rejected NoCourse.
Proof.
  unfold handleBarCodeScanned.
  destruct (parse data) as [obj|]; [|discriminate].
  destruct (get obj "courseId") as [cid|]; [|discriminate].
  cbv zeta.
  destruct (negb (strict_eq cid (_id scanning))).
  { destruct (get obj "courseCode") as [code|]; [|discriminate].
    destruct (label_throws code); discriminate. }
  destruct (negb (isEnrolled courses currentUserId cid)).
  { destruct (get obj "courseCode") as [code|]; [|discriminate].
    destruct (label_throws code); discriminate. }
  destruct (get obj "expiresAt") as [ex|]; [|discriminate].
  destruct (truthy ex); [|discriminate].
  destruct ex as [v|]; [|discriminate].
  destruct (new_Date legacy object_date v) as [d|]; [|discriminate].
  destruct (date_gt (Some now) d); discriminate.
Qed.

Lemma afterScan_fields (out : Outcome) (s : State) :
  isScannerVisible (afterScan out s) = isScannerVisible s
  /\ currentScanningCourse (afterScan out s) = currentScanningCourse s
  /\ lastOutcome (afterScan out s) = Some out.
Proof. destruct out as [why | req [| | []]]; now repeat split. Qed.

(** One event keeps the scanner on a course while it shows, and the
    missing-course error off the screen. *)
Lemma step_keeps_course (s : State) (e : Event) :
  (isScannerVisible s = true -> currentScanningCourse s <> None) ->
  lastOutcome s <> Some (Rejected NoCourse) ->
  (isScannerVisible (step legacy object_date currentUserId s e) = true ->
   currentScanningCourse (step legacy object_date currentUserId s e) <> None)
  /\ lastOutcome (step legacy object_date currentUserId s e)
     <> Some (Rejected NoCourse).
Proof.
  intros Hv Hl. destruct e; cbn [step].
  - destruct resp; split; assumption.
  - destruct granted; split; assumption.
  - unfold handleScanPress. destruct (hasPermission s) as [[|]|];
      (split; [|assumption]); try assumption.
    intros _. discriminate.
  - split; [discriminate | assumption].
  - split; assumption.
  - destruct (isScannerVisible s && negb (scanned s)) eqn:Eg;
      [|split; assumption].
    apply andb_true_iff in Eg as [Ev _].
    destruct (afterScan_fields (scan legacy object_date currentUserId
                                  data now reply s) s) as (E1 & E2 & E3).
    rewrite E1, E2, E3. split; [intros _; now apply Hv|].
    intros H. injection H as H. revert H. unfold scan.
    destruct (currentScanningCourse s) as [scanning|] eqn:Ec.
    + apply scan_with_course.
    + now destruct (Hv Ev).
  - split; [discriminate | assumption].
  - split; assumption.
  - split; assumption.
Qed.

Lemma run_keeps_course (events : list Event) (s : State) :
  (isScannerVisible s = true -> currentScanningCourse s <> None) ->
  lastOutcome s <> Some (Rejected NoCourse) ->
  (isScannerVisible
     (fold_left (step legacy object_date currentUserId) events s) = true ->
   currentScanningCourse
     (fold_left (step legacy object_date currentUserId) events s) <> None)
  /\ lastOutcome (fold_left (step legacy object_date currentUserId) events s)
     <> Some (Rejected NoCourse).
Proof.
  revert s. induction events as [|e events IH]; intros s Hv Hl.
  - now split.
  - cbn [fold_left].
    destruct (step_keeps_course s e Hv Hl) as [Hv' Hl'].
    now apply IH.
Qed.

(** X6: whatever the student does and whatever the camera, the backend
    and the timers deliver, and in whatever order, the scanner never shows
    without a course selected; so the handler's missing-course error is
    neither the outcome of the next scan nor what an error modal shows. *)
Theorem scanner_always_has_course (events : list Event) :
  let s := replay legacy object_date currentUserId events in
  lastOutcome s <> Some (Rejected NoCourse)
  /\ forall data now reply,
       isScannerVisible s = true ->
       (exists course, currentScanningCourse s = Some course)
       /\ scan legacy object_date currentUserId data now reply s
          <> Rejected NoCourse.
Proof.
  intros s. subst s. unfold replay.
  destruct (run_keeps_course events initial) as [Hv Hl];
    [discriminate | discriminate |].
  split; [exact Hl|].
  intros data now reply Hvis. specialize (Hv Hvis). unfold scan.
  destruct (currentScanningCourse _) as [course|]; [|contradiction].
  split; [now exists course | apply scan_with_course].
Qed.

(** The courses on the dashboard are always courses of the student's. *)
Lemma run_lists_enrolled (events : list Event) (s : State) :
  (forall c, In c (courses s) -> includes currentUserId (students c) = true) ->
  forall c,
    In c (courses (fold_left (step legacy object_date currentUserId)
                             events s)) ->
    includes currentUserId (students c) = true.
Proof.
  revert s. induction events as [|e events IH]; intros s Hs; [exact Hs|].
  cbn [fold_left]. apply IH. clear IH.
  destruct e; cbn [step]; try exact Hs.
  - destruct resp; cbn [fetchEnrolledCourses courses]; try exact Hs.
    intros c Hc. now apply enrolledCourses_In in Hc.
  - now destruct granted.
  - unfold handleScanPress. now destruct (hasPermission s) as [[|]|].
  - destruct (isScannerVisible s && negb (scanned s)); [|exact Hs].
    now destruct (scan _ _ _ _ _ _ s) as [why | req [| | []]].
Qed.

(** X7: every course the dashboard ever lists has the student on its
    roster; so while the course the scanner was opened for is still
    listed, the enrolment check of the handler cannot fail, and a scan
    that is refused is refused for another reason. *)
Theorem enrolment_check_passes_for_listed (events : list Event) :
  let s := replay legacy object_date currentUserId events in
  (forall c, In c (courses s) -> includes currentUserId (students c) = true)
  /\ forall scanning data now reply,
       currentScanningCourse s = Some scanning ->
       In scanning (courses s) ->
       scan legacy object_date currentUserId data now reply s
       <> Rejected NotEnrolled.
Proof.
  intros s.
  assert (Hs : forall c, In c (courses s) ->
                         includes currentUserId (students c) = true).
  { subst s. unfold replay. apply run_lists_enrolled. intros c []. }
  split; [exact Hs|].
  intros scanning data now reply Hc Hin. unfold scan. rewrite Hc.
  apply on_roster_never_NotEnrolled; [exact Hin | now apply Hs].
Qed.

End Dashboard.

Lemma submitted_passed_every_gate_witness :
  Ok tt = Ok tt
  /\ exists scanning obj,
       Some cs101 = Some scanning
       /\ parse token = Some obj
       /\ get obj "courseId" = Some (Some (JStr (_id scanning)))
       /\ enrolledIn [cs101; math201] (_id scanning) "s1"
       /\ scanOf token "s1" cs101 = scanOf token "s1" scanning
       /\ forall e expiresAt,
            get obj "expiresAt" = Some (Some (JStr e)) ->
            e <> EmptyString ->
            Date_parse no_legacy e = Some expiresAt ->
            1747581677727 <= expiresAt.
Proof.
  apply (submitted_passed_every_gate no_legacy no_object_date "s1"
           [cs101; math201] (Some cs101) token 1747581677727 (Ok tt)
           (scanOf token "s1" cs101) (Ok tt)).
  reflexivity.
Defined.

(** The token with the single member [courseId], scanned a year after
    the sample token expired. *)
Lemma token_without_deadline_is_sent_witness :
  handleBarCodeScanned no_legacy no_object_date [cs101; math201]
    (Some cs101) "s1" bare_token 1779117677727 (Ok tt)
  = Submitted (scanOf bare_token "s1" cs101) (Ok tt).
Proof.
  apply (token_without_deadline_is_sent no_legacy no_object_date "s1"
           [cs101; math201] cs101 bare_token 1779117677727 (Ok tt)
           (JObj [("courseId", JStr "66f0c1")]) None).
  - reflexivity.
  - reflexivity.
  - exact cs101_roster_s1.
  - reflexivity.
  - left. reflexivity.
Defined.

(** A student opens the scanner for CS101, scans the sample token in
    time, and the timer closes the scanner. *)
Example scanner_session :
  let s := replay no_legacy no_object_date "s1"
             [CoursesFetched (Ok [cs101; math201]);
              PermissionAnswered (Some true);
              ScanPress cs101;
              BarCode token 1747549277727 (Ok tt)] in
  showSuccessModal s = true /\ scanned s = true
  /\ lastOutcome s = Some (Submitted (scanOf token "s1" cs101) (Ok tt))
  /\ isScannerVisible (successTimeout s) = false
  /\ currentScanningCourse (successTimeout s) = None.
Proof. cbv zeta. repeat split; reflexivity. Qed.

End ScannerFacts.

(** ** Sorting *)

Module SortFacts.
Import JSDate JSArray.

Lemma insert_perm {A : Type} (cmp : A -> A -> option Z) (x : A) (l : list A) :
  Permutation (x :: l) (insert cmp x l).
Proof.
  induction l as [|y r IH]; cbn [insert]; [reflexivity|].
  destruct (num_gt (cmp x y) (Some 0)); [|reflexivity].
  rewrite perm_swap. now apply perm_skip.
Qed.

Lemma sort_perm {A : Type} (cmp : A -> A -> option Z) (l : list A) :
  Permutation l (sort cmp l).
Proof.
  induction l as [|x l IH]; cbn [sort fold_right]; [reflexivity|].
  rewrite <- insert_perm. now apply perm_skip.
Qed.

Section Ordered.

Variable A : Type.
Variable cmp : A -> A -> option Z.
Variable R : A -> A -> Prop.
Variable P : A -> Prop.

Hypothesis after : forall x y,
  P x -> P y -> num_gt (cmp x y) (Some 0) = true -> R y x.
Hypothesis before : forall x y,
  P x -> P y -> num_gt (cmp x y) (Some 0) = false -> R x y.
Hypothesis R_trans : forall x y z, P x -> P y -> P z -> R x y -> R y z -> R x z.

Lemma insert_sorted (x : A) (l : list A) :
  P x -> Forall P l -> StronglySorted R l -> StronglySorted R (insert cmp x l).
Proof.
  intros Hx Hl Hs. induction l as [|y r IH]; cbn [insert].
  - constructor; constructor.
  - apply Forall_cons_iff in Hl as [Hy Hr].
    apply StronglySorted_inv in Hs as [Hs Hyr].
    destruct (num_gt (cmp x y) (Some 0)) eqn:E.
    + constructor; [now apply IH|].
      apply (Permutation_Forall (insert_perm cmp x r)).
      constructor; [now apply after | exact Hyr].
    + pose proof (before x y Hx Hy E) as Hxy.
      constructor; [now constructor|].
      constructor; [exact Hxy|].
      rewrite Forall_forall in Hyr, Hr |- *.
      intros z Hz. apply (R_trans x y z); auto.
Qed.

Lemma sort_sorted (l : list A) :
  Forall P l -> StronglySorted R (sort cmp l).
Proof.
  induction l as [|x l IH]; intros Hl; cbn [sort fold_right].
  - constructor.
  - apply Forall_cons_iff in Hl as [Hx Hl].
    apply insert_sorted; [exact Hx | | now apply IH].
    apply (Permutation_Forall (sort_perm cmp l) Hl).
Qed.

End Ordered.

End SortFacts.

(** ** The course card: countdown, attendance list, poller *)

Module CardViewFacts.
Import JSDate JSDateFacts Api Lecturer Lecturer.CourseCard Display CardViews.
Import TokenFacts CardFacts SortFacts.
Import Samples ViewSamples.
Local Open Scope string_scope.
Local Open Scope Z_scope.

Section Views.

Variable legacy : string -> option Z.

(** X8: while the clock and the expiry are readable, a tick of the
    countdown takes the QR code down and closes its modal as soon as
    fewer than 60,000 ms are left on the shifted clock, up to a minute
    before the session expires; before that it leaves the card as it is
    and shows the whole minutes that are left, at least one. *)
Theorem countdown_takes_down_in_last_minute (now : Z) (v : Countdown)
    (q e : string) (expiry : Z) :
  qrData (shown v) = Some (q, e) ->
  Date_parse legacy e = Some expiry ->
  Z.abs (now + 28800000) <= maxTime ->
  let remaining := expiry - (now + 28800000) in
  (remaining < 60000 ->
     countdownTick legacy now v
     = {| shown := setQRData None (setShowQRModal false (shown v));
          remainingTime := "expired" |})
  /\ (60000 <= remaining < 2 ^ 53 ->
      exists n,
        1 <= n /\ 60000 * n <= remaining < 60000 * (n + 1)
        /\ countdownTick legacy now v
           = {| shown := shown v;
                remainingTime := Number_toString (Some n) ++ " minutes" |}).
Proof.
  intros Hq Hd Hc remaining. unfold countdownTick. rewrite Hq, Hd.
  rewrite getPhilippineTime_eq, (TimeClip_valid _ Hc).
  cbn [getTime num_sub num_floor_div num_le].
  change (1000 * 60) with 60000. fold remaining.
  split.
  - intros H.
    replace (remaining / 60000 <=? 0) with true; [reflexivity|].
    symmetry. apply Z.leb_le. Z.div_mod_to_equations. lia.
  - intros H. exists (remaining / 60000).
    replace (remaining / 60000 <=? 0) with false.
    + repeat split; try reflexivity; Z.div_mod_to_equations; lia.
    + symmetry. apply Z.leb_gt. Z.div_mod_to_equations. lia.
Qed.

(** X9: the QR button during the last minute of a session: the session
    still counts as valid, so the card shows its QR code and does not
    offer a new one; the next tick of the countdown takes the QR code
    down again. *)
Theorem last_minute_press_shows_then_clears (records : list AttendanceRecord)
    (r : AttendanceRecord) (expiry now tick : Z) (st : CardState)
    (label : string) :
  find (stillValid legacy (getPhilippineTime now)) records = Some r ->
  Date_parse legacy (expiresAt r) = Some expiry ->
  Z.abs (tick + 28800000) <= maxTime ->
  expiry - (tick + 28800000) < 60000 ->
  let pressed := handleGenerateQR legacy (Ok records) now st in
  qrData pressed = Some (qrCodeData r, expiresAt r)
  /\ showQRModal pressed = true
  /\ showConfirmModal pressed = showConfirmModal st
  /\ countdownTick legacy tick {| shown := pressed; remainingTime := label |}
     = {| shown := setQRData None (setShowQRModal false pressed);
          remainingTime := "expired" |}.
Proof.
  intros Hf Hd Hc Hlast pressed.
  assert (Hp : pressed
               = setShowQRModal true
                   (setQRData (Some (qrCodeData r, expiresAt r)) st)).
  { subst pressed. unfold handleGenerateQR, checkExistingQRCode.
    now rewrite Hf. }
  rewrite Hp. repeat split.
  unfold countdownTick. cbn [shown qrData setShowQRModal setQRData].
  rewrite Hd, getPhilippineTime_eq, (TimeClip_valid _ Hc).
  cbn [getTime num_sub num_floor_div num_le].
  change (1000 * 60) with 60000.
  replace ((expiry - (tick + 28800000)) / 60000 <=? 0) with true;
    [reflexivity|].
  symmetry. apply Z.leb_le. Z.div_mod_to_equations. lia.
Qed.

(** X10: a QR code whose expiry the engine cannot read is never taken
    down by the countdown: after any ticks the card is as it was, and the
    label reads [NaN minutes]. *)
Theorem unreadable_expiry_stays_up (clocks : list Z) (v : Countdown)
    (q e : string) :
  qrData (shown v) = Some (q, e) ->
  Date_parse legacy e = None ->
  let final := fold_left (fun w now => countdownTick legacy now w) clocks v in
  shown final = shown v
  /\ (clocks <> [] -> remainingTime final = "NaN minutes").
Proof.
  intros Hq Hd.
  assert (Htick : forall now w,
             shown w = shown v ->
             countdownTick legacy now w
             = {| shown := shown v; remainingTime := "NaN minutes" |}).
  { intros now w Hw. unfold countdownTick. rewrite Hw, Hq, Hd.
    now destruct (getPhilippineTime now). }
  assert (Hrun : forall cs w,
             shown w = shown v ->
             shown (fold_left (fun w now => countdownTick legacy now w) cs w)
             = shown v
             /\ (remainingTime w = "NaN minutes" \/ cs <> [] ->
                 remainingTime
                   (fold_left (fun w now => countdownTick legacy now w) cs w)
                 = "NaN minutes")).
  { induction cs as [|c cs IH]; intros w Hw; cbn [fold_left].
    - split; [exact Hw|]. intros [H | H]; [exact H | contradiction].
    - rewrite (Htick c w Hw).
      destruct (IH {| shown := shown v; remainingTime := "NaN minutes" |}
                  eq_refl) as [H1 H2].
      split; [exact H1|]. intros _. apply H2. now left. }
  intros final. subst final. destruct (Hrun clocks v eq_refl) as [H1 H2].
  split; [exact H1|]. intros H. apply H2. now right.
Qed.

(** X11: the attendance list shows every session of the answer once,
    the most recently generated first, when the engine reads every
    [generatedAt]; opening it resets the badge. *)
Theorem attendance_list_newest_first (records : list AttendanceRecord)
    (v : AttendanceView) :
  Forall (fun r => exists t, Date_parse legacy (generatedAt r) = Some t)
         records ->
  let opened := handleViewAttendance legacy (Ok records) v in
  Permutation records (attendanceRecords opened)
  /\ StronglySorted
       (fun a b => exists ta tb,
          Date_parse legacy (generatedAt a) = Some ta
          /\ Date_parse legacy (generatedAt b) = Some tb
          /\ tb <= ta)
       (attendanceRecords opened)
  /\ showAttendanceModal opened = true
  /\ newScans (viewed opened) = 0.
Proof.
  intros Hr opened. subst opened. cbn [handleViewAttendance attendanceRecords
    showAttendanceModal viewed newScans setNewScans].
  split; [apply sort_perm|]. split; [|now split].
  apply (sort_sorted _ _ _
           (fun r => exists t, Date_parse legacy (generatedAt r) = Some t));
    [| | |exact Hr].
  - intros x y [tx Hx] [ty Hy] H. unfold byGeneratedAt in H.
    rewrite Hx, Hy in H. cbn in H. apply Z.ltb_lt in H.
    exists ty, tx. repeat split; try assumption. lia.
  - intros x y [tx Hx] [ty Hy] H. unfold byGeneratedAt in H.
    rewrite Hx, Hy in H. cbn in H. apply Z.ltb_ge in H.
    exists tx, ty. repeat split; try assumption. lia.
  - intros x y z _ _ _ (tx & ty & Hx & Hy & Hxy) (ty' & tz & Hy' & Hz & Hyz).
    rewrite Hy in Hy'. injection Hy' as <-.
    exists tx, tz. repeat split; try assumption. lia.
Qed.

Lemma fold_total (f : AttendanceRecord -> Z) (records : list AttendanceRecord)
    (acc : Z) :
  fold_left (fun total record => total + f record) records acc
  = acc + fold_left (fun total record => total + f record) records 0.
Proof.
  revert acc. induction records as [|r rs IH]; intros acc; cbn [fold_left].
  - lia.
  - rewrite (IH (acc + f r)), (IH (0 + f r)). lia.
Qed.

Lemma totalScans_cons (r : AttendanceRecord) (rs : list AttendanceRecord) :
  totalScans (r :: rs) = Z.of_nat (List.length (scannedBy r)) + totalScans rs.
Proof.
  unfold totalScans. cbn [fold_left].
  rewrite (fold_total (fun record => Z.of_nat (List.length (scannedBy record)))).
  lia.
Qed.

Lemma totalScans_nonneg (rs : list AttendanceRecord) : 0 <= totalScans rs.
Proof.
  induction rs as [|r rs IH]; [unfold totalScans; cbn; lia|].
  rewrite totalScans_cons. lia.
Qed.

Lemma fold_cond (p : AttendanceRecord -> bool) (f : AttendanceRecord -> Z)
    (records : list AttendanceRecord) (acc : Z) :
  fold_left (fun count record => if p record then count + f record else count)
            records acc
  = acc + fold_left
            (fun count record => if p record then count + f record else count)
            records 0.
Proof.
  revert acc. induction records as [|r rs IH]; intros acc; cbn [fold_left].
  - lia.
  - rewrite (IH (if p r then acc + f r else acc)),
            (IH (if p r then 0 + f r else 0)).
    destruct (p r); lia.
Qed.

(** X12: the badge is the total of the scans of the sessions generated up
    to five minutes before the shifted clock, or after it; sessions whose
    [generatedAt] the engine cannot read count for nothing; so the badge
    lies between zero and the total that the attendance list shows for
    the same answer. *)
Theorem badge_counts_recent_sessions (phTime : Date)
    (records : list AttendanceRecord) :
  recentScans legacy phTime records
  = totalScans
      (filter
         (fun r =>
            match phTime, Date_parse legacy (generatedAt r) with
            | Some ph, Some g => ph - g <=? 300000
            | _, _ => false
            end)
         records)
  /\ 0 <= recentScans legacy phTime records <= totalScans records.
Proof.
  assert (Hcons : forall r rs,
             recentScans legacy phTime (r :: rs)
             = (if match phTime, Date_parse legacy (generatedAt r) with
                   | Some ph, Some g => ph - g <=? 300000
                   | _, _ => false
                   end
                then Z.of_nat (List.length (scannedBy r)) else 0)
               + recentScans legacy phTime rs).
  { intros r rs.
    pose (recent := fun record =>
            num_le (num_sub (getTime phTime)
                      (getTime (Date_parse legacy (generatedAt record))))
                   (Some (5 * 60 * 1000))).
    change (recentScans legacy phTime rs)
      with (fold_left
              (fun count record =>
                 if recent record
                 then count + Z.of_nat (List.length (scannedBy record))
                 else count) rs 0).
    change (recentScans legacy phTime (r :: rs))
      with (fold_left
              (fun count record =>
                 if recent record
                 then count + Z.of_nat (List.length (scannedBy record))
                 else count) (r :: rs) 0).
    cbn [fold_left]. rewrite fold_cond. subst recent. unfold getTime.
    cbv beta.
    destruct phTime as [ph|], (Date_parse legacy (generatedAt r)) as [g|];
      cbn [num_sub num_le]; reflexivity. }
  induction records as [|r rs [IH1 IH2]].
  - split; [reflexivity|]. unfold recentScans, totalScans. cbn. lia.
  - rewrite Hcons. cbn [filter]. rewrite (totalScans_cons r rs).
    destruct (match phTime, Date_parse legacy (generatedAt r) with
              | Some ph, Some g => ph - g <=? 300000
              | _, _ => false
              end).
    + rewrite totalScans_cons. split; lia.
    + split; lia.
Qed.

Lemma handleNewScan_keeps (now later : Z)
    (resp : Response (list AttendanceRecord)) (st : CardState) :
  let t := handleNewScan legacy now later resp st in
  qrData (after t) = qrData st
  /\ showQRModal (after t) = showQRModal st
  /\ showConfirmModal (after t) = showConfirmModal st
  /\ (lastCheckTime (after t) = lastCheckTime st
      \/ lastCheckTime (after t) = now).
Proof.
  unfold handleNewScan.
  destruct (now - lastCheckTime st <? 3000); [now repeat split; try left|].
  destruct resp; cbn; repeat split; auto.
Qed.

Lemma pollerRun_spaced (ticks : list TickInput) (st : CardState) (last : Z) :
  lastCheckTime st <= last ->
  spaced last ticks ->
  let '(sent, final) := pollerRun legacy ticks st in
  sent = map (fun _ => true) ticks
  /\ qrData final = qrData st
  /\ showQRModal final = showQRModal st
  /\ showConfirmModal final = showConfirmModal st.
Proof.
  revert st last. induction ticks as [|i rest IH]; intros st last Hl Hs.
  - now cbn.
  - cbn [pollerRun spaced] in *. destruct Hs as [H3 Hs].
    pose proof (handleNewScan_keeps (started i) (answered i) (answer i) st)
      as (K1 & K2 & K3 & K4).
    assert (Hf : fetched (handleNewScan legacy (started i) (answered i)
                            (answer i) st) = true).
    { unfold handleNewScan.
      replace (started i - lastCheckTime st <? 3000) with false
        by (symmetry; apply Z.ltb_ge; lia).
      now destruct (answer i). }
    specialize (IH (after (handleNewScan legacy (started i) (answered i)
                             (answer i) st)) (started i)).
    destruct (pollerRun legacy rest _) as [sent final].
    destruct IH as (I1 & I2 & I3 & I4); [destruct K4; lia | exact Hs |].
    rewrite Hf, I1. cbn [map]. repeat split; congruence.
Qed.

(** X13: the life of the poller on a card mounted at [t]: the check that
    the effect makes at mount, within three seconds of [t], is throttled
    and sends nothing; every later tick that starts three seconds or more
    after [t] and after the tick before it, as the ten-second interval has
    them, sends its request, whether or not the earlier answers came; and
    no tick touches the QR code or the two modals. *)
Theorem poller_life (t : Z) (first : TickInput) (ticks : list TickInput) :
  started first - t < 3000 ->
  spaced t ticks ->
  let '(sent, final) := pollerRun legacy (first :: ticks) (mounted t) in
  sent = false :: map (fun _ => true) ticks
  /\ qrData final = None
  /\ showQRModal final = false
  /\ showConfirmModal final = false.
Proof.
  intros H0 Hs. cbn [pollerRun].
  assert (E : handleNewScan legacy (started first) (answered first)
                (answer first) (mounted t)
              = {| after := mounted t; fetched := false |}).
  { unfold handleNewScan. cbn [lastCheckTime mounted].
    now replace (started first - t <? 3000) with true
      by (symmetry; apply Z.ltb_lt; lia). }
  rewrite E. cbn [after fetched].
  pose proof (pollerRun_spaced ticks (mounted t) t) as H.
  destruct (pollerRun legacy ticks (mounted t)) as [sent final].
  destruct H as (-> & H2 & H3 & H4); [cbn; lia | exact Hs |].
  now repeat split.
Qed.

End Views.

(** The QR code of the first sample session, an hour before it expires on
    the shifted clock. *)
Lemma countdown_takes_down_in_last_minute_witness :
  let remaining := 1747581677727 - (1747549277727 + 28800000) in
  (remaining < 60000 ->
     countdownTick no_legacy 1747549277727 countdown_qr1
     = {| shown := setQRData None (setShowQRModal false (shown countdown_qr1));
          remainingTime := "expired" |})
  /\ (60000 <= remaining < 2 ^ 53 ->
      exists n,
        1 <= n /\ 60000 * n <= remaining < 60000 * (n + 1)
        /\ countdownTick no_legacy 1747549277727 countdown_qr1
           = {| shown := shown countdown_qr1;
                remainingTime := Number_toString (Some n) ++ " minutes" |}).
Proof.
  apply (countdown_takes_down_in_last_minute no_legacy 1747549277727
           countdown_qr1 "qr-1" "2025-05-18T15:21:17.727Z" 1747581677727).
  - reflexivity.
  - reflexivity.
  - unfold maxTime. lia.
Defined.

(** The QR button pressed ten seconds before the first sample session
    expires on the shifted clock, and the tick one second later. *)
Lemma last_minute_press_shows_then_clears_witness :
  let pressed :=
    handleGenerateQR no_legacy (Ok [session1]) 1747552867727 card0 in
  qrData pressed = Some (qrCodeData session1, expiresAt session1)
  /\ showQRModal pressed = true
  /\ showConfirmModal pressed = showConfirmModal card0
  /\ countdownTick no_legacy 1747552868727
       {| shown := pressed; remainingTime := EmptyString |}
     = {| shown := setQRData None (setShowQRModal false pressed);
          remainingTime := "expired" |}.
Proof.
  apply (last_minute_press_shows_then_clears no_legacy [session1] session1
           1747581677727 1747552867727 1747552868727 card0 EmptyString).
  - reflexivity.
  - reflexivity.
  - unfold maxTime. lia.
  - lia.
Defined.

Lemma unreadable_expiry_stays_up_witness :
  let final :=
    fold_left (fun w now => countdownTick no_legacy now w)
              [1747549277727; 1747549278727] countdown_soon in
  shown final = shown countdown_soon
  /\ ([1747549277727; 1747549278727] <> [] ->
      remainingTime final = "NaN minutes").
Proof.
  apply (unreadable_expiry_stays_up no_legacy [1747549277727; 1747549278727]
           countdown_soon "qr-x" "soon").
  - reflexivity.
  - reflexivity.
Defined.

Lemma attendance_list_newest_first_witness :
  let opened :=
    handleViewAttendance no_legacy (Ok [session1; session2]) view0 in
  Permutation [session1; session2] (attendanceRecords opened)
  /\ StronglySorted
       (fun a b => exists ta tb,
          Date_parse no_legacy (generatedAt a) = Some ta
          /\ Date_parse no_legacy (generatedAt b) = Some tb
          /\ tb <= ta)
       (attendanceRecords opened)
  /\ showAttendanceModal opened = true
  /\ newScans (viewed opened) = 0.
Proof.
  apply (attendance_list_newest_first no_legacy [session1; session2] view0).
  repeat constructor; eexists; reflexivity.
Defined.

Example attendance_list_sample :
  attendanceRecords
    (handleViewAttendance no_legacy (Ok [session1; session2]) view0)
  = [session2; session1].
Proof. reflexivity. Qed.

(** A card mounted at the epoch: the check at mount, then two ticks of
    the interval, the second of them without an answer. *)
Lemma poller_life_witness :
  let '(sent, final) :=
    pollerRun no_legacy (tick_mount :: [tick_10s; tick_20s]) (mounted 0) in
  sent = false :: map (fun _ => true) [tick_10s; tick_20s]
  /\ qrData final = None
  /\ showQRModal final = false
  /\ showConfirmModal final = false.
Proof.
  apply (poller_life no_legacy 0 tick_mount [tick_10s; tick_20s]).
  - cbn. lia.
  - cbn. lia.
Defined.

End CardViewFacts.

(** ** The department chips *)

Module DepartmentFacts.
Import JSDate JSArray Api Departments SortFacts.
Import Samples.
Local Open Scope string_scope.
Local Open Scope Z_scope.

Lemma ascii_compare_trans (x y z : ascii) :
  Ascii.compare x y <> Gt -> Ascii.compare y z <> Gt ->
  Ascii.compare x z <> Gt
  /\ (Ascii.compare x z = Eq ->
      Ascii.compare x y = Eq /\ Ascii.compare y z = Eq).
Proof.
  unfold Ascii.compare.
  destruct (N.compare_spec (N_of_ascii x) (N_of_ascii y)),
           (N.compare_spec (N_of_ascii y) (N_of_ascii z)),
           (N.compare_spec (N_of_ascii x) (N_of_ascii z));
    intros; split; try congruence; try lia; intros; try lia; try discriminate;
    now split.
Qed.

Lemma compare_le_trans (a b c : string) :
  String.compare a b <> Gt -> String.compare b c <> Gt ->
  String.compare a c <> Gt.
Proof.
  revert b c. induction a as [|x a IH]; intros [|y b] [|z c]; cbn;
    try congruence.
  intros Hab Hbc.
  assert (Hxy : Ascii.compare x y <> Gt)
    by (destruct (Ascii.compare x y); congruence).
  assert (Hyz : Ascii.compare y z <> Gt)
    by (destruct (Ascii.compare y z); congruence).
  destruct (ascii_compare_trans x y z Hxy Hyz) as [Hxz Heq].
  destruct (Ascii.compare x z) eqn:E; try congruence.
  destruct (Heq eq_refl) as [E1 E2]. rewrite E1 in Hab. rewrite E2 in Hbc.
  now apply (IH b c).
Qed.

Lemma sort_strings_sorted (l : list string) :
  StronglySorted (fun a b => String.compare a b <> Gt)
                 (sort defaultCompare l).
Proof.
  apply (sort_sorted _ _ _ (fun _ => True)).
  - intros x y _ _ H. unfold defaultCompare in H. cbn in H.
    rewrite String.compare_antisym.
    destruct (String.compare x y); cbn in *; congruence.
  - intros x y _ _ H. unfold defaultCompare in H. cbn in H.
    destruct (String.compare x y); cbn in *; congruence.
  - intros x y z _ _ _. apply compare_le_trans.
  - now apply Forall_forall.
Qed.

Lemma sorted_strict (l : list string) :
  NoDup l ->
  StronglySorted (fun a b => String.compare a b <> Gt) l ->
  StronglySorted (fun a b => String.compare a b = Lt) l.
Proof.
  induction l as [|a l IH]; intros Hn Hs; [constructor|].
  apply NoDup_cons_iff in Hn as [Ha Hn].
  apply StronglySorted_inv in Hs as [Hs Hal].
  constructor; [now apply IH|].
  rewrite Forall_forall in Hal |- *. intros b Hb.
  specialize (Hal b Hb).
  destruct (String.compare a b) eqn:E; try congruence.
  apply String.compare_eq_iff in E. now subst.
Qed.

Lemma add_In (p q : string) (set : list string) :
  In q (add p set) <-> q = p \/ In q set.
Proof.
  unfold add. destruct (existsb (String.eqb p) set) eqn:E.
  - split; [now right|]. intros [-> | H]; [|exact H].
    apply existsb_exists in E as (x & Hx & Ex).
    apply String.eqb_eq in Ex. now subst.
  - rewrite in_app_iff. cbn. intuition.
Qed.

Lemma add_NoDup (p : string) (set : list string) :
  NoDup set -> NoDup (add p set).
Proof.
  intros Hn. unfold add. destruct (existsb (String.eqb p) set) eqn:E;
    [exact Hn|].
  apply NoDup_app; [exact Hn | repeat constructor; intros [] |].
  intros x Hx [-> | []].
  assert (existsb (String.eqb x) set = true); [|congruence].
  apply existsb_exists. exists x. split; [exact Hx | apply String.eqb_refl].
Qed.

Lemma prefixSet_spec (courses : list Course) (set : list string) :
  let prefixSet :=
    fold_left
      (fun set course =>
         match matchPrefix (courseCode course) with
         | Some p => add p set
         | None => set
         end)
      courses set in
  (NoDup set -> NoDup prefixSet)
  /\ forall p, In p prefixSet
               <-> In p set
                   \/ exists course,
                        In course courses
                        /\ matchPrefix (courseCode course) = Some p.
Proof.
  revert set. induction courses as [|c cs IH]; intros set; cbn [fold_left].
  - split; [auto|]. intros p. split; [now left|].
    intros [H | (course & [] & _)]. exact H.
  - destruct (IH (match matchPrefix (courseCode c) with
                  | Some p => add p set
                  | None => set
                  end)) as [IH1 IH2].
    split.
    + intros Hn. apply IH1.
      destruct (matchPrefix (courseCode c)); [now apply add_NoDup | exact Hn].
    + intros p. rewrite IH2. split.
      * intros [H | (course & Hin & Hm)].
        -- destruct (matchPrefix (courseCode c)) as [p'|] eqn:E;
             [|now left].
           apply add_In in H as [-> | H]; [|now left].
           right. exists c. split; [now left | exact E].
        -- right. exists course. split; [now right | exact Hm].
      * intros [H | (course & [<- | Hin] & Hm)].
        -- left. destruct (matchPrefix (courseCode c));
             [apply add_In; now right | exact H].
        -- left. rewrite Hm. apply add_In. now left.
        -- right. now exists course.
Qed.

Lemma capitals_prefix (s : string) : String.prefix (capitals s) s = true.
Proof.
  induction s as [|c r IH]; [reflexivity|].
  cbn [capitals]. destruct (is_upper c); [|reflexivity].
  cbn [String.prefix]. now destruct (ascii_dec c c).
Qed.

Lemma capitals_upper (s : string) :
  Forall (fun c => is_upper c = true) (list_ascii_of_string (capitals s)).
Proof.
  induction s as [|c r IH]; [constructor|].
  cbn [capitals]. destruct (is_upper c) eqn:E; [|constructor].
  cbn [list_ascii_of_string]. now constructor.
Qed.

Lemma matchPrefix_some (code p : string) :
  matchPrefix code = Some p ->
  p = capitals code /\ p <> EmptyString.
Proof.
  unfold matchPrefix. destruct (capitals code) eqn:E; [discriminate|].
  intros H. injection H as <-. split; [reflexivity | discriminate].
Qed.

(** X14: the department chips of a dashboard that has courses: they are
    in strictly ascending order, so none shows twice; a chip is there
    exactly when it is the run of capitals that leads the code of one of
    the courses; each is made of capitals only, at least one; and each
    selects at least one course in the department filter.  With no
    course the chips stay what they were. *)
Theorem department_chips (courses : list Course) (semesters : list string) :
  let chips := extractSemesters courses semesters in
  (courses = [] -> chips = semesters)
  /\ (courses <> [] ->
      StronglySorted (fun a b => String.compare a b = Lt) chips
      /\ (forall p,
            In p chips
            <-> exists course,
                  In course courses
                  /\ matchPrefix (courseCode course) = Some p)
      /\ (forall p,
            In p chips ->
            p <> EmptyString
            /\ Forall (fun c => is_upper c = true) (list_ascii_of_string p)
            /\ byDepartment p courses <> [])).
Proof.
  intros chips. split; [now intros ->|].
  intros Hne. subst chips. unfold extractSemesters.
  replace (0 <? Z.of_nat (List.length courses)) with true
    by (symmetry; apply Z.ltb_lt; destruct courses; [contradiction | cbn; lia]).
  destruct (prefixSet_spec courses []) as [Hnd Hin].
  specialize (Hnd (NoDup_nil _)).
  set (prefixSet := fold_left _ courses []) in *.
  assert (Hmem : forall p,
             In p (sort defaultCompare prefixSet)
             <-> exists course,
                   In course courses
                   /\ matchPrefix (courseCode course) = Some p).
  { intros p. split.
    - intros H.
      apply (Permutation_in _ (Permutation_sym (sort_perm _ prefixSet))) in H.
      apply Hin in H as [[] | H]. exact H.
    - intros H.
      apply (Permutation_in _ (sort_perm _ prefixSet)).
      apply Hin. now right. }
  split; [|split; [exact Hmem|]].
  - apply sorted_strict; [|apply sort_strings_sorted].
    apply (Permutation_NoDup (sort_perm _ prefixSet) Hnd).
  - intros p Hp. apply Hmem in Hp as (course & Hc & Hm).
    apply matchPrefix_some in Hm as [-> Hn].
    split; [exact Hn|]. split; [apply capitals_upper|].
    intros He.
    assert (Hf : In course (byDepartment (capitals (courseCode course))
                                         courses)).
    { apply filter_In. split; [exact Hc|]. apply capitals_prefix. }
    rewrite He in Hf. destruct Hf.
Qed.

Example department_chips_sample :
  extractSemesters [math201; cs101; math201] ["OLD"] = ["CS"; "MATH"]
  /\ extractSemesters [] ["OLD"] = ["OLD"].
Proof. split; reflexivity. Qed.

End DepartmentFacts.

(** ** What a token identifies *)

Module MintFacts.
Import JSDate JSDateFacts JSON JSONFacts Api Lecturer Lecturer.LecturerDashboard.
Import TokenFacts Samples.
Local Open Scope string_scope.
Local Open Scope Z_scope.

(** X15: the text of a token of the dashboard's [generateQRData]
    determines what it was minted from: two mints that give the same
    text, at shifted times of the years 0 to 9999, are for courses with
    the same id, code and name and were made at the same millisecond. *)
Theorem token_identifies_course_and_time (now now' : Z)
    (course course' : Course) (data : string) :
  generateQRData now course = Some data ->
  generateQRData now' course' = Some data ->
  minISO <= now + 28800000 <= maxISO ->
  minISO <= now' + 28800000 <= maxISO ->
  _id course = _id course'
  /\ courseCode course = courseCode course'
  /\ courseName course = courseName course'
  /\ now = now'.
Proof.
  intros H H' Hr Hr'.
  apply generateQRData_inv in H as (gs & es & _ & _ & Hgs & _ & ->).
  apply generateQRData_inv in H' as (gs' & es' & _ & _ & Hgs' & _ & E).
  apply (f_equal parse) in E. rewrite !parse_qrPayload in E.
  injection E as E1 E2 E3 E4 _.
  repeat split; try assumption.
  subst gs'.
  destruct (toISOString_reads_back no_legacy _ gs Hr Hgs) as [D _].
  destruct (toISOString_reads_back no_legacy _ gs Hr' Hgs') as [D' _].
  rewrite D in D'. injection D' as D'. lia.
Qed.

Lemma token_identifies_course_and_time_witness :
  _id cs101 = _id cs101
  /\ courseCode cs101 = courseCode cs101
  /\ courseName cs101 = courseName cs101
  /\ 1747549277727 = 1747549277727.
Proof.
  apply (token_identifies_course_and_time 1747549277727 1747549277727
           cs101 cs101 token).
  - reflexivity.
  - reflexivity.
  - unfold minISO, maxISO. lia.
  - unfold minISO, maxISO. lia.
Defined.

End MintFacts.

(** ** The two dashboards at the same instant *)

Module WindowFacts.
Import JSDate JSON Api Student ScanFacts.
Import Lecturer Lecturer.LecturerDashboard Lecturer.CourseCard CardViews.
Import TokenFacts Samples ViewSamples.
Local Open Scope string_scope.
Local Open Scope Z_scope.

(** X16: the lecturer's card and the student's handler read the same
    [expiresAt] against different clocks: the countdown against the clock
    moved eight hours ahead, less a minute, the handler against the
    device clock.  So at any device time in the eight hours and one
    minute that end at the expiry, the card has taken the QR code down
    while the scan of an enrolled student for that course is still
    sent. *)
Theorem taken_down_and_still_accepted (legacy : string -> option Z)
    (object_date : value -> option Date) (courses : list Course)
    (currentUserId : string) (scanning : Course) (v : Countdown)
    (data e : string) (obj : value) (expiry now : Z) (reply : Response unit) :
  qrData (shown v) = Some (data, e) ->
  parse data = Some obj ->
  get obj "courseId" = Some (Some (JStr (_id scanning))) ->
  get obj "expiresAt" = Some (Some (JStr e)) ->
  e <> EmptyString ->
  Date_parse legacy e = Some expiry ->
  enrolledIn courses (_id scanning) currentUserId ->
  Z.abs (now + 28800000) <= maxTime ->
  expiry - 28800000 - 60000 < now <= expiry ->
  qrData (shown (countdownTick legacy now v)) = None
  /\ showQRModal (shown (countdownTick legacy now v)) = false
  /\ handleBarCodeScanned legacy object_date courses (Some scanning)
       currentUserId data now reply
     = Submitted (scanOf data currentUserId scanning) reply.
Proof.
  intros Hq Hp Hc He Hne Hd Hen Hclock Hnow.
  assert (Ht : countdownTick legacy now v
               = {| shown := setQRData None (setShowQRModal false (shown v));
                    remainingTime := "expired" |}).
  { unfold countdownTick. rewrite Hq, Hd.
    rewrite getPhilippineTime_eq, (TimeClip_valid _ Hclock).
    cbn [getTime num_sub num_floor_div num_le].
    change (1000 * 60) with 60000.
    replace ((expiry - (now + 28800000)) / 60000 <=? 0) with true;
      [reflexivity|].
    symmetry. apply Z.leb_le. Z.div_mod_to_equations. lia. }
  rewrite Ht. split; [reflexivity|]. split; [reflexivity|].
  rewrite (handle_at_expiry legacy object_date courses currentUserId scanning
             data now reply obj e expiry Hp Hc Hen He Hne Hd).
  now replace (expiry <? now) with false by (symmetry; apply Z.ltb_ge; lia).
Qed.

(** The sample token on the card and under the student's camera at
    2025-05-18T07:21:17.727Z on both devices, eight hours before the
    expiry it states. *)
Lemma taken_down_and_still_accepted_witness :
  qrData (shown (countdownTick no_legacy 1747552877727 countdown_token)) = None
  /\ showQRModal (shown (countdownTick no_legacy 1747552877727
                           countdown_token)) = false
  /\ handleBarCodeScanned no_legacy no_object_date [cs101; math201]
       (Some cs101) "s1" token 1747552877727 (Ok tt)
     = Submitted (scanOf token "s1" cs101) (Ok tt).
Proof.
  apply (taken_down_and_still_accepted no_legacy no_object_date
           [cs101; math201] "s1" cs101 countdown_token token
           "2025-05-18T15:21:17.727Z"
           (qrObject "66f0c1" "CS101" "Logic /\ Proofs"
                     "2025-05-18T14:21:17.727Z" "2025-05-18T15:21:17.727Z")
           1747581677727 1747552877727 (Ok tt)).
  - reflexivity.
  - reflexivity.
  - reflexivity.
  - reflexivity.
  - discriminate.
  - reflexivity.
  - exact cs101_roster_s1.
  - unfold maxTime. lia.
  - lia.
Defined.

End WindowFacts.
